(** * Currency exchange dashboard: the fetch / parse / assemble core

    A shallow embedding of [currency_dashboard.py] and the properties its
    specification states about it.  The Python built-ins and the library
    calls the functions rely on ([str.strip], [float], [datetime],
    the retrying transport adapter) are modelled in their own modules,
    before the functions of the dashboard themselves. *)

From Stdlib Require Import ZArith List String Ascii Bool Arith Lia SpecFloat.
From Stdlib Require Import DecimalString.
Import ListNotations.

(** ** Python strings

    A [str] is modelled by a Rocq [string] whose characters are the code
    points below 256. *)
Module PyStr.

Definition code (c : ascii) : nat := nat_of_ascii c.

(** [str.isspace] on one character: TAB..CR, FS..US, space, NEL, NBSP. *)
Definition isspace (c : ascii) : bool :=
  let n := code c in
  ((9 <=? n) && (n <=? 13)) || ((28 <=? n) && (n <=? 32))
  || (n =? 133) || (n =? 160).

Fixpoint lstrip (s : string) : string :=
  match s with
  | EmptyString => EmptyString
  | String c r => if isspace c then lstrip r else s
  end.

Fixpoint rstrip (s : string) : string :=
  match s with
  | EmptyString => EmptyString
  | String c r =>
      match rstrip r with
      | EmptyString => if isspace c then EmptyString else String c EmptyString
      | r' => String c r'
      end
  end.

(** [s.strip()] *)
Definition strip (s : string) : string := rstrip (lstrip s).

(** [s.replace(x, '')] for a one-character [x]. *)
Fixpoint remove_char (x : ascii) (s : string) : string :=
  match s with
  | EmptyString => EmptyString
  | String c r =>
      if Ascii.eqb c x then remove_char x r else String c (remove_char x r)
  end.

(** [sep.join(l)] *)
Fixpoint join (sep : string) (l : list string) : string :=
  match l with
  | [] => EmptyString
  | [x] => x
  | x :: r => x ++ sep ++ join sep r
  end.

Definition isdigit (c : ascii) : bool := (48 <=? code c) && (code c <=? 57).
Definition isupper (c : ascii) : bool := (65 <=? code c) && (code c <=? 90).

Definition lower (c : ascii) : ascii :=
  if isupper c then ascii_of_nat (code c + 32) else c.

Fixpoint lower_str (s : string) : string :=
  match s with
  | EmptyString => EmptyString
  | String c r => String (lower c) (lower_str r)
  end.

Fixpoint forallb_str (p : ascii -> bool) (s : string) : bool :=
  match s with
  | EmptyString => true
  | String c r => p c && forallb_str p r
  end.

(** [str(n)] for a natural number. *)
Definition of_nat (n : nat) : string :=
  DecimalString.NilZero.string_of_uint (Nat.to_uint n).

Fixpoint zeros (n : nat) : string :=
  match n with
  | O => EmptyString
  | S k => String "0" (zeros k)
  end.

(** [s.zfill(w)] for a string of digits. *)
Definition zfill (w : nat) (s : string) : string :=
  zeros (w - String.length s) ++ s.

End PyStr.

(** ** Python floats

    A [float] is an IEEE 754 binary64 value, here a [spec_float] with
    precision 53 and maximal exponent 1024.  [float(s)] follows CPython:
    white space is stripped, underscores are accepted between digits only,
    then the text is an optionally signed [inf], [infinity], [nan] or a
    decimal number with an optional fraction and exponent, rounded to the
    nearest binary64 value. *)
Module PyFloat.
Import PyStr.

Definition float := spec_float.

Definition prec : Z := 53.
Definition emax : Z := 1024.

(** The exactly rounded value of [(-1)^neg * m * 10^e10]. *)
Definition of_decimal (neg : bool) (m : Z) (e10 : Z) : float :=
  match m with
  | Zpos p =>
      match e10 with
      | Zneg k =>
          SFdiv prec emax (S754_finite neg p 0)
                (S754_finite false (Pos.pow 10 k) 0)
      | Z0 => binary_round prec emax neg p 0
      | Zpos k => binary_round prec emax neg (p * Pos.pow 10 k) 0
      end
  | _ => S754_zero neg
  end.

(** C [isspace] in the C locale, what the float parser strips itself. *)
Definition c_isspace (c : ascii) : bool :=
  ((9 <=? code c) && (code c <=? 13)) || (code c =? 32).

(** A [str] that is not pure ASCII is transcribed before parsing: a code
    point below 127 is kept as it is, a Unicode white space from 127 on
    becomes a space, and at the first other character (none is a decimal
    digit in this range) the text ends with a question mark. *)
Fixpoint transcribe (s : string) : string :=
  match s with
  | EmptyString => EmptyString
  | String c r =>
      if code c <? 127 then String c (transcribe r)
      else if isspace c then String " " (transcribe r)
      else String "?" EmptyString
  end.

(** A pure ASCII [str] is taken as it is. *)
Definition to_ascii_space (s : string) : string :=
  if forallb_str (fun c => code c <? 128) s then s else transcribe s.

Fixpoint c_lstrip (s : string) : string :=
  match s with
  | EmptyString => EmptyString
  | String c r => if c_isspace c then c_lstrip r else s
  end.

Fixpoint c_rstrip (s : string) : string :=
  match s with
  | EmptyString => EmptyString
  | String c r =>
      match c_rstrip r with
      | EmptyString => if c_isspace c then EmptyString else String c EmptyString
      | r' => String c r'
      end
  end.

(** Underscores are dropped; one is allowed only after a digit and only
    before a digit. [prev] is the character read before. *)
Fixpoint drop_underscores (prev : ascii) (s : string) : option string :=
  match s with
  | EmptyString => if Ascii.eqb prev "_" then None else Some EmptyString
  | String c r =>
      if Ascii.eqb c "_" then
        if isdigit prev then drop_underscores c r else None
      else if Ascii.eqb prev "_" && negb (isdigit c) then None
      else option_map (String c) (drop_underscores c r)
  end.

(** The longest prefix of digits, as a number and a digit count. *)
Fixpoint digits (acc : Z) (n : nat) (s : string) : Z * nat * string :=
  match s with
  | String c r =>
      if isdigit c then digits (10 * acc + (Z.of_nat (code c) - 48)) (S n) r
      else (acc, n, s)
  | EmptyString => (acc, n, s)
  end.

Definition sign (s : string) : bool * string :=
  match s with
  | String "-" r => (true, r)
  | String "+" r => (false, r)
  | _ => (false, s)
  end.

(** The exponent part: nothing, or [e] / [E], a sign, at least one digit;
    nothing may follow. *)
Definition exponent (s : string) : option Z :=
  match s with
  | EmptyString => Some 0%Z
  | String c r =>
      if Ascii.eqb (lower c) "e" then
        let '(neg, r1) := sign r in
        match digits 0 0 r1 with
        | (_, O, _) => None
        | (e, _, EmptyString) => Some (if neg then (- e)%Z else e)
        | _ => None
        end
      else None
  end.

Definition number (neg : bool) (s : string) : option float :=
  let '(i, ni, r) := digits 0 0 s in
  let '(m, nf, r1) :=
    match r with
    | String "." r' => let '(m, nf, r1) := digits i 0 r' in (m, nf, r1)
    | _ => (i, O, r)
    end in
  match (ni + nf)%nat with
  | O => None
  | _ =>
      match exponent r1 with
      | Some e => Some (of_decimal neg m (e - Z.of_nat nf))
      | None => None
      end
  end.

Definition parse (s : string) : option float :=
  match drop_underscores zero s with
  | None => None
  | Some t =>
      let '(neg, r) := sign t in
      let w := lower_str r in
      if (String.eqb w "inf" || String.eqb w "infinity")%bool
      then Some (S754_infinity neg)
      else if String.eqb w "nan" then Some S754_nan
      else number neg r
  end.

(** [float(s)]: [None] stands for the [ValueError] Python raises. *)
Definition py_float (s : string) : option float :=
  parse (c_rstrip (c_lstrip (to_ascii_space s))).

(** [0 < x] on floats; false on NaN. *)
Definition positive (x : float) : bool := SFltb (S754_zero false) x.

End PyFloat.

(** ** Exceptions, effects and the monad of the embedding *)
Module Py.

(** The exception classes the program can meet.  Every one of them
    derives from [Exception]; [JSONDecodeError] derives from
    [ValueError], and the four transport errors from
    [requests.RequestException]. *)
Inductive exc_class : Type :=
| ValueError
| JSONDecodeError
| AttributeError
| OverflowError
| HTTPError
| RetryError
| ConnectionError
| TooManyRedirects
| OtherException (name : string).

(** An exception object: its class and [str(e)]. *)
Record exn : Type := Exn { exc_type : exc_class; exc_str : string }.

Definition is_ValueError (e : exn) : bool :=
  match exc_type e with
  | ValueError | JSONDecodeError => true
  | _ => false
  end.

Definition is_JSONDecodeError (e : exn) : bool :=
  match exc_type e with
  | JSONDecodeError => true
  | _ => false
  end.

Definition is_RequestException (e : exn) : bool :=
  match exc_type e with
  | HTTPError | RetryError | ConnectionError | TooManyRedirects => true
  | _ => false
  end.

(** [except Exception] *)
Definition is_Exception (e : exn) : bool := true.

(** The outcome of evaluating a Python expression. *)
Inductive result (A : Type) : Type :=
| Ok (a : A)
| Raise (e : exn).
Arguments Ok {A} a.
Arguments Raise {A} e.

Inductive level : Type := INFO | WARNING | ERROR.

(** What a run leaves behind, in the order it happens. *)
Inductive event : Type :=
| Sent (url : string)                  (* one GET put on the wire *)
| Sleep (ms : nat)                     (* [time.sleep], in milliseconds *)
| Log (l : level) (msg : string)       (* [logger.info/warning/error] *)
| StWarning (msg : string)             (* [st.warning] *)
| StInfo (msg : string)                (* [st.info] *)
| StatusText (msg : string)            (* [status_text.text] *)
| Progress (num den : nat)             (* [progress_bar.progress(num/den)] *)
| Placeholder                           (* [st.empty()] *)
| Cleared.                             (* [.empty()] on an element *)

(** A computation: from the number of GETs sent so far to an outcome,
    the new number and the events of this computation. *)
Definition M (A : Type) : Type := nat -> result A * nat * list event.

Definition ret {A} (a : A) : M A := fun n => (Ok a, n, []).

Definition raise {A} (e : exn) : M A := fun n => (Raise e, n, []).

Definition bind {A B} (m : M A) (f : A -> M B) : M B :=
  fun n =>
    match m n with
    | (Ok a, n1, t1) =>
        let '(r, n2, t2) := f a n1 in (r, n2, t1 ++ t2)
    | (Raise e, n1, t1) => (Raise e, n1, t1)
    end.

Definition emit (ev : event) : M unit := fun n => (Ok tt, n, [ev]).

(** An attribute access or call whose outcome does not depend on the
    run. *)
Definition lift {A} (r : result A) : M A := fun n => (r, n, []).

(** [try: body except <catches> as e: handler e] *)
Definition try_except {A} (body : M A) (catches : exn -> bool)
           (handler : exn -> M A) : M A :=
  fun n =>
    match body n with
    | (Raise e, n1, t1) =>
        if catches e then
          let '(r, n2, t2) := handler e n1 in (r, n2, t1 ++ t2)
        else (Raise e, n1, t1)
    | ok => ok
    end.

Definition log (l : level) (msg : string) : M unit := emit (Log l msg).

(** What the caller of a computation started at [n] receives: the value
    returned or the exception raised. *)
Definition returned {A} (m : M A) (n : nat) : result A := fst (fst (m n)).

(** The number of GETs sent once the computation is over. *)
Definition counter {A} (m : M A) (n : nat) : nat := snd (fst (m n)).

(** The events of the computation. *)
Definition trace {A} (m : M A) (n : nat) : list event := snd (m n).

End Py.

Declare Scope py_scope.
Delimit Scope py_scope with py.
Notation "x <- m ;; k" := (Py.bind m (fun x => k))
  (at level 61, m at next level, right associativity) : py_scope.
Notation "m ;;; k" := (Py.bind m (fun _ => k))
  (at level 61, right associativity) : py_scope.

(** ** The parsed document, as the live table parser uses it

    [parse_exchange_table] touches its argument through four calls only.
    Each is a field here, holding what the call gives: a value or the
    exception it raises. *)
Module Bs4.
Import Py.

(** A [td] tag: [.text] *)
Record Cell : Type := { text : result string }.

(** A [tr] tag: [.find_all("td")] *)
Record Row : Type := { find_all_td : result (list Cell) }.

(** A [table] tag: [.find_all("tr")] *)
Record Table : Type := { find_all_tr : result (list Row) }.

(** The document: [.find("table", class_="tablesorter ratesTable")],
    [None] when no such table is in it. *)
Record Soup : Type := { find_rates_table : result (option Table) }.

(** Documents built from plain data: nothing raises. *)
Definition cell (s : string) : Cell := {| text := Ok s |}.
Definition row (cells : list string) : Row :=
  {| find_all_td := Ok (map cell cells) |}.
Definition table (rows : list (list string)) : Table :=
  {| find_all_tr := Ok (map row rows) |}.
Definition soup (t : option (list (list string))) : Soup :=
  {| find_rates_table := Ok (option_map table t) |}.

End Bs4.

(** ** The live table parser *)
Module Live.
Import Py Bs4.
Local Open Scope py_scope.
Local Open Scope string_scope.

(** One row of the live frame: [{"Currency": ..., "Rate": ...}]. *)
Record LiveRate : Type := { Currency : string; Rate : PyFloat.float }.

(** A [pd.DataFrame] of live rates, as the list of its rows;
    [pd.DataFrame()] is the empty list. *)
Definition DataFrame : Type := list LiveRate.

(** [float(s)]; the message quotes [s] plainly where Python uses
    [repr]. *)
Definition float (s : string) : result PyFloat.float :=
  match PyFloat.py_float s with
  | Some x => Ok x
  | None =>
      Raise (Exn ValueError ("could not convert string to float: '" ++ s ++ "'"))
  end.

(** The body of [for row in rows], with [data] the list built so far. *)
Fixpoint parse_rows (rows : list Row) (data : DataFrame) : M DataFrame :=
  match rows with
  | [] => ret data
  | r :: rest =>
      cols <- lift (find_all_td r) ;;
      match cols with
      | c0 :: c1 :: _ =>
          t0 <- lift (text c0) ;;
          let currency := PyStr.strip t0 in
          data' <-
            try_except
              (t1 <- lift (text c1) ;;
               rate <- lift (float (PyStr.remove_char "," (PyStr.strip t1))) ;;
               ret (data ++ [{| Currency := currency; Rate := rate |}])%list)
              is_ValueError
              (fun e =>
                 log WARNING
                     ("Could not parse rate for " ++ currency ++ ": " ++ exc_str e) ;;;
                 ret data) ;;
          parse_rows rest data'
      | _ => parse_rows rest data
      end
  end.

Definition parse_exchange_table (soup : Soup) : M DataFrame :=
  try_except
    (tbl <- lift (find_rates_table soup) ;;
     match tbl with
     | None =>
         log WARNING "Exchange rate table not found" ;;;
         ret []
     | Some t =>
         trs <- lift (find_all_tr t) ;;
         parse_rows (tl trs) []
     end)
    is_Exception
    (fun e =>
       log ERROR ("Error parsing exchange table: " ++ exc_str e) ;;;
       ret []).

End Live.

(** ** Decoded JSON

    What [res.json()] returns: Python values.  A [dict] is the list of its
    items in insertion order (the order [.items()] yields them); its keys
    are strings, as JSON has them. *)
Module PyVal.
Import Py.
Local Open Scope string_scope.

#[warnings="-register-all"]
Inductive pyvalue : Type :=
| PyNone
| PyBool (b : bool)
| PyInt (z : Z)
| PyFloat (x : PyFloat.float)
| PyStr (s : string)
| PyList (l : list pyvalue)
| PyDict (d : list (string * pyvalue)).

Definition type_name (v : pyvalue) : string :=
  match v with
  | PyNone => "NoneType"
  | PyBool _ => "bool"
  | PyInt _ => "int"
  | PyFloat _ => "float"
  | PyStr _ => "str"
  | PyList _ => "list"
  | PyDict _ => "dict"
  end.

Definition no_attribute (v : pyvalue) (name : string) : exn :=
  Exn AttributeError
      ("'" ++ type_name v ++ "' object has no attribute '" ++ name ++ "'").

Fixpoint lookup (key : string) (d : list (string * pyvalue)) : option pyvalue :=
  match d with
  | [] => None
  | (k, v) :: r => if String.eqb k key then Some v else lookup key r
  end.

(** [v.get(key, default)] *)
Definition get (v : pyvalue) (key : string) (default : pyvalue) : result pyvalue :=
  match v with
  | PyDict d =>
      Ok (match lookup key d with Some x => x | None => default end)
  | _ => Raise (no_attribute v "get")
  end.

(** [v.items()] *)
Definition items (v : pyvalue) : result (list (string * pyvalue)) :=
  match v with
  | PyDict d => Ok d
  | _ => Raise (no_attribute v "items")
  end.

End PyVal.

(** ** The HTTP client

    The remote side is a [network]: what the [n]-th GET of the run, sent
    to [url], meets.  An attempt is answered with a response or breaks
    (connection failure, time-out).  Of the headers of an answer the two
    the client acts on are kept: [Retry-After] and [Location].  The
    request header (a fixed [User-Agent]) has no part in what follows and
    is left out.  The URLs are those the session can send, as the two the
    program builds are; an answer comes with its body. *)
Module Http.
Import Py PyVal.
Local Open Scope py_scope.
Local Open Scope string_scope.

(** The body, as [res.json()] sees it: a value, a text that is no JSON
    ([JSONDecodeError]), or a text on which the decoder raises another
    exception [e] ([ValueError] for an integer beyond the digit limit,
    [RecursionError] for a nesting too deep). *)
Inductive body : Type :=
| NotJson (msg : string)
| Json (v : pyvalue)
| Fails (e : exn).

(** [retry_after] is the [Retry-After] header read as seconds, when the
    answer carries one; [location] the [Location] header, resolved
    against the URL of the request. *)
Record Response : Type :=
  { status_code : nat; reason : string; payload : body;
    retry_after : option nat; location : option string }.

(** An answer with neither header. *)
Definition plain (status : nat) (why : string) (b : body) : Response :=
  {| status_code := status; reason := why; payload := b;
     retry_after := None; location := None |}.

Inductive attempt : Type :=
| Answer (r : Response)
| Broken (msg : string).

Definition network : Type := nat -> string -> attempt.

(** [status_forcelist=[429, 500, 502, 503, 504]] *)
Definition status_forcelist : list nat := [429; 500; 502; 503; 504].

Definition is_retry (status : nat) : bool :=
  existsb (Nat.eqb status) status_forcelist.

(** [Retry.RETRY_AFTER_STATUS_CODES] *)
Definition retry_after_status : list nat := [413; 429; 503].

Definition has_retry_after (r : Response) : bool :=
  match retry_after r with Some _ => true | None => false end.

(** [Retry.is_retry], for a GET answered with [r] when [total] retries
    are left: a listed status is retried; so is, while retries are left,
    an answer that carries [Retry-After] with status 413, 429 or 503. *)
Definition retries_answer (total : nat) (r : Response) : bool :=
  is_retry (status_code r)
  || ((0 <? total)%nat && has_retry_after r
      && existsb (Nat.eqb (status_code r)) retry_after_status).

(** [Retry.get_backoff_time], in milliseconds, after [h] failed attempts
    in a row, with [backoff_factor=0.3] (the default of
    [requests_get_with_retry], which no caller changes) and the
    library's ceiling of 120 seconds. *)
Definition backoff_time (h : nat) : nat :=
  if (h <=? 1)%nat then 0%nat
  else Nat.min (120 * 1000) (300 * 2 ^ (h - 1)).

(** [time.sleep], skipped for a pause of no length. *)
Definition pause (ms : nat) : M unit :=
  match ms with
  | O => ret tt
  | S _ => emit (Sleep ms)
  end.

(** [Retry.sleep]: the time [Retry-After] asks for, when the answer
    carries one that is not zero; the back-off time otherwise. *)
Definition sleep (a : attempt) (h : nat) : M unit :=
  match a with
  | Answer r =>
      match retry_after r with
      | Some (S s) => emit (Sleep (1000 * S s))
      | _ => pause (backoff_time h)
      end
  | Broken _ => pause (backoff_time h)
  end.

(** One GET on the wire. *)
Definition send (net : network) (url : string) : M attempt :=
  fun n => (Ok (net n url), S n, [Sent url]).

Definition max_retries_exceeded (url cause : string) : string :=
  "Max retries exceeded with url: " ++ url ++ " (Caused by " ++ cause ++ ")".

(** One request through the adapter mounted with
    [Retry(total=total, backoff_factor=0.3, status_forcelist=...)]: an
    attempt that breaks or whose answer is to be retried is tried again,
    after a pause, while [total] lasts; [history] counts the attempts
    that failed so far. *)
Fixpoint urlopen (net : network) (url : string) (total history : nat)
  : M Response :=
  a <- send net url ;;
  match a with
  | Answer r =>
      if retries_answer total r then
        match total with
        | O =>
            raise (Exn RetryError
                       (max_retries_exceeded url
                          ("ResponseError('too many "
                             ++ PyStr.of_nat (status_code r)
                             ++ " error responses')")))
        | S t => sleep a (S history) ;;; urlopen net url t (S history)
        end
      else ret r
  | Broken msg =>
      match total with
      | O => raise (Exn ConnectionError (max_retries_exceeded url msg))
      | S t => sleep a (S history) ;;; urlopen net url t (S history)
      end
  end.

(** Where the session goes next ([Session.get_redirect_target]): the
    [Location] of an answer with a redirect status; an empty one is not
    followed. *)
Definition redirect_target (r : Response) : option string :=
  if existsb (Nat.eqb (status_code r)) [301; 302; 303; 307; 308]
  then
    match location r with
    | Some (String c u) => Some (String c u)
    | _ => None
    end
  else None.

(** An answer the session follows. *)
Definition is_redirect (r : Response) : bool :=
  match redirect_target r with Some _ => true | None => false end.

(** [Session.max_redirects] *)
Definition max_redirects : nat := 30.

(** The session follows a redirect with a new request, each with the
    retries of the adapter; [hops] is the number of redirects it may
    still follow.  The result is the last answer with the URL that it
    answers ([response.url]). *)
Fixpoint follow (net : network) (total hops : nat) (url : string)
  : M (string * Response) :=
  r <- urlopen net url total 0 ;;
  match redirect_target r with
  | Some target =>
      match hops with
      | S h => follow net total h target
      | O =>
          raise (Exn TooManyRedirects
                     ("Exceeded " ++ PyStr.of_nat max_redirects ++ " redirects."))
      end
  | None => ret (url, r)
  end.

(** [session.get(url)] *)
Definition session_get (net : network) (url : string) (total : nat)
  : M (string * Response) :=
  follow net total max_redirects url.

(** [response.raise_for_status()], for a response that answers [url]. *)
Definition raise_for_status (url : string) (r : Response) : M unit :=
  let s := status_code r in
  if ((400 <=? s) && (s <? 500))%nat then
    raise (Exn HTTPError
               (PyStr.of_nat s ++ " Client Error: " ++ reason r ++ " for url: " ++ url))
  else if ((500 <=? s) && (s <? 600))%nat then
    raise (Exn HTTPError
               (PyStr.of_nat s ++ " Server Error: " ++ reason r ++ " for url: " ++ url))
  else ret tt.

Definition requests_get_with_retry
           (net : network) (url : string) (retries : nat) : M Response :=
  try_except
    (answer <- session_get net url retries ;;
     let '(final, response) := answer in
     raise_for_status final response ;;;
     ret response)
    is_RequestException
    (fun e =>
       log ERROR ("Request failed for " ++ url ++ ": " ++ exc_str e) ;;;
       raise e).

(** [res.json()] *)
Definition json (res : Response) : M pyvalue :=
  match payload res with
  | Json v => ret v
  | NotJson msg => raise (Exn JSONDecodeError msg)
  | Fails e => raise e
  end.

Definition safe_json_load (res : Response) : M pyvalue :=
  try_except
    (json res)
    is_JSONDecodeError
    (fun e =>
       log ERROR ("Failed to decode JSON response: " ++ exc_str e) ;;;
       ret (PyDict [])).

End Http.

(** ** Dates

    A [datetime] is its proleptic Gregorian ordinal (what [toordinal()]
    gives, 1 for 0001-01-01) and its time of day in microseconds.  The
    clock is a sequence: [now i] is what the [i]-th call of
    [datetime.now()] within a computation returns. *)
Module PyDate.
Import Py.
Local Open Scope string_scope.
Local Open Scope Z_scope.

Record datetime : Type := { toordinal : Z; time_of_day : Z }.

Definition clock : Type := nat -> datetime.

(** [date.max.toordinal()] *)
Definition MAXORDINAL : Z := 3652059.

(** [timedelta(days=d)] *)
Definition timedelta (d : Z) : result Z :=
  if Z.abs d <=? 999999999 then Ok d
  else
    Raise (Exn OverflowError "days; must have magnitude <= 999999999").

(** [t - delta], with [delta] a whole number of days. *)
Definition sub (t : datetime) (delta : Z) : result datetime :=
  let o := toordinal t - delta in
  if (0 <? o) && (o <=? MAXORDINAL)
  then Ok {| toordinal := o; time_of_day := time_of_day t |}
  else Raise (Exn OverflowError "date value out of range").

Definition days_before_month (m : Z) : Z :=
  nth (Z.to_nat m) [-1; 0; 31; 59; 90; 120; 151; 181; 212; 243; 273; 304; 334] 0.

Definition days_in_month (m : Z) : Z :=
  nth (Z.to_nat m) [-1; 31; 28; 31; 30; 31; 30; 31; 31; 30; 31; 30; 31] 0.

(** Year, month and day of an ordinal, by the cycles of 400, 100, 4 and 1
    years, as the [datetime] module computes them. *)
Definition ord2ymd (ordinal : Z) : Z * Z * Z :=
  let n := ordinal - 1 in
  let n400 := n / 146097 in
  let n := n mod 146097 in
  let n100 := n / 36524 in
  let n := n mod 36524 in
  let n4 := n / 1461 in
  let n := n mod 1461 in
  let n1 := n / 365 in
  let n := n mod 365 in
  let year := n400 * 400 + 1 + n100 * 100 + n4 * 4 + n1 in
  if (n1 =? 4) || (n100 =? 4) then (year - 1, 12, 31)
  else
    let leapyear := (n1 =? 3) && (negb (n4 =? 24) || (n100 =? 3)) in
    let month := Z.shiftr (n + 50) 5 in
    let preceding :=
      days_before_month month + (if (2 <? month) && leapyear then 1 else 0) in
    if n <? preceding then
      let month := month - 1 in
      let preceding :=
        preceding
        - (days_in_month month + (if (month =? 2) && leapyear then 1 else 0)) in
      (year, month, n - preceding + 1)
    else (year, month, n - preceding + 1).

(** A number in decimal. *)
Definition digits_of (z : Z) : string :=
  DecimalString.NilZero.string_of_uint (N.to_uint (Z.to_N z)).

(** A number in decimal, padded with zeros to [w] digits. *)
Definition decimal (w : nat) (z : Z) : string := PyStr.zfill w (digits_of z).

(** [t.strftime("%Y-%m-%d")], which the interpreter hands to the C
    library.  [%m] and [%d] are two digits.  [%Y] is the year in decimal
    as glibc prints it, with no padding: four digits from the year 1000
    on, fewer before (a library that pads to four digits differs for
    those years only). *)
Definition strftime (t : datetime) : string :=
  let '(y, m, d) := ord2ymd (toordinal t) in
  (digits_of y ++ "-" ++ decimal 2 m ++ "-" ++ decimal 2 d)%string.

End PyDate.

(** ** The historical series assembler *)
Module Hist.
Import Py PyVal Http PyDate.
Local Open Scope py_scope.
Local Open Scope string_scope.

Definition format_date (date_obj : datetime) : string := strftime date_obj.

(** [[f(i) for i in l]]: the elements are evaluated in order, the first
    exception ends the evaluation. *)
Fixpoint comprehension {A B} (f : A -> result B) (l : list A) : result (list B) :=
  match l with
  | [] => Ok []
  | i :: r =>
      match f i with
      | Raise e => Raise e
      | Ok x =>
          match comprehension f r with
          | Ok xs => Ok (x :: xs)
          | Raise e => Raise e
          end
      end
  end.

(** [range(n)] *)
Definition range (n : Z) : list nat := seq 0 (Z.to_nat n).

(** The element of index [i]: [datetime.now()] is called once for it. *)
Definition date_back (now : clock) (i : nat) : result string :=
  match timedelta (Z.of_nat i) with
  | Raise e => Raise e
  | Ok delta =>
      match sub (now i) delta with
      | Raise e => Raise e
      | Ok t => Ok (strftime t)
      end
  end.

Definition generate_date_list (now : clock) (days : Z) : result (list string) :=
  match comprehension (date_back now) (range days) with
  | Ok l => Ok (rev l)
  | Raise e => Raise e
  end.

(** One row of the historical frame:
    [{"Date": ..., "Currency": ..., "Rate": ...}]. *)
Record HistoricalRate : Type :=
  { Date : string; Currency : string; Rate : pyvalue }.

Definition DataFrame : Type := list HistoricalRate.

Definition all_currencies : list string :=
  ["EUR"; "USD"; "JPY"; "GBP"; "TRY"; "CAD"; "INR"; "CNY"].

(** [l.remove(x)] where [x in l]: the first occurrence goes. *)
Fixpoint remove_first (x : string) (l : list string) : list string :=
  match l with
  | [] => []
  | y :: r => if String.eqb y x then r else y :: remove_first x r
  end.

Definition target_currencies (base : string) : list string :=
  if existsb (String.eqb base) all_currencies
  then remove_first base all_currencies
  else all_currencies.

Definition day_url (base date : string) : string :=
  "https://api.exchangerate.host/" ++ date ++ "?base=" ++ base
    ++ "&symbols=" ++ PyStr.join "," (target_currencies base).

Definition records (date : string) (rates : list (string * pyvalue)) : DataFrame :=
  map (fun '(curr, val) => {| Date := date; Currency := curr; Rate := val |}) rates.

(** The [try] block of one day; [all_data] is the list built so far. *)
Definition fetch_day (net : network) (base date : string) (all_data : DataFrame)
  : M DataFrame :=
  res <- requests_get_with_retry net (day_url base date) 3 ;;
  json_data <- safe_json_load res ;;
  rates <- lift (get json_data "rates" (PyDict [])) ;;
  its <- lift (items rates) ;;
  emit (Sleep 100) ;;;
  ret (all_data ++ records date its)%list.

(** [for i, date in enumerate(dates)], from index [i] on; [total] is
    [len(dates)]. *)
Fixpoint fetch_days (net : network) (base : string) (total i : nat)
         (dates : list string) (all_data : DataFrame) : M DataFrame :=
  match dates with
  | [] => ret all_data
  | date :: rest =>
      emit (StatusText ("Fetching data for " ++ date ++ "...")) ;;;
      emit (Progress (i + 1) total) ;;;
      all_data' <-
        try_except
          (fetch_day net base date all_data)
          is_Exception
          (fun e =>
             emit (StWarning ("Failed to fetch data for " ++ date ++ ": " ++ exc_str e)) ;;;
             log WARNING
                 ("Failed to fetch historical data for " ++ date ++ ": " ++ exc_str e) ;;;
             ret all_data) ;;
      fetch_days net base total (S i) rest all_data'
  end.

(** The body of [fetch_historical_data]: what a call that the cache of
    the decorator does not answer runs. *)
Definition fetch_historical_data
           (now : clock) (net : network) (base : string) (days : Z) : M DataFrame :=
  dates <- lift (generate_date_list now days) ;;
  emit (Progress 0 1) ;;;
  emit Placeholder ;;;
  df_hist <- fetch_days net base (List.length dates) 0 dates [] ;;
  emit Cleared ;;;
  emit Cleared ;;;
  match df_hist with
  | [] => emit (StInfo "No historical data could be retrieved.")
  | _ =>
      log INFO
          ("Successfully fetched " ++ PyStr.of_nat (List.length df_hist)
             ++ " historical records for " ++ base)
  end ;;;
  ret df_hist.

End Hist.

(** ** The words of the specification

    Definitions that follow the specification's wording, to compare the
    functions above with. *)
Module Spec.
Import Py PyVal Http PyDate.
Local Open Scope string_scope.

(** *** Live table *)

(** The rate cell "trimmed, thousands-separators stripped". *)
Definition rate_text (cell : string) : string :=
  PyStr.remove_char "," (PyStr.strip cell).

(** The record of a row given by the texts of its cells: the row has at
    least two cells and its rate cell parses as a float. *)
Definition record_of (cells : list string) : option Live.LiveRate :=
  match cells with
  | c0 :: c1 :: _ =>
      match PyFloat.py_float (rate_text c1) with
      | Some x => Some {| Live.Currency := PyStr.strip c0; Live.Rate := x |}
      | None => None
      end
  | _ => None
  end.

Definition well_formed (cells : list string) : bool :=
  match record_of cells with
  | Some _ => true
  | None => false
  end.

(** At least two cells, and a rate cell that does not parse. *)
Definition malformed (cells : list string) : bool :=
  match cells with
  | _ :: c1 :: _ =>
      match PyFloat.py_float (rate_text c1) with
      | Some _ => false
      | None => true
      end
  | _ => false
  end.

(** One record per well-formed row, in row order. *)
Fixpoint records_of (rows : list (list string)) : Live.DataFrame :=
  match rows with
  | [] => []
  | cells :: rest =>
      match record_of cells with
      | Some r => r :: records_of rest
      | None => records_of rest
      end
  end.

(** The record [r] is read off the row [tr]: the trimmed text of its
    first cell and the float its second cell parses to. *)
Definition from_row (tr : Bs4.Row) (r : Live.LiveRate) : Prop :=
  exists c0 c1 more t0 t1,
    Bs4.find_all_td tr = Ok (c0 :: c1 :: more)
    /\ Bs4.text c0 = Ok t0 /\ Bs4.text c1 = Ok t1
    /\ Live.Currency r = PyStr.strip t0
    /\ PyFloat.py_float (rate_text t1) = Some (Live.Rate r).

Definition is_warning (e : event) : bool :=
  match e with
  | Log WARNING _ => true
  | _ => false
  end.

(** A 3-letter uppercase code. *)
Definition is_code (s : string) : bool :=
  match s with
  | String a (String b (String c EmptyString)) =>
      PyStr.isupper a && PyStr.isupper b && PyStr.isupper c
  | _ => false
  end.

(** The invariant the data model states for a live record. *)
Definition live_invariant (r : Live.LiveRate) : bool :=
  is_code (Live.Currency r) && PyFloat.positive (Live.Rate r).

(** *** HTTP client *)


(** *** Historical series *)

(** The outcomes of the per-day requests of a run that starts with [n]
    GETs sent: one request per date, in order. *)
Fixpoint day_requests (net : network) (base : string) (dates : list string)
         (n : nat) : list (result Response) :=
  match dates with
  | [] => []
  | date :: rest =>
      let m := requests_get_with_retry net (Hist.day_url base date) 3 in
      returned m n :: day_requests net base rest (counter m n)
  end.

(** The rates mapping of a response: a JSON object with a [rates] member
    that is a mapping. *)
Definition rates_of_response (r : Response) : option (list (string * pyvalue)) :=
  match payload r with
  | Json (PyDict d) =>
      match lookup "rates" d with
      | Some (PyDict rates) => Some rates
      | _ => None
      end
  | _ => None
  end.

(** A day succeeded when its request returned such a response. *)
Definition rates_of (o : result Response) : option (list (string * pyvalue)) :=
  match o with
  | Ok r => rates_of_response r
  | Raise _ => None
  end.

(** [len(rates)] for a day that succeeded, zero for one that failed. *)
Definition contribution (o : result Response) : nat :=
  match rates_of o with
  | Some rates => List.length rates
  | None => 0
  end.

(** The day's [try] block runs to its end: the request returned, and the
    body is not JSON (read as an empty object), or is an object whose
    [rates] member is absent or a mapping.  A body on which the decoder
    raises anything but [JSONDecodeError] ends the block. *)
Definition completes (o : result Response) : bool :=
  match o with
  | Ok r =>
      match payload r with
      | NotJson _ => true
      | Json (PyDict d) =>
          match lookup "rates" d with
          | None | Some (PyDict _) => true
          | Some _ => false
          end
      | Json _ => false
      | Fails e => is_JSONDecodeError e
      end
  | Raise _ => false
  end.

(** The items a day adds: those of its rates mapping, none for a day
    without one. *)
Definition rates_list (o : result Response) : list (string * pyvalue) :=
  match rates_of o with
  | Some rates => rates
  | None => []
  end.

(** The flattened records of the days, in day order. *)
Fixpoint assembled (dates : list string) (outcomes : list (result Response))
  : Hist.DataFrame :=
  match dates, outcomes with
  | date :: dates', o :: outcomes' =>
      (Hist.records date (rates_list o) ++ assembled dates' outcomes')%list
  | _, _ => []
  end.

(** The pauses of a trace, in order. *)
Fixpoint sleeps (t : list event) : list nat :=
  match t with
  | [] => []
  | Sleep ms :: r => ms :: sleeps r
  | _ :: r => sleeps r
  end.

(** The traces of the per-day requests, as [day_requests] gives their
    outcomes. *)
Fixpoint day_traces (net : network) (base : string) (dates : list string)
         (n : nat) : list (list event) :=
  match dates with
  | [] => []
  | date :: rest =>
      let m := requests_get_with_retry net (Hist.day_url base date) 3 in
      trace m n :: day_traces net base rest (counter m n)
  end.

(** What the [except] clause of a day leaves in the trace. *)
Definition failure_events (date : string) (e : exn) : list event :=
  [StWarning ("Failed to fetch data for " ++ date ++ ": " ++ exc_str e);
   Log WARNING ("Failed to fetch historical data for " ++ date ++ ": " ++ exc_str e)].

(** What the assembler itself leaves in the trace of a day, after the
    events of the day's request: the pause of 100 ms, after the record of
    a decoding error if there was one, for a day whose [try] block runs
    to its end; the warning and its log record, and no pause, for a day
    that fails. *)
Definition own_events (date : string) (o : result Response) (own : list event)
  : Prop :=
  match o with
  | Raise e => own = failure_events date e
  | Ok _ =>
      if completes o
      then own = [Sleep 100] \/ exists msg, own = [Log ERROR msg; Sleep 100]
      else exists e, own = failure_events date e
  end.

(** The trace of the loop from the day of index [i] on, [total] days in
    all: day after day, the status line, the progress, the events of the
    day's request, then the assembler's own. *)
Inductive days_trace (total : nat)
  : nat -> list string -> list (result Response) -> list (list event)
    -> list event -> Prop :=
| days_done (i : nat) : days_trace total i [] [] [] []
| days_next (i : nat) (date : string) (dates : list string)
            (o : result Response) (os : list (result Response))
            (req : list event) (reqs : list (list event))
            (own t : list event) :
    own_events date o own ->
    days_trace total (S i) dates os reqs t ->
    days_trace total i (date :: dates) (o :: os) (req :: reqs)
      (StatusText ("Fetching data for " ++ date ++ "...")
         :: Progress (i + 1) total :: req ++ own ++ t).

(** The GETs of a trace. *)
Fixpoint sent (t : list event) : nat :=
  match t with
  | [] => 0
  | Sent _ :: r => S (sent r)
  | _ :: r => sent r
  end.

(** *** Dates *)

(** The text of the calendar date of ordinal [o]. *)
Definition date_string (o : Z) : string :=
  strftime {| toordinal := o; time_of_day := 0 |}.

(** The ordinal of 1000-01-01, the first day of a year of four digits. *)
Definition year_1000 : Z := 364878.

(** The shape YYYY-MM-DD: ten characters, digits and two hyphens. *)
Definition iso_date (s : string) : bool :=
  match list_ascii_of_string s with
  | [y1; y2; y3; y4; h1; m1; m2; h2; d1; d2] =>
      forallb PyStr.isdigit [y1; y2; y3; y4; m1; m2; d1; d2]
      && Ascii.eqb h1 "-" && Ascii.eqb h2 "-"
  | _ => false
  end.

(** [k] digits and nothing else. *)
Fixpoint all_digits (k : nat) (s : string) : bool :=
  match k, s with
  | O, EmptyString => true
  | S k', String c r => PyStr.isdigit c && all_digits k' r
  | _, _ => false
  end.

(** [p] holds of [lo], [lo + 1], ... ([len] numbers). *)
Fixpoint all_from (p : Z -> bool) (lo : Z) (len : nat) : bool :=
  match len with
  | O => true
  | S k => if p lo then all_from p (lo + 1) k else false
  end.

(** Month and day of the [n]-th day (from 0) of a year, as [ord2ymd]
    computes them at its end. *)
Definition month_day (n : Z) (leapyear : bool) : Z * Z :=
  (let month := Z.shiftr (n + 50) 5 in
   let preceding :=
     days_before_month month + (if (2 <? month) && leapyear then 1 else 0) in
   if n <? preceding then
     let month := month - 1 in
     let preceding :=
       preceding
       - (days_in_month month + (if (month =? 2) && leapyear then 1 else 0)) in
     (month, n - preceding + 1)
   else (month, n - preceding + 1))%Z.

Definition month_day_ok (leapyear : bool) (n : Z) : bool :=
  let '(m, d) := month_day n leapyear in
  ((1 <=? m) && (m <=? 12) && (1 <=? d) && (d <=? 31))%Z.

End Spec.

(** ** Sample networks, clocks and payloads *)
Module Samples.
Import Py PyVal Http PyDate.
Local Open Scope string_scope.

Definition ok (v : pyvalue) : Response := plain 200 "OK" (Json v).

Definition unavailable : Response :=
  plain 503 "Service Unavailable"
        (NotJson "Expecting value: line 1 column 1 (char 0)").

(** 503 for the first two GETs of the run, then 200. *)
Definition flaky : network :=
  fun k _ => if (k <? 2)%nat then Answer unavailable else Answer (ok (PyDict [])).

(** 503 for ever. *)
Definition down : network := fun _ _ => Answer unavailable.

(** 2026-11-04, at noon. *)
Definition today : datetime :=
  {| toordinal := 739924; time_of_day := 43200000000 |}.

(** A clock that stays at [today] during the call. *)
Definition steady : clock := fun _ => today.

(** A clock that passes midnight between its first and second reading. *)
Definition midnight : clock :=
  fun i =>
    match i with
    | O => {| toordinal := 739924; time_of_day := 86399999999 |}
    | _ => {| toordinal := 739925; time_of_day := 1 |}
    end.

(** [{"rates": {code: rate}}] *)
Definition one_rate (code : string) (rate : PyFloat.float) : pyvalue :=
  PyDict [("rates", PyDict [(code, PyFloat rate)])].

(** 0.9, 0.91 and 1.0 as binary64 values. *)
Definition f0_9 : PyFloat.float := S754_finite false 8106479329266893 (-53).
Definition f0_91 : PyFloat.float := S754_finite false 8196551321814303 (-53).
Definition f1_0 : PyFloat.float := S754_finite false 4503599627370496 (-52).

(** The scenario of the specification: the first day answers
    [{"rates": {"EUR": 0.9}}], the second [{"rates": {"EUR": 0.91}}], the
    third fails. *)
Definition scenario : network :=
  fun k _ =>
    match k with
    | 0 => Answer (ok (one_rate "EUR" f0_9))
    | 1 => Answer (ok (one_rate "EUR" f0_91))
    | _ => Answer unavailable
    end.

(** A server that answers every request with the rate of the dollar. *)
Definition echo_usd : network :=
  fun _ _ => Answer (ok (one_rate "USD" f1_0)).

End Samples.

(** ** Further words for the properties of the code *)
Module Spec2.
Import Py PyVal Http PyDate.
Local Open Scope string_scope.

(** An attempt the adapter tries again when [left] retries are left: it
    broke, or its answer is one to retry. *)
Definition retried (left : nat) (a : attempt) : bool :=
  match a with
  | Answer r => retries_answer left r
  | Broken _ => true
  end.


(** The URLs of the GETs of a trace, in order. *)
Fixpoint urls (t : list event) : list string :=
  match t with
  | [] => []
  | Sent u :: r => u :: urls r
  | _ :: r => urls r
  end.

(** The log records of a trace, in order. *)
Fixpoint logs (t : list event) : list (level * string) :=
  match t with
  | [] => []
  | Log l msg :: r => (l, msg) :: logs r
  | _ :: r => logs r
  end.

(** A status [raise_for_status] raises on. *)
Definition error_status (s : nat) : bool := ((400 <=? s) && (s <? 600))%nat.

(** The text of the [HTTPError] for the answer [r] to a GET of [url]. *)
Definition status_error (url : string) (r : Response) : string :=
  PyStr.of_nat (status_code r)
    ++ (if (status_code r <? 500)%nat then " Client Error: " else " Server Error: ")
    ++ reason r ++ " for url: " ++ url.

(** The record [requests_get_with_retry] logs for a request error. *)
Definition request_failed (url : string) (e : exn) : event :=
  Log ERROR ("Request failed for " ++ url ++ ": " ++ exc_str e).

(** The message that ends a run of the assembler: an information box when
    the frame is empty, a log record with the number of records when it
    is not. *)
Definition closing (base : string) (df : Hist.DataFrame) : event :=
  match df with
  | [] => StInfo "No historical data could be retrieved."
  | _ =>
      Log INFO
          ("Successfully fetched " ++ PyStr.of_nat (List.length df)
             ++ " historical records for " ++ base)
  end.

(** The dates of the records of a run, day by day: each date as many
    times as its day has items. *)
Fixpoint dates_column (dates : list string) (outcomes : list (result Response))
  : list string :=
  match dates, outcomes with
  | date :: dates', o :: outcomes' =>
      (repeat date (Spec.contribution o) ++ dates_column dates' outcomes')%list
  | _, _ => []
  end.

End Spec2.

(** ** More sample networks and documents *)
Module Samples2.
Import Py PyVal Http PyDate Bs4.
Local Open Scope string_scope.

Definition not_found : Response :=
  plain 404 "Not Found" (NotJson "Expecting value").



(** 301 to the address itself. *)
Definition moved (url : string) : Response :=
  {| status_code := 301; reason := "Moved Permanently";
     payload := NotJson "Expecting value";
     retry_after := None; location := Some url |}.

(** Every address redirects to the table. *)
Definition circle : network :=
  fun _ _ => Answer (moved "https://www.x-rates.com/table/").

(** The first GET is redirected to a second address, which answers. *)
Definition elsewhere : network :=
  fun k _ =>
    match k with
    | O => Answer (moved "https://www.x-rates.com/historical/")
    | _ => Answer (plain 200 "OK" (Json (PyDict [])))
    end.

(** 404 for ever. *)
Definition missing : network := fun _ _ => Answer not_found.


End Samples2.

(** ** A document whose third row fails *)
Module Samples3.
Import Py PyVal Http PyDate Bs4.
Local Open Scope string_scope.

(** A row whose cells cannot be listed. *)
Definition broken_row : Row :=
  {| find_all_td := Raise (Exn (OtherException "RuntimeError") "boom") |}.

(** A header, a well-formed row, a row that fails, a well-formed row. *)
Definition half_broken : Soup :=
  {| find_rates_table :=
       Ok (Some {| find_all_tr :=
                     Ok (row ["Currency"; "Rate"]
                           :: map row [["Euro"; "0.9"]]
                           ++ broken_row :: [row ["Yen"; "150"]]) |}) |}.

End Samples3.

(** ** The live scraper

    [scrape_live_rates] shows a spinner and an error box, which the
    events above do not have: its trace is made of the events above and of
    these.  The HTML parser, [BeautifulSoup(response.text, "html.parser")],
    is a parameter: a function from the response to the parsed document,
    or to the exception the parser raises.
    The cache of the decorator is not part of the model: the function
    is its body, what a call that the cache does not answer runs. *)
Module App.
Import Py PyVal Http Bs4.
Local Open Scope string_scope.
Local Open Scope list_scope.

Inductive ui : Type :=
| SpinnerOn (msg : string)        (* entering [with st.spinner(msg)] *)
| SpinnerOff                      (* leaving it *)
| StError (msg : string).         (* [st.error] *)

Definition app_event : Type := (event + ui)%type.

Definition MA (A : Type) : Type := nat -> result A * nat * list app_event.

Definition ret {A} (a : A) : MA A := fun n => (Ok a, n, []).

Definition bind {A B} (m : MA A) (f : A -> MA B) : MA B :=
  fun n =>
    match m n with
    | (Ok a, n1, t1) =>
        let '(r, n2, t2) := f a n1 in (r, n2, t1 ++ t2)
    | (Raise e, n1, t1) => (Raise e, n1, t1)
    end.

(** A computation of the core, run as it is. *)
Definition core {A} (m : M A) : MA A :=
  fun n => let '(r, k, t) := m n in (r, k, map inl t).

Definition show (u : ui) : MA unit := fun n => (Ok tt, n, [inr u]).

(** A call whose outcome does not depend on the run. *)
Definition lift {A} (r : result A) : MA A := fun n => (r, n, []).

Definition try_except {A} (body : MA A) (catches : exn -> bool)
           (handler : exn -> MA A) : MA A :=
  fun n =>
    match body n with
    | (Raise e, n1, t1) =>
        if catches e then
          let '(r, n2, t2) := handler e n1 in (r, n2, t1 ++ t2)
        else (Raise e, n1, t1)
    | ok => ok
    end.

(** [with st.spinner(msg): body]: the spinner goes when the body is left,
    by its end or by an exception, which goes on. *)
Definition with_spinner {A} (msg : string) (body : MA A) : MA A :=
  fun n =>
    let '(r, k, t) := body n in
    (r, k, inr (SpinnerOn msg) :: t ++ [inr SpinnerOff]).

End App.

Declare Scope app_scope.
Delimit Scope app_scope with app.
Notation "x <- m ;; k" := (App.bind m (fun x => k))
  (at level 61, m at next level, right associativity) : app_scope.
Notation "m ;;; k" := (App.bind m (fun _ => k))
  (at level 61, right associativity) : app_scope.

Module Scraper.
Import Py PyVal Http Bs4 App.
Local Open Scope string_scope.
Local Open Scope app_scope.

Section WithParser.

(** [BeautifulSoup(response.text, "html.parser")] *)
Variable BeautifulSoup : Response -> result Soup.

Definition table_url (base : string) : string :=
  "https://www.x-rates.com/table/?from=" ++ base ++ "&amount=1".

Definition scrape_live_rates (net : network) (base : string) : MA Live.DataFrame :=
  let url := table_url base in
  try_except
    (with_spinner ("Fetching live rates for " ++ base ++ "...")
       (response <- core (requests_get_with_retry net url 3) ;;
        soup <- lift (BeautifulSoup response) ;;
        df <- core (Live.parse_exchange_table soup) ;;
        match df with
        | [] => core (emit (StWarning "No live exchange rate data found."))
        | _ =>
            core (log INFO
                      ("Successfully fetched " ++ PyStr.of_nat (List.length df)
                         ++ " live rates for " ++ base))
        end ;;;
        ret df))
    is_Exception
    (fun e =>
       show (StError ("Error fetching live exchange data: " ++ exc_str e)) ;;;
       core (log ERROR ("Failed to scrape live rates for " ++ base ++ ": " ++ exc_str e)) ;;;
       ret []).

End WithParser.

(** The events of the core in a trace of the scraper. *)
Fixpoint core_events (t : list app_event) : list event :=
  match t with
  | [] => []
  | inl ev :: r => ev :: core_events r
  | inr _ :: r => core_events r
  end.

(** The error boxes of a trace. *)
Fixpoint errors (t : list app_event) : list string :=
  match t with
  | [] => []
  | inr (StError msg) :: r => msg :: errors r
  | _ :: r => errors r
  end.

(** The message after the parse: a warning box for an empty frame, else
    a log record with the number of rates. *)
Definition found (base : string) (df : Live.DataFrame) : event :=
  match df with
  | [] => StWarning "No live exchange rate data found."
  | _ =>
      Log INFO
          ("Successfully fetched " ++ PyStr.of_nat (List.length df)
             ++ " live rates for " ++ base)
  end.

(** A parser for the samples: every page holds the same small table. *)
Definition sample_page (_ : Response) : result Soup :=
  Ok (soup (Some [["Currency"; "Rate"]; ["Euro"; "0.9"]])).

End Scraper.

(** ** From year, month and day back to the ordinal

    The inverse of [ord2ymd], as the [datetime] module has it
    ([_ymd2ord]); it serves to show that different days have different
    texts. *)
Module Calendar.
Import PyDate.
Local Open Scope Z_scope.

Definition is_leap (y : Z) : bool :=
  (y mod 4 =? 0) && (negb (y mod 100 =? 0) || (y mod 400 =? 0)).

Definition days_before_year (y : Z) : Z :=
  let y' := y - 1 in
  y' * 365 + y' / 4 - y' / 100 + y' / 400.

Definition ymd2ord (y m d : Z) : Z :=
  days_before_year y
  + (days_before_month m + (if (2 <? m) && is_leap y then 1 else 0))
  + d.

(** Month and day of the [n]-th day of a year lead back to [n]. *)
Definition month_day_back_ok (leapyear : bool) (n : Z) : bool :=
  let '(m, d) := Spec.month_day n leapyear in
  days_before_month m + (if (2 <? m) && leapyear then 1 else 0) + d =? n + 1.

(** The number a string of digits spells. *)
Definition number_of (s : string) : Z := fst (fst (PyFloat.digits 0 0 s)).

End Calendar.

(** ** The key of a historical record *)
Module Spec3.

(** The pair the data model wants unique within one result. *)
Definition key (r : Hist.HistoricalRate) : string * string :=
  (Hist.Date r, Hist.Currency r).

End Spec3.

(** ** The CSV export and its reader

    [convert_df_to_csv] hands the frame to the CSV writer of pandas, and
    the reader of the round trip is no part of the program.  Both are
    written here as the specification describes them (sections 6 and 8):
    a header row, one row per record, fields with commas between; a
    reader that splits on commas.  How a text field and a rate are put
    out, and how a rate is read back, are left open. *)
Module Csv.
Import PyVal.
Local Open Scope string_scope.

Definition LF : ascii := "010".
Definition CR : ascii := "013".
Definition DQUOTE : ascii := "034".

(** [s.split(sep)] for a separator of one character. *)
Fixpoint split (sep : ascii) (s : string) : list string :=
  match s with
  | EmptyString => [EmptyString]
  | String c r =>
      if Ascii.eqb c sep then EmptyString :: split sep r
      else
        match split sep r with
        | p :: ps => String c p :: ps
        | [] => [String c EmptyString]
        end
  end.

(** A text without [sep]. *)
Definition without (sep : ascii) (s : string) : bool :=
  PyStr.forallb_str (fun c => negb (Ascii.eqb c sep)) s.

(** A text that holds no comma, no double quote and no line break. *)
Definition plain (s : string) : bool :=
  without "," s && without DQUOTE s && without LF s && without CR s.




Section Format.

(** What the writer makes of a text field and of a rate, and what the
    reader makes of the text of a rate. *)
Variable quote : string -> string.
Variable show_rate : pyvalue -> string.
Variable read_rate : string -> option pyvalue.

(** Modelled from the spec: the header row of the historical export. *)
Definition header : string := "Date,Currency,Rate".

(** Modelled from the spec: the row of a record, its date, currency and
    rate with commas between. *)
Definition row (r : Hist.HistoricalRate) : string :=
  quote (Hist.Date r) ++ "," ++ quote (Hist.Currency r) ++ ","
    ++ show_rate (Hist.Rate r).

(** Modelled from the spec: one row per record, each ended by a line
    feed. *)
Fixpoint rows (df : Hist.DataFrame) : string :=
  match df with
  | [] => EmptyString
  | r :: rest => row r ++ String LF (rows rest)
  end.








End Format.

End Csv.

(** ** Samples for the export *)
Module Samples4.
Import Py PyVal Http.
Local Open Scope string_scope.

(** The shortest decimal text of the three sample rates; any other value
    is not in the samples. *)
Definition show_rate (v : pyvalue) : string :=
  match v with
  | PyFloat x =>
      if SFeqb x Samples.f0_9 then "0.9"
      else if SFeqb x Samples.f0_91 then "0.91"
      else if SFeqb x Samples.f1_0 then "1.0"
      else "nan"
  | _ => "nan"
  end.



End Samples4.

Open Scope string_scope.
Open Scope list_scope.

(** * Properties *)

(** ** Sample runs *)

Example py_float_tenth :
  PyFloat.py_float "0.1" = Some (S754_finite false 7205759403792794 (-56)).
Proof. vm_compute. reflexivity. Qed.

Example py_float_samples :
  PyFloat.py_float " 1_234.5e-2 " = PyFloat.py_float "12.345"
  /\ PyFloat.py_float "1.2.3" = None
  /\ PyFloat.py_float EmptyString = None
  /\ PyFloat.py_float "1e" = None
  /\ PyFloat.py_float "-Infinity" = Some (S754_infinity true)
  /\ PyFloat.py_float "." = None
  /\ PyFloat.py_float "5." = PyFloat.py_float "5"
  /\ PyFloat.py_float ".5" = Some (S754_finite false 4503599627370496 (-53))
  /\ PyFloat.py_float "1e400" = Some (S754_infinity false).
Proof. vm_compute. repeat split. Qed.

Example parse_sample :
  Live.parse_exchange_table
    (Bs4.soup (Some [ ["Currency"; "Rate"];
                      [" Euro "; " 0.5 "; "2.0"];
                      ["Yen"; "n/a"];
                      ["only one cell"];
                      ["Rupiah"; "16,000"] ])) 0
  = (Py.Ok [ {| Live.Currency := "Euro"; Live.Rate := S754_finite false 4503599627370496 (-53) |};
             {| Live.Currency := "Rupiah"; Live.Rate := S754_finite false 8796093022208000 (-39) |} ],
     0,
     [Py.Log Py.WARNING "Could not parse rate for Yen: could not convert string to float: 'n/a'"]).
Proof. vm_compute. reflexivity. Qed.

Import Py Bs4 PyVal Http PyDate.

(** ** The monad: how the combinators run *)

Lemma bind_lift_ok {A B} (a : A) (f : A -> M B) (n : nat) :
  bind (lift (Ok a)) f n = f a n.
Proof.
  unfold bind, lift. destruct (f a n) as [[r n2] t2]. reflexivity.
Qed.

Lemma bind_lift_raise {A B} (e : exn) (f : A -> M B) (n : nat) :
  bind (lift (Raise e)) f n = (Raise e, n, []).
Proof. reflexivity. Qed.

Lemma bind_ret {A B} (a : A) (f : A -> M B) (n : nat) :
  bind (ret a) f n = f a n.
Proof.
  unfold bind, ret. destruct (f a n) as [[r n2] t2]. reflexivity.
Qed.

Lemma bind_emit {B} (ev : event) (f : unit -> M B) (n : nat) :
  bind (emit ev) f n =
  (returned (f tt) n, counter (f tt) n, ev :: trace (f tt) n).
Proof.
  unfold bind, emit, log, returned, counter, trace.
  destruct (f tt n) as [[r n2] t2]. reflexivity.
Qed.

Lemma bind_run {A B} (m : M A) (f : A -> M B) (n : nat) :
  bind m f n =
  match returned m n with
  | Ok a =>
      (returned (f a) (counter m n), counter (f a) (counter m n),
       trace m n ++ trace (f a) (counter m n))
  | Raise e => (Raise e, counter m n, trace m n)
  end.
Proof.
  unfold bind, returned, counter, trace.
  destruct (m n) as [[[a | e] n1] t1]; cbn; [| reflexivity].
  destruct (f a n1) as [[r n2] t2]. reflexivity.
Qed.

Lemma run_eta {A} (m : M A) (n : nat) :
  m n = (returned m n, counter m n, trace m n).
Proof.
  unfold returned, counter, trace. destruct (m n) as [[r k] t]. reflexivity.
Qed.

Lemma run_parts {A} (m : M A) (n : nat) (r : result A) (k : nat) (t : list event) :
  m n = (r, k, t) -> returned m n = r /\ counter m n = k /\ trace m n = t.
Proof. unfold returned, counter, trace. intros ->. auto. Qed.

(** ** The live table parser *)

Arguments PyFloat.py_float : simpl never.
Arguments PyStr.strip : simpl never.
Arguments PyStr.remove_char : simpl never.
Arguments String.append : simpl never.

(** The [try] block around the rate of a row whose cells are plain
    texts. *)
Lemma rate_try_plain (currency c1 : string) (data : Live.DataFrame) (n : nat) :
  try_except
    (t1 <- lift (Ok c1) ;;
     rate <- lift (Live.float (PyStr.remove_char "," (PyStr.strip t1))) ;;
     ret (data ++ [{| Live.Currency := currency; Live.Rate := rate |}]))%py
    is_ValueError
    (fun e =>
       log WARNING ("Could not parse rate for " ++ currency ++ ": " ++ exc_str e) ;;;
       ret data)%py n =
  match PyFloat.py_float (Spec.rate_text c1) with
  | Some x =>
      (Ok (data ++ [{| Live.Currency := currency; Live.Rate := x |}]), n, [])
  | None =>
      (Ok data, n,
       [Log WARNING
            ("Could not parse rate for " ++ currency
               ++ ": could not convert string to float: '"
               ++ Spec.rate_text c1 ++ "'")])
  end.
Proof.
  unfold try_except. rewrite bind_lift_ok.
  unfold Live.float, Spec.rate_text.
  destruct (PyFloat.py_float _) as [x |].
  - rewrite bind_lift_ok. reflexivity.
  - rewrite bind_lift_raise. reflexivity.
Qed.

(** How the loop treats one row of a document made of plain data. *)
Lemma parse_rows_plain_cons (cells : list string) (rest : list Row)
      (data : Live.DataFrame) (n : nat) :
  Live.parse_rows (row cells :: rest) data n =
  match cells with
  | c0 :: c1 :: _ =>
      match PyFloat.py_float (Spec.rate_text c1) with
      | Some x =>
          Live.parse_rows rest
            (data ++ [{| Live.Currency := PyStr.strip c0; Live.Rate := x |}]) n
      | None =>
          (returned (Live.parse_rows rest data) n,
           counter (Live.parse_rows rest data) n,
           Log WARNING
               ("Could not parse rate for " ++ PyStr.strip c0
                  ++ ": could not convert string to float: '"
                  ++ Spec.rate_text c1 ++ "'")
             :: trace (Live.parse_rows rest data) n)
      end
  | _ => Live.parse_rows rest data n
  end.
Proof.
  cbn [Live.parse_rows row find_all_td]. rewrite bind_lift_ok.
  destruct cells as [| c0 [| c1 more]]; cbn [map]; try reflexivity.
  cbn [cell text]. rewrite bind_lift_ok.
  rewrite bind_run. unfold returned, counter, trace.
  rewrite rate_try_plain.
  destruct (PyFloat.py_float _) as [x |]; cbn [fst snd app].
  - destruct (Live.parse_rows rest _ n) as [[r k] t]. reflexivity.
  - reflexivity.
Qed.

Lemma parse_rows_plain (rows : list (list string)) :
  forall (data : Live.DataFrame) (n : nat),
  exists t,
    Live.parse_rows (map row rows) data n = (Ok (data ++ Spec.records_of rows), n, t)
    /\ List.length t = List.length (filter Spec.malformed rows)
    /\ forallb Spec.is_warning t = true.
Proof.
  induction rows as [| cells rows IH]; intros data n.
  - exists []. cbn. rewrite app_nil_r. auto.
  - cbn [map]. rewrite parse_rows_plain_cons.
    cbn [Spec.records_of filter]. unfold Spec.malformed, Spec.record_of.
    destruct cells as [| c0 [| c1 more]]; try apply IH.
    destruct (PyFloat.py_float (Spec.rate_text c1)) as [x |].
    + destruct (IH (data ++ [{| Live.Currency := PyStr.strip c0; Live.Rate := x |}]) n)
        as (t & E & L & W).
      exists t. rewrite E, <- app_assoc. auto.
    + destruct (IH data n) as (t & E & L & W).
      unfold returned, counter, trace. rewrite E. cbn [fst snd].
      eexists. split; [reflexivity |]. cbn. rewrite L, W. auto.
Qed.

Lemma records_of_length (rows : list (list string)) :
  List.length (Spec.records_of rows) = List.length (filter Spec.well_formed rows).
Proof.
  induction rows as [| cells rows IH]; [reflexivity |].
  cbn [Spec.records_of filter]. unfold Spec.well_formed.
  destruct (Spec.record_of cells); cbn beta iota; cbn [List.length];
    try f_equal; exact IH.
Qed.

(** The [try] block around the rate of a row, for any cell: it adds the
    record of the row, or leaves the list as it is, or raises; it sends
    nothing. *)
Lemma rate_try_cases (currency : string) (c1 : Cell) (data : Live.DataFrame)
      (n : nat) :
  let block :=
    try_except
      (t1 <- lift (text c1) ;;
       rate <- lift (Live.float (PyStr.remove_char "," (PyStr.strip t1))) ;;
       ret (data ++ [{| Live.Currency := currency; Live.Rate := rate |}]))%py
      is_ValueError
      (fun e =>
         log WARNING ("Could not parse rate for " ++ currency ++ ": " ++ exc_str e) ;;;
         ret data)%py in
  (exists t1 x,
      text c1 = Ok t1 /\ PyFloat.py_float (Spec.rate_text t1) = Some x
      /\ block n = (Ok (data ++ [{| Live.Currency := currency; Live.Rate := x |}]), n, []))
  \/ (exists t, block n = (Ok data, n, t))
  \/ (exists e t, block n = (Raise e, n, t)).
Proof.
  cbv zeta. unfold try_except.
  destruct (text c1) as [t1 | e].
  - rewrite bind_lift_ok. unfold Live.float.
    destruct (PyFloat.py_float (PyStr.remove_char "," (PyStr.strip t1))) as [x |] eqn:E.
    + left. exists t1, x. rewrite bind_lift_ok. auto.
    + right. left. rewrite bind_lift_raise. cbn. eauto.
  - rewrite bind_lift_raise. right.
    destruct (is_ValueError e); cbn; eauto.
Qed.

(** The loop sends nothing, whatever the rows are. *)
Lemma parse_rows_counter (rows : list Row) :
  forall (data : Live.DataFrame) (n : nat),
    counter (Live.parse_rows rows data) n = n.
Proof.
  induction rows as [| tr rows IH]; intros data n; [reflexivity |].
  unfold counter in *. cbn [Live.parse_rows].
  destruct (find_all_td tr) as [cols | e];
    [rewrite bind_lift_ok | rewrite bind_lift_raise; reflexivity].
  destruct cols as [| c0 [| c1 more]]; try apply IH.
  destruct (text c0) as [t0 | e];
    [rewrite bind_lift_ok | rewrite bind_lift_raise; reflexivity].
  rewrite bind_run. unfold returned, counter, trace.
  destruct (rate_try_cases (PyStr.strip t0) c1 data n)
    as [(t1 & x & _ & _ & E) | [(t & E) | (e & t & E)]];
    cbv zeta in E; rewrite E; cbn [fst snd]; try apply IH; reflexivity.
Qed.

(** Every record the loop returns was in the list it started with or is
    read off one of the rows. *)
Lemma parse_rows_provenance (rows : list Row) :
  forall (data df : Live.DataFrame) (n : nat),
    returned (Live.parse_rows rows data) n = Ok df ->
    forall r, In r df ->
      In r data \/ exists tr, In tr rows /\ Spec.from_row tr r.
Proof.
  induction rows as [| tr rows IH]; intros data df n H r Hr.
  - cbn in H. injection H as <-. auto.
  - assert (Hrest : forall data',
               returned (Live.parse_rows rows data') n = Ok df ->
               (forall r', In r' data' -> In r' data \/ Spec.from_row tr r') ->
               In r data \/ exists tr', In tr' (tr :: rows) /\ Spec.from_row tr' r).
    { intros data' H' Hd. destruct (IH data' df n H' r Hr) as [Hin | (tr' & Hin & F)].
      - destruct (Hd r Hin); [auto | right; exists tr; cbn; auto].
      - right. exists tr'. cbn. auto. }
    unfold returned in H. cbn [Live.parse_rows] in H.
    destruct (find_all_td tr) as [cols | e] eqn:Ecols;
      [rewrite bind_lift_ok in H | rewrite bind_lift_raise in H; discriminate].
    destruct cols as [| c0 [| c1 more]];
      try (apply (Hrest data); [exact H | auto]).
    destruct (text c0) as [t0 | e] eqn:Et0;
      [rewrite bind_lift_ok in H | rewrite bind_lift_raise in H; discriminate].
    rewrite bind_run in H. unfold returned, counter, trace in H.
    destruct (rate_try_cases (PyStr.strip t0) c1 data n)
      as [(t1 & x & Et1 & Ex & E) | [(t & E) | (e & t & E)]];
      cbv zeta in E; rewrite E in H; cbn [fst snd] in H.
    + apply (Hrest _ H). intros r' Hr'.
      apply in_app_or in Hr'. destruct Hr' as [Hr' | [<- | []]]; [auto |].
      right. exists c0, c1, more, t0, t1. cbn. auto.
    + apply (Hrest data); [exact H | auto].
    + discriminate.
Qed.

(** C2. For a document whose rate table has the rows [trs], the first
    being the header, [parse_exchange_table] returns exactly one record
    per well-formed row after the header (at least two cells, a second
    cell that parses as a float once trimmed and freed of commas): the
    trimmed first cell as currency, the parsed float as rate, in row
    order.  Their number is the number N of well-formed rows; each of the
    M rows whose rate cell does not parse leaves one warning and no
    record; no exception leaves the call and nothing is sent. *)
Theorem parse_exchange_table_well_formed_rows (trs : list (list string)) (n : nat) :
  exists t,
    Live.parse_exchange_table (soup (Some trs)) n
    = (Ok (Spec.records_of (tl trs)), n, t)
    /\ List.length (Spec.records_of (tl trs))
       = List.length (filter Spec.well_formed (tl trs))
    /\ List.length t = List.length (filter Spec.malformed (tl trs))
    /\ forallb Spec.is_warning t = true.
Proof.
  unfold Live.parse_exchange_table, try_except, soup.
  cbn [find_rates_table option_map]. rewrite bind_lift_ok.
  unfold table. cbn [find_all_tr]. rewrite bind_lift_ok.
  replace (tl (map row trs)) with (map row (tl trs)) by (destruct trs; reflexivity).
  destruct (parse_rows_plain (tl trs) [] n) as (t & E & L & W).
  exists t. rewrite E. cbn [app]. split; [reflexivity |].
  split; [apply records_of_length | auto].
Qed.

(** C6, as amended.  When the document has no rate table,
    [parse_exchange_table] returns the empty frame and leaves one warning
    in the log; it raises nothing and sends nothing.  The caller receives
    the empty frame and nothing else. *)
Theorem parse_exchange_table_absent (s : Soup) (n : nat) :
  find_rates_table s = Ok None ->
  Live.parse_exchange_table s n
  = (Ok [], n, [Log WARNING "Exchange rate table not found"])
  /\ returned (Live.parse_exchange_table s) n = Ok [].
Proof.
  intros H. unfold returned, Live.parse_exchange_table, try_except.
  rewrite H, bind_lift_ok. cbn. auto.
Qed.

Lemma parse_exchange_table_absent_witness :
  find_rates_table (soup None) = Ok None
  /\ Live.parse_exchange_table (soup None) 0
     = (Ok [], 0, [Log WARNING "Exchange rate table not found"]).
Proof.
  split; [reflexivity |].
  apply (parse_exchange_table_absent (soup None) 0). reflexivity.
Defined.

(** C6, the claim as stated fails: for a document without the table the
    caller receives the empty frame, exactly what it receives for a
    document whose table has a header and no other row; no error is
    handed to it. *)
Lemma parse_exchange_table_absent_unsignalled :
  returned (Live.parse_exchange_table (soup None)) 0 = Ok []
  /\ returned (Live.parse_exchange_table (soup None)) 0
     = returned (Live.parse_exchange_table (soup (Some [["Currency"; "Rate"]]))) 0
  /\ forall e, returned (Live.parse_exchange_table (soup None)) 0 <> Raise e.
Proof.
  repeat split. intros e H. discriminate H.
Qed.

(** C10. [parse_exchange_table] is total at its interface: whatever the
    document gives or raises when the table, its rows, their cells and
    their texts are asked for, the call returns a frame, raises nothing
    and sends nothing. *)
Theorem parse_exchange_table_total (s : Soup) (n : nat) :
  exists df t, Live.parse_exchange_table s n = (Ok df, n, t).
Proof.
  unfold Live.parse_exchange_table, try_except.
  assert (Hbody : exists r t,
             (tbl <- lift (find_rates_table s) ;;
              match tbl with
              | None => log WARNING "Exchange rate table not found" ;;; ret []
              | Some t => trs <- lift (find_all_tr t) ;; Live.parse_rows (tl trs) []
              end)%py n = (r, n, t)).
  { destruct (find_rates_table s) as [[tbl |] | e];
      [rewrite bind_lift_ok | rewrite bind_lift_ok | rewrite bind_lift_raise];
      [| cbn; eauto | eauto].
    destruct (find_all_tr tbl) as [trs | e];
      [rewrite bind_lift_ok | rewrite bind_lift_raise; eauto].
    rewrite (run_eta (Live.parse_rows (tl trs) []) n), parse_rows_counter. eauto. }
  destruct Hbody as ([df | e] & t & E); rewrite E; cbn; eauto.
Qed.

(** C9, as amended.  Every record of the frame [parse_exchange_table]
    returns is read off a row of the table after the header: its currency
    is the trimmed text of the first cell and its rate the float the
    second cell parses to, once trimmed and freed of commas.  Nothing else
    is checked. *)
Theorem parse_exchange_table_records (s : Soup) (n : nat)
        (df : Live.DataFrame) (r : Live.LiveRate) :
  returned (Live.parse_exchange_table s) n = Ok df ->
  In r df ->
  exists tbl trs tr,
    find_rates_table s = Ok (Some tbl) /\ find_all_tr tbl = Ok trs
    /\ In tr (tl trs) /\ Spec.from_row tr r.
Proof.
  unfold returned, Live.parse_exchange_table, try_except. intros H Hr.
  destruct (find_rates_table s) as [[tbl |] | e] eqn:Es;
    [rewrite bind_lift_ok in H | rewrite bind_lift_ok in H | rewrite bind_lift_raise in H];
    [| cbn in H; injection H as <-; destruct Hr
     | cbn in H; injection H as <-; destruct Hr].
  destruct (find_all_tr tbl) as [trs | e] eqn:Et;
    [rewrite bind_lift_ok in H
    | rewrite bind_lift_raise in H; cbn in H; injection H as <-; destruct Hr].
  rewrite (run_eta (Live.parse_rows (tl trs) []) n) in H.
  destruct (returned (Live.parse_rows (tl trs) []) n) as [df' | e] eqn:E;
    cbn in H; injection H as <-; [| destruct Hr].
  destruct (parse_rows_provenance _ _ _ _ E r Hr) as [[] | (tr & Hin & F)].
  exists tbl, trs, tr. auto.
Qed.

Lemma parse_exchange_table_records_witness :
  exists tr, Spec.from_row tr {| Live.Currency := "Euro"; Live.Rate := S754_zero false |}.
Proof.
  destruct (parse_exchange_table_records
              (soup (Some [["Currency"; "Rate"]; [" Euro "; "0"]])) 0
              [{| Live.Currency := "Euro"; Live.Rate := S754_zero false |}]
              {| Live.Currency := "Euro"; Live.Rate := S754_zero false |})
    as (tbl & trs & tr & _ & _ & _ & F).
  - vm_compute. reflexivity.
  - left. reflexivity.
  - exists tr. exact F.
Defined.

(** C9, the claim as stated fails: a table with the rows
    [US Dollar | 1.0] and [EUR | 0] yields two records; the first has a
    currency that is no 3-letter uppercase code, the second a rate that
    is not above zero. *)
Lemma parse_exchange_table_breaks_invariant :
  exists r1 r2,
    returned (Live.parse_exchange_table
                (soup (Some [["Currency"; "Rate"]; ["US Dollar"; "1.0"]; ["EUR"; "0"]])))
             0 = Ok [r1; r2]
    /\ Spec.is_code (Live.Currency r1) = false
    /\ PyFloat.positive (Live.Rate r2) = false
    /\ Spec.live_invariant r1 = false /\ Spec.live_invariant r2 = false.
Proof.
  eexists. eexists. split; [vm_compute; reflexivity |].
  vm_compute. auto.
Qed.
(** ** The HTTP client *)

Lemma sent_app (t1 t2 : list event) :
  Spec.sent (t1 ++ t2) = Spec.sent t1 + Spec.sent t2.
Proof.
  induction t1 as [| ev t1 IH]; [reflexivity |].
  destruct ev; cbn; rewrite IH; reflexivity.
Qed.


Lemma urls_app (t1 t2 : list event) :
  Spec2.urls (t1 ++ t2) = Spec2.urls t1 ++ Spec2.urls t2.
Proof.
  induction t1 as [| ev t1 IH]; [reflexivity |].
  destruct ev; cbn; rewrite IH; reflexivity.
Qed.

Lemma logs_app (t1 t2 : list event) :
  Spec2.logs (t1 ++ t2) = Spec2.logs t1 ++ Spec2.logs t2.
Proof.
  induction t1 as [| ev t1 IH]; [reflexivity |].
  destruct ev; cbn; rewrite IH; reflexivity.
Qed.

(** A pause of the adapter returns; it sends and logs nothing. *)
Lemma sleep_run (a : attempt) (h n : nat) :
  sleep a h n = (Ok tt, n, trace (sleep a h) n)
  /\ Spec.sent (trace (sleep a h) n) = 0
  /\ Spec2.urls (trace (sleep a h) n) = []
  /\ Spec2.logs (trace (sleep a h) n) = [].
Proof.
  unfold sleep, pause, trace.
  destruct a as [r | msg]; [destruct (retry_after r) as [[| s] |] |];
    try destruct (backoff_time h); repeat split; reflexivity.
Qed.

(** One attempt of [urlopen], and what follows it. *)
Lemma urlopen_step (net : network) (url : string) (total h n : nat) :
  urlopen net url total h n =
  match net n url with
  | Answer r =>
      if retries_answer total r then
        match total with
        | O =>
            (Raise (Exn RetryError
                        (max_retries_exceeded url
                           ("ResponseError('too many "
                              ++ PyStr.of_nat (status_code r)
                              ++ " error responses')"))),
             S n, [Sent url])
        | S t =>
            (returned (urlopen net url t (S h)) (S n),
             counter (urlopen net url t (S h)) (S n),
             Sent url :: trace (sleep (Answer r) (S h)) (S n)
               ++ trace (urlopen net url t (S h)) (S n))
        end
      else (Ok r, S n, [Sent url])
  | Broken msg =>
      match total with
      | O => (Raise (Exn ConnectionError (max_retries_exceeded url msg)), S n, [Sent url])
      | S t =>
          (returned (urlopen net url t (S h)) (S n),
           counter (urlopen net url t (S h)) (S n),
           Sent url :: trace (sleep (Broken msg) (S h)) (S n)
             ++ trace (urlopen net url t (S h)) (S n))
      end
  end.
Proof.
  destruct total as [| t]; cbn [urlopen]; rewrite bind_run;
    unfold returned, counter, trace, send; cbn [fst snd];
    destruct (net n url) as [r | msg]; try reflexivity;
    try (destruct (retries_answer _ r); try reflexivity).
  all: rewrite bind_run;
    match goal with
    | |- context [sleep ?a ?k] =>
        destruct (sleep_run a k (S n)) as (E & _);
        unfold returned, counter, trace in *;
        destruct (sleep a k (S n)) as [[rs ks] ts];
        cbn [fst snd] in *; injection E as -> ->
    end; reflexivity.
Qed.

Lemma sent_repeat (url : string) (k : nat) :
  Spec.sent (repeat (Sent url) k) = k.
Proof. induction k as [| k IH]; cbn; congruence. Qed.

Lemma retries_answer_0 (r : Response) :
  retries_answer 0 r = is_retry (status_code r).
Proof. unfold retries_answer. cbn. apply orb_false_r. Qed.

Lemma retries_answer_listed (total : nat) (r : Response) :
  is_retry (status_code r) = true -> retries_answer total r = true.
Proof. unfold retries_answer. intros ->. reflexivity. Qed.

(** [urlopen] stops at the first attempt that is not to be tried again, or
    at the attempt number [total + 1]: [j] is the number of attempts
    before the last one. *)
Lemma urlopen_spec (net : network) (url : string) (total : nat) :
  forall h n,
  exists j,
    j <= total
    /\ (forall i, i < j -> Spec2.retried (total - i) (net (n + i) url) = true)
    /\ counter (urlopen net url total h) n = n + S j
    /\ Spec.sent (trace (urlopen net url total h) n) = S j
    /\ Spec2.urls (trace (urlopen net url total h) n) = repeat url (S j)
    /\ Spec2.logs (trace (urlopen net url total h) n) = []
    /\ match returned (urlopen net url total h) n with
       | Ok r => net (n + j) url = Answer r /\ retries_answer (total - j) r = false
       | Raise e =>
           j = total
           /\ match net (n + j) url with
              | Answer r => is_retry (status_code r) = true /\ exc_type e = RetryError
              | Broken msg =>
                  e = Exn ConnectionError (max_retries_exceeded url msg)
              end
       end.
Proof.
  induction total as [| t IH]; intros h n.
  - exists 0. unfold returned, counter, trace. rewrite urlopen_step.
    rewrite Nat.add_0_r.
    split; [lia |]. split; [intros i Hi; lia |].
    destruct (net n url) as [r | msg] eqn:E;
      [destruct (retries_answer 0 r) eqn:R |]; cbn [fst snd repeat];
      repeat split; auto; try lia.
    rewrite retries_answer_0 in R. exact R.
  - unfold returned, counter, trace. rewrite urlopen_step.
    destruct (net n url) as [r | msg] eqn:E;
      [destruct (retries_answer (S t) r) eqn:R |]; cbn [fst snd].
    2: { exists 0. rewrite Nat.add_0_r, E. split; [lia |].
         split; [intros i Hi; lia |]. repeat split; auto; lia. }
    all: destruct (IH (S h) (S n)) as (j & Hj & Hre & Hc & Hs & Hu & Hl & Hr);
      match goal with
      | |- context [sleep ?a ?k] =>
          destruct (sleep_run a k (S n)) as (_ & Ss & Su & Sl)
      end;
      exists (S j); split; [lia |];
      (split; [intros [| i] Hi;
                 [rewrite Nat.add_0_r, E; cbn; auto
                 | replace (n + S i) with (S n + i) by lia; apply Hre; lia] |]);
      unfold returned, counter, trace in *; rewrite Hc;
      cbn [Spec.sent Spec2.urls Spec2.logs];
      rewrite sent_app, urls_app, logs_app, Ss, Su, Sl, Hs, Hu, Hl;
      replace (n + S j) with (S n + j) by lia;
      (split; [lia |]); (split; [reflexivity |]);
      (split; [reflexivity |]); (split; [reflexivity |]);
      destruct (fst (fst (urlopen net url t (S h) (S n)))) as [r' | e];
      [exact Hr | destruct Hr as [-> Hr]; split; [reflexivity | exact Hr]].
Qed.

(** One request of [follow], and what the session does with its answer. *)
Lemma follow_step (net : network) (total hops : nat) (url : string) (n : nat) :
  follow net total hops url n =
  match returned (urlopen net url total 0) n with
  | Raise e =>
      (Raise e, counter (urlopen net url total 0) n, trace (urlopen net url total 0) n)
  | Ok r =>
      match redirect_target r with
      | None =>
          (Ok (url, r), counter (urlopen net url total 0) n,
           trace (urlopen net url total 0) n)
      | Some target =>
          match hops with
          | O =>
              (Raise (Exn TooManyRedirects
                          ("Exceeded " ++ PyStr.of_nat max_redirects ++ " redirects.")),
               counter (urlopen net url total 0) n,
               trace (urlopen net url total 0) n)
          | S h =>
              (returned (follow net total h target) (counter (urlopen net url total 0) n),
               counter (follow net total h target) (counter (urlopen net url total 0) n),
               trace (urlopen net url total 0) n
                 ++ trace (follow net total h target) (counter (urlopen net url total 0) n))
          end
      end
  end.
Proof.
  destruct hops as [| h]; cbn [follow]; rewrite bind_run;
    destruct (returned (urlopen net url total 0) n) as [r | e]; try reflexivity;
    destruct (redirect_target r) as [target |];
    unfold returned, counter, trace, ret, raise; cbn [fst snd];
    rewrite ?app_nil_r; reflexivity.
Qed.

(** What [follow] does, whatever the network: it sends at least one GET,
    the first of them to [url], and at most [total + 1] for each of the
    [hops + 1] requests it may make; an answer it returns is the one
    given to the last GET, and is neither one to retry nor a redirect. *)
Lemma follow_spec (net : network) (total hops : nat) :
  forall url n,
    counter (follow net total hops url) n
    = n + Spec.sent (trace (follow net total hops url) n)
    /\ 1 <= Spec.sent (trace (follow net total hops url) n)
       <= (hops + 1) * (total + 1)
    /\ (exists rest, Spec2.urls (trace (follow net total hops url) n) = url :: rest)
    /\ Spec2.logs (trace (follow net total hops url) n) = []
    /\ match returned (follow net total hops url) n with
       | Ok (final, r) =>
           net (counter (follow net total hops url) n - 1) final = Answer r
           /\ is_retry (status_code r) = false
           /\ is_redirect r = false
       | Raise e =>
           exc_type e = RetryError \/ exc_type e = ConnectionError
           \/ exc_type e = TooManyRedirects
       end.
Proof.
  induction hops as [| h IH]; intros url n;
    destruct (urlopen_spec net url total 0 n) as (j & Hj & _ & Hc & Hs & Hu & Hl & Hr);
    unfold returned, counter, trace in *; rewrite follow_step;
    unfold returned, counter, trace in *;
    destruct (fst (fst (urlopen net url total 0 n))) as [r | e] eqn:Er.
  - destruct Hr as (A & R).
    assert (R' : is_retry (status_code r) = false).
    { destruct (is_retry (status_code r)) eqn:Q; [| reflexivity].
      rewrite (retries_answer_listed _ _ Q) in R. discriminate R. }
    destruct (redirect_target r) as [target |] eqn:T; cbn [fst snd];
      rewrite Hc, Hs, Hu, Hl; cbn [repeat].
    + repeat split; eauto; lia.
    + replace (n + S j - 1) with (n + j) by lia.
      repeat split; eauto; try lia.
      unfold is_redirect. rewrite T. reflexivity.
  - cbn [fst snd]. rewrite Hc, Hs, Hu, Hl. cbn [repeat].
    repeat split; eauto; try lia.
    destruct Hr as (_ & Hr). destruct (net (n + j) url) as [r | msg].
    + destruct Hr as (_ & ->). auto.
    + rewrite Hr. auto.
  - destruct Hr as (A & R).
    assert (R' : is_retry (status_code r) = false).
    { destruct (is_retry (status_code r)) eqn:Q; [| reflexivity].
      rewrite (retries_answer_listed _ _ Q) in R. discriminate R. }
    destruct (redirect_target r) as [target |] eqn:T; cbn [fst snd].
    + destruct (IH target (snd (fst (urlopen net url total 0 n))))
        as (Fc & Fs & (rest & Fu) & Fl & Fr).
      rewrite Fc, sent_app, urls_app, logs_app, Hc, Hs, Hu, Hl, Fl in *.
      cbn [repeat app]. repeat split; eauto; try nia.
    + rewrite Hc, Hs, Hu, Hl. cbn [repeat].
      replace (n + S j - 1) with (n + j) by lia.
      repeat split; eauto; try nia.
      unfold is_redirect. rewrite T. reflexivity.
  - cbn [fst snd]. rewrite Hc, Hs, Hu, Hl. cbn [repeat].
    repeat split; eauto; try nia.
    destruct Hr as (_ & Hr). destruct (net (n + j) url) as [r | msg].
    + destruct Hr as (_ & ->). auto.
    + rewrite Hr. auto.
Qed.

(** How [requests_get_with_retry] wraps [session_get]. *)
Lemma requests_get_with_retry_run (net : network) (url : string) (retries n : nat) :
  requests_get_with_retry net url retries n =
  match returned (session_get net url retries) n with
  | Ok (final, r) =>
      if Spec2.error_status (status_code r) then
        (Raise (Exn HTTPError (Spec2.status_error final r)),
         counter (session_get net url retries) n,
         trace (session_get net url retries) n
           ++ [Spec2.request_failed url (Exn HTTPError (Spec2.status_error final r))])
      else
        (Ok r, counter (session_get net url retries) n,
         trace (session_get net url retries) n)
  | Raise e =>
      if is_RequestException e then
        (Raise e, counter (session_get net url retries) n,
         trace (session_get net url retries) n ++ [Spec2.request_failed url e])
      else
        (Raise e, counter (session_get net url retries) n,
         trace (session_get net url retries) n)
  end.
Proof.
  unfold requests_get_with_retry, try_except. rewrite bind_run.
  destruct (returned (session_get net url retries) n) as [[final r] | e].
  - unfold raise_for_status, Spec2.error_status, Spec2.status_error.
    destruct (400 <=? status_code r)%nat eqn:E4;
      destruct (status_code r <? 500)%nat eqn:E5;
      destruct (status_code r <? 600)%nat eqn:E6;
      destruct (500 <=? status_code r)%nat eqn:E7;
      cbn [andb]; try rewrite bind_ret; cbn; rewrite ?app_nil_r; try reflexivity.
    all: apply Nat.leb_le in E4 || apply Nat.leb_gt in E4;
      apply Nat.ltb_lt in E5 || apply Nat.ltb_ge in E5;
      apply Nat.ltb_lt in E6 || apply Nat.ltb_ge in E6;
      apply Nat.leb_le in E7 || apply Nat.leb_gt in E7; lia.
  - destruct (is_RequestException e); reflexivity.
Qed.

(** The whole behaviour of one call of [requests_get_with_retry]. *)
Lemma requests_get_with_retry_spec (net : network) (url : string) (retries n : nat) :
  let m := requests_get_with_retry net url retries in
  counter m n = n + Spec.sent (trace m n)
  /\ 1 <= Spec.sent (trace m n) <= (max_redirects + 1) * (retries + 1)
  /\ (exists rest, Spec2.urls (trace m n) = url :: rest)
  /\ match returned m n with
     | Ok r =>
         (exists final, net (counter m n - 1) final = Answer r)
         /\ is_retry (status_code r) = false
         /\ is_redirect r = false
         /\ Spec2.error_status (status_code r) = false
         /\ Spec2.logs (trace m n) = []
     | Raise e =>
         is_RequestException e = true
         /\ (exists t, trace m n = t ++ [Spec2.request_failed url e]
                       /\ Spec2.logs t = [])
         /\ (exc_type e = RetryError \/ exc_type e = ConnectionError
             \/ exc_type e = TooManyRedirects
             \/ (exc_type e = HTTPError
                 /\ exists final r,
                     net (counter m n - 1) final = Answer r
                     /\ Spec2.error_status (status_code r) = true))
     end.
Proof.
  cbv zeta.
  destruct (follow_spec net retries max_redirects url n) as (Fc & Fs & Fu & Fl & Fr).
  fold (session_get net url retries) in *.
  unfold returned, counter, trace in *. rewrite requests_get_with_retry_run.
  unfold returned, counter, trace in *.
  destruct (session_get net url retries n) as [[[[final r] | e] k] t];
    cbn [fst snd] in *.
  - destruct Fr as (A & R & D).
    destruct (Spec2.error_status (status_code r)) eqn:Es; cbn [fst snd].
    + rewrite sent_app, urls_app. cbn [Spec2.request_failed Spec.sent Spec2.urls].
      rewrite Nat.add_0_r, app_nil_r.
      repeat split; auto; try lia.
      * exists t. auto.
      * right. right. right. split; [reflexivity |]. exists final, r. auto.
    + repeat split; eauto; lia.
  - assert (Q : is_RequestException e = true)
      by (unfold is_RequestException; destruct Fr as [-> | [-> | ->]]; reflexivity).
    rewrite Q. cbn [fst snd].
    rewrite sent_app, urls_app. cbn [Spec2.request_failed Spec.sent Spec2.urls].
    rewrite Nat.add_0_r, app_nil_r.
    repeat split; auto; try lia.
    + exists t. auto.
    + tauto.
Qed.


Lemma not_redirect (r : Response) :
  is_redirect r = false -> redirect_target r = None.
Proof.
  unfold is_redirect. destruct (redirect_target r); [discriminate | reflexivity].
Qed.



(** A session whose first request is answered with no redirect returns
    that answer. *)
Lemma follow_direct (net : network) (total hops : nat) (url : string) (n : nat)
      (r : Response) :
  returned (urlopen net url total 0) n = Ok r ->
  is_redirect r = false ->
  follow net total hops url n
  = (Ok (url, r), counter (urlopen net url total 0) n,
     trace (urlopen net url total 0) n).
Proof. intros H D. rewrite follow_step, H, (not_redirect _ D). reflexivity. Qed.

(** The GETs of a call are those of its session. *)
Lemma requests_get_with_retry_sent (net : network) (url : string) (retries n : nat) :
  counter (requests_get_with_retry net url retries) n
  = counter (session_get net url retries) n
  /\ Spec.sent (trace (requests_get_with_retry net url retries) n)
     = Spec.sent (trace (session_get net url retries) n)
  /\ Spec2.urls (trace (requests_get_with_retry net url retries) n)
     = Spec2.urls (trace (session_get net url retries) n).
Proof.
  unfold counter at 1, trace at 1 3. rewrite requests_get_with_retry_run.
  destruct (returned (session_get net url retries) n) as [[final r] | e];
    [destruct (Spec2.error_status (status_code r))
    | destruct (is_RequestException e)];
    cbn [fst snd]; rewrite ?sent_app, ?urls_app; cbn; rewrite ?app_nil_r;
    repeat split; lia.
Qed.




(** *** The client, request by request *)

(** X1. One call of [requests_get_with_retry] sends at least one GET, the
    first of them to [url], and at most [retries + 1] for each of the 31
    requests the session may make (the first and 30 redirects); the count
    of GETs of the run advances by exactly the number sent.  When no
    answer to [url] is a redirect, all GETs go to [url] and there are at
    most [retries + 1]. *)
Theorem requests_get_with_retry_bounded (net : network) (url : string)
        (retries n : nat) :
  let m := requests_get_with_retry net url retries in
  1 <= Spec.sent (trace m n) <= 31 * (retries + 1)
  /\ counter m n = n + Spec.sent (trace m n)
  /\ (exists rest, Spec2.urls (trace m n) = url :: rest)
  /\ ((forall k r, net k url = Answer r -> is_redirect r = false) ->
      Spec.sent (trace m n) <= retries + 1
      /\ Forall (eq url) (Spec2.urls (trace m n))).
Proof.
  cbv zeta.
  destruct (requests_get_with_retry_spec net url retries n) as (Hc & Hs & Hu & _).
  cbv zeta in *. change (max_redirects + 1) with 31 in Hs.
  split; [exact Hs |]. split; [exact Hc |]. split; [exact Hu |].
  intros D.
  destruct (requests_get_with_retry_sent net url retries n) as (_ & -> & ->).
  destruct (urlopen_spec net url retries 0 n) as (j & Hj & _ & _ & Us & Uu & _ & Ur).
  assert (F : trace (session_get net url retries) n
              = trace (urlopen net url retries 0) n).
  { unfold session_get, trace at 1. rewrite follow_step.
    destruct (returned (urlopen net url retries 0) n) as [r | e]; [| reflexivity].
    destruct Ur as (A & _). rewrite (not_redirect _ (D _ _ A)). reflexivity. }
  rewrite F, Us, Uu. split; [lia |].
  apply Forall_forall. intros u Hin. apply repeat_spec in Hin. auto.
Qed.

Lemma requests_get_with_retry_bounded_witness :
  Spec.sent (trace (requests_get_with_retry
                      Samples.flaky "https://www.x-rates.com/table/" 3) 0) <= 3 + 1
  /\ Forall (eq "https://www.x-rates.com/table/")
            (Spec2.urls (trace (requests_get_with_retry
                                  Samples.flaky "https://www.x-rates.com/table/" 3) 0)).
Proof.
  apply (proj2 (proj2 (proj2 (requests_get_with_retry_bounded
                                Samples.flaky "https://www.x-rates.com/table/" 3 0)))).
  intros k r. unfold Samples.flaky.
  destruct (k <? 2)%nat; intros H; injection H as <-; reflexivity.
Defined.

(** X2. A response that [requests_get_with_retry] returns is the answer
    the network gave to the last GET of the call, whichever address that
    GET went to; it is no redirect, and its status is neither in the
    force list nor in 400..599; and nothing is logged. *)
Theorem requests_get_with_retry_success (net : network) (url : string)
        (retries n : nat) (r : Response) :
  let m := requests_get_with_retry net url retries in
  returned m n = Ok r ->
  (exists final, net (counter m n - 1) final = Answer r)
  /\ is_retry (status_code r) = false
  /\ is_redirect r = false
  /\ Spec2.error_status (status_code r) = false
  /\ Spec2.logs (trace m n) = [].
Proof.
  cbv zeta. intros H.
  destruct (requests_get_with_retry_spec net url retries n) as (_ & _ & _ & Hr).
  cbv zeta in *. rewrite H in Hr. exact Hr.
Qed.

Lemma requests_get_with_retry_success_witness :
  returned (requests_get_with_retry
              Samples2.elsewhere "https://www.x-rates.com/table/" 3) 0
  = Ok (plain 200 "OK" (Json (PyDict [])))
  /\ exists final, Samples2.elsewhere 1 final = Answer (plain 200 "OK" (Json (PyDict []))).
Proof.
  assert (H : returned (requests_get_with_retry
                          Samples2.elsewhere "https://www.x-rates.com/table/" 3) 0
              = Ok (plain 200 "OK" (Json (PyDict [])))) by (vm_compute; reflexivity).
  split; [exact H |].
  exact (proj1 (requests_get_with_retry_success
                  Samples2.elsewhere "https://www.x-rates.com/table/" 3 0 _ H)).
Defined.

(** X3. An exception that leaves [requests_get_with_retry] after its
    session raised a [RequestException] is that exception; it is logged
    exactly once, at level ERROR, with the URL of the call and its text,
    as the last thing the call does before the exception goes on to the
    caller.  When it is an [HTTPError], the last GET of the call was
    answered with a status in 400..599. *)
Theorem requests_get_with_retry_failure (net : network) (url : string)
        (retries n : nat) (e : exn) :
  let m := requests_get_with_retry net url retries in
  returned m n = Raise e ->
  is_RequestException e = true
  /\ (exists t,
         trace m n
         = t ++ [Log ERROR ("Request failed for " ++ url ++ ": " ++ exc_str e)]
         /\ Spec2.logs t = [])
  /\ (exc_type e = HTTPError ->
      exists final r,
        net (counter m n - 1) final = Answer r
        /\ Spec2.error_status (status_code r) = true).
Proof.
  cbv zeta. intros H.
  destruct (requests_get_with_retry_spec net url retries n) as (_ & _ & _ & Hr).
  cbv zeta in *. rewrite H in Hr. destruct Hr as (Q & L & C).
  split; [exact Q |]. split; [exact L |].
  intros T. destruct C as [C | [C | [C | (_ & C)]]]; congruence || exact C.
Qed.

Lemma requests_get_with_retry_failure_witness :
  exists e,
    returned (requests_get_with_retry
                Samples2.circle "https://www.x-rates.com/table/" 3) 0
    = Raise e
    /\ is_RequestException e = true.
Proof.
  eexists. split; [vm_compute; reflexivity |].
  refine (proj1 (requests_get_with_retry_failure
                   Samples2.circle "https://www.x-rates.com/table/" 3 0 _ _)).
  vm_compute. reflexivity.
Defined.

(** X4. A first answer with a status in 400..599 that is not to be tried
    again (404, say, or 413 without [Retry-After]) is final:
    [requests_get_with_retry] raises an [HTTPError] after exactly one
    GET. *)
Theorem requests_get_with_retry_error_status (net : network) (url : string)
        (retries n : nat) (r : Response) :
  net n url = Answer r ->
  retries_answer retries r = false ->
  Spec2.error_status (status_code r) = true ->
  let m := requests_get_with_retry net url retries in
  exists e,
    returned m n = Raise e /\ exc_type e = HTTPError
    /\ counter m n = n + 1 /\ Spec.sent (trace m n) = 1.
Proof.
  intros A R E. cbv zeta.
  assert (D : is_redirect r = false).
  { unfold is_redirect, redirect_target.
    replace (existsb (Nat.eqb (status_code r)) [301; 302; 303; 307; 308]) with false;
      [reflexivity |].
    unfold Spec2.error_status in E. apply andb_true_iff in E. destruct E as (E & _).
    apply Nat.leb_le in E. cbn [existsb].
    assert (N : forall k, k < 400 -> Nat.eqb (status_code r) k = false)
      by (intros k Hk; apply Nat.eqb_neq; lia).
    rewrite !N by lia. reflexivity. }
  assert (U : urlopen net url retries 0 n = (Ok r, S n, [Sent url]))
    by (rewrite urlopen_step, A, R; reflexivity).
  destruct (run_parts _ _ _ _ _ U) as (Er & Ec & Et).
  pose proof (follow_direct net retries max_redirects url n r Er D) as F.
  fold (session_get net url retries) in F. rewrite Ec, Et in F.
  unfold returned, counter, trace. rewrite requests_get_with_retry_run.
  unfold returned, counter, trace. rewrite F. cbn [fst snd]. rewrite E.
  cbn [fst snd]. eexists. repeat split. lia.
Qed.

Lemma requests_get_with_retry_error_status_witness :
  exists e,
    returned (requests_get_with_retry Samples2.missing "https://www.x-rates.com/table/" 3) 0
    = Raise e
    /\ exc_type e = HTTPError
    /\ Spec.sent (trace (requests_get_with_retry
                           Samples2.missing "https://www.x-rates.com/table/" 3) 0) = 1.
Proof.
  destruct (requests_get_with_retry_error_status
              Samples2.missing "https://www.x-rates.com/table/" 3 0 Samples2.not_found)
    as (e & H & T & _ & S); try reflexivity.
  exists e. auto.
Defined.



(** ** The HTTP client: pauses and redirects *)







(** ** Dates *)

Lemma all_from_spec (p : Z -> bool) (len : nat) :
  forall lo, Spec.all_from p lo len = true ->
  forall z, (lo <= z < lo + Z.of_nat len)%Z -> p z = true.
Proof.
  induction len as [| k IH]; intros lo H z Hz; [lia |].
  cbn [Spec.all_from] in H. destruct (p lo) eqn:E; [| discriminate].
  destruct (Z.eq_dec z lo) as [-> | Hne]; [exact E |].
  apply (IH (lo + 1)%Z H). lia.
Qed.

Lemma month_days_ok (leapyear : bool) :
  Spec.all_from (Spec.month_day_ok leapyear) 0 (Z.to_nat 365) = true.
Proof. destruct leapyear; vm_compute; reflexivity. Qed.

Lemma years_four_digits :
  Spec.all_from (fun y => Spec.all_digits 4 (digits_of y)) 1000 (Z.to_nat 9000) = true.
Proof. vm_cast_no_check (eq_refl true). Qed.

Lemma days_two_digits :
  Spec.all_from (fun d => Spec.all_digits 2 (decimal 2 d)) 1 (Z.to_nat 31) = true.
Proof. vm_cast_no_check (eq_refl true). Qed.

(** Year, month and day of a valid ordinal are in range. *)
Lemma ord2ymd_range (o : Z) :
  (1 <= o <= MAXORDINAL)%Z ->
  let '(y, m, d) := ord2ymd o in
  (1 <= y <= 9999 /\ 1 <= m <= 12 /\ 1 <= d <= 31)%Z.
Proof.
  unfold MAXORDINAL, ord2ymd. intros H.
  set (n0 := (o - 1)%Z).
  set (n400 := (n0 / 146097)%Z). set (r := (n0 mod 146097)%Z).
  set (n100 := (r / 36524)%Z). set (r1 := (r mod 36524)%Z).
  set (n4 := (r1 / 1461)%Z). set (r2 := (r1 mod 1461)%Z).
  set (n1 := (r2 / 365)%Z). set (n := (r2 mod 365)%Z).
  assert (F : (0 <= n400 <= 24 /\ 0 <= n100 <= 4 /\ 0 <= n4 <= 24 /\ 0 <= n1 <= 4
               /\ 0 <= n < 365
               /\ (n400 = 24 -> n100 <= 3)
               /\ (n400 = 24 -> n100 = 3 -> n4 = 24 -> n1 <= 2)
               /\ (n100 = 4 -> n4 = 0 /\ n1 = 0))%Z).
  { subst n400 r n100 r1 n4 r2 n1 n n0. Z.to_euclidean_division_equations.
    repeat split; lia. }
  destruct F as (F400 & F100 & F4 & F1 & Fn & Fcent & Flast & Fspecial).
  cbv zeta.
  destruct ((n1 =? 4) || (n100 =? 4))%Z eqn:S.
  - apply orb_prop in S. destruct S as [S | S]; apply Z.eqb_eq in S; lia.
  - apply orb_false_elim in S. destruct S as [S1 S2].
    apply Z.eqb_neq in S1, S2.
    set (leapyear := ((n1 =? 3) && (negb (n4 =? 24) || (n100 =? 3)))%Z).
    pose proof (all_from_spec _ _ _ (month_days_ok leapyear) n
                  ltac:(rewrite Z2Nat.id; lia)) as C.
    unfold Spec.month_day_ok, Spec.month_day in C. cbv zeta in C.
    revert C. destruct (_ <? _)%Z; intros C;
      repeat (apply andb_prop in C; destruct C as [C ?]); lia.
Qed.

Lemma all_digits_4 (s : string) :
  Spec.all_digits 4 s = true ->
  exists a b c d,
    s = String a (String b (String c (String d EmptyString)))
    /\ forallb PyStr.isdigit [a; b; c; d] = true.
Proof.
  destruct s as [| a [| b [| c [| d [| ? ?]]]]]; cbn; intros H;
    try discriminate; try (rewrite !andb_false_r in H; discriminate).
  exists a, b, c, d. split; [reflexivity | exact H].
Qed.

Lemma all_digits_2 (s : string) :
  Spec.all_digits 2 s = true ->
  exists a b, s = String a (String b EmptyString)
              /\ forallb PyStr.isdigit [a; b] = true.
Proof.
  destruct s as [| a [| b [| ? ?]]]; cbn; intros H;
    try discriminate; try (rewrite !andb_false_r in H; discriminate).
  exists a, b. split; [reflexivity | exact H].
Qed.

(** From 1000-01-01 on the year is 1000 at least. *)
Lemma ord2ymd_year_1000 (o : Z) :
  (Spec.year_1000 <= o)%Z -> (1000 <= fst (fst (ord2ymd o)))%Z.
Proof.
  unfold Spec.year_1000, ord2ymd. intros H.
  set (n0 := (o - 1)%Z).
  set (n400 := (n0 / 146097)%Z). set (r := (n0 mod 146097)%Z).
  set (n100 := (r / 36524)%Z). set (r1 := (r mod 36524)%Z).
  set (n4 := (r1 / 1461)%Z). set (r2 := (r1 mod 1461)%Z).
  set (n1 := (r2 / 365)%Z). set (n := (r2 mod 365)%Z).
  assert (F : (1000 <= n400 * 400 + 1 + n100 * 100 + n4 * 4 + n1
               /\ (n1 = 4 \/ n100 = 4 ->
                   1001 <= n400 * 400 + 1 + n100 * 100 + n4 * 4 + n1))%Z).
  { subst n400 r n100 r1 n4 r2 n1 n n0. Z.to_euclidean_division_equations.
    split; lia. }
  destruct F as (F1 & F2). cbv zeta.
  destruct ((n1 =? 4) || (n100 =? 4))%Z eqn:S.
  - apply orb_prop in S. cbn [fst].
    destruct S as [S | S]; apply Z.eqb_eq in S; lia.
  - destruct (_ <? _)%Z; cbn [fst]; lia.
Qed.

(** The text of a date from 1000-01-01 on has the shape YYYY-MM-DD. *)
Lemma date_string_iso (o : Z) :
  (Spec.year_1000 <= o <= MAXORDINAL)%Z -> Spec.iso_date (Spec.date_string o) = true.
Proof.
  intros H. unfold Spec.date_string, strftime. cbn [toordinal].
  pose proof (ord2ymd_range o ltac:(unfold Spec.year_1000 in H; lia)) as R.
  pose proof (ord2ymd_year_1000 o ltac:(lia)) as Y.
  destruct (ord2ymd o) as [[y m] d]. destruct R as (Hy & Hm & Hd). cbn [fst] in Y.
  destruct (all_digits_4 _ (all_from_spec _ _ _ years_four_digits y
                              ltac:(rewrite Z2Nat.id; lia)))
    as (y1 & y2 & y3 & y4 & -> & Dy).
  destruct (all_digits_2 _ (all_from_spec _ _ _ days_two_digits m
                              ltac:(rewrite Z2Nat.id; lia)))
    as (m1 & m2 & -> & Dm).
  destruct (all_digits_2 _ (all_from_spec _ _ _ days_two_digits d
                              ltac:(rewrite Z2Nat.id; lia)))
    as (d1 & d2 & -> & Dd).
  cbn [forallb] in Dy, Dm, Dd.
  repeat match goal with
         | H : (_ && _)%bool = true |- _ => apply andb_prop in H; destruct H
         end.
  unfold Spec.iso_date. cbv [String.append list_ascii_of_string forallb].
  repeat match goal with
         | H : PyStr.isdigit _ = true |- _ => rewrite H; clear H
         end.
  reflexivity.
Qed.

Lemma comprehension_ok {A B} (f : A -> result B) (g : A -> B) (l : list A) :
  (forall x, In x l -> f x = Ok (g x)) ->
  Hist.comprehension f l = Ok (map g l).
Proof.
  induction l as [| x l IH]; intros H; [reflexivity |].
  cbn [Hist.comprehension map]. rewrite (H x (or_introl eq_refl)), IH; [reflexivity |].
  intros y Hy. apply H. right. exact Hy.
Qed.

Lemma comprehension_raise {A B} (f : A -> result B) (l1 l2 : list A) (x : A) (e : exn) :
  (forall y, In y l1 -> exists v, f y = Ok v) ->
  f x = Raise e ->
  Hist.comprehension f (l1 ++ x :: l2) = Raise e.
Proof.
  induction l1 as [| y l1 IH]; intros H Hx; cbn [app Hist.comprehension].
  - rewrite Hx. reflexivity.
  - destruct (H y (or_introl eq_refl)) as (v & ->).
    rewrite IH; [reflexivity | | exact Hx].
    intros z Hz. apply H. right. exact Hz.
Qed.

(** The element of index [i], when the clock reads [today] for it and the
    window does not reach before the first date. *)
Lemma date_back_ok (now : clock) (today : Z) (i : nat) :
  toordinal (now i) = today ->
  (Z.of_nat i < today <= MAXORDINAL)%Z ->
  Hist.date_back now i = Ok (Spec.date_string (today - Z.of_nat i)).
Proof.
  unfold MAXORDINAL. intros Hn H. unfold Hist.date_back, timedelta, sub, MAXORDINAL.
  replace (Z.abs (Z.of_nat i) <=? 999999999)%Z with true
    by (symmetry; apply Z.leb_le; lia).
  rewrite Hn.
  replace (0 <? today - Z.of_nat i)%Z with true by (symmetry; apply Z.ltb_lt; lia).
  replace (today - Z.of_nat i <=? 3652059)%Z with true
    by (symmetry; apply Z.leb_le; lia).
  reflexivity.
Qed.

(** The element of index [i] when the window reaches before the first
    date. *)
Lemma date_back_overflow (now : clock) (i : nat) :
  (toordinal (now i) <= Z.of_nat i)%Z ->
  exists msg, Hist.date_back now i = Raise (Exn OverflowError msg).
Proof.
  intros H. unfold Hist.date_back, timedelta, sub.
  destruct (Z.abs (Z.of_nat i) <=? 999999999)%Z; [| eauto].
  replace (0 <? toordinal (now i) - Z.of_nat i)%Z with false
    by (symmetry; apply Z.ltb_ge; lia).
  cbn. eauto.
Qed.

(** C7, as amended.  For a window of at least one day that does not reach
    before the first calendar date ([days <= today], as always for the 1
    to 30 days of the interface), and with [today] the calendar day of
    every clock reading the call makes, [generate_date_list] returns
    exactly [days] texts: the dates [today - (days - 1)], ..., [today],
    one day apart, oldest first.  When the oldest of them is 1000-01-01
    or later (as, again, for the windows of the interface), every text
    has the shape YYYY-MM-DD. *)
Theorem generate_date_list_window (now : clock) (days today : Z) :
  (1 <= days)%Z ->
  (days <= today <= MAXORDINAL)%Z ->
  (forall i, i < Z.to_nat days -> toordinal (now i) = today) ->
  exists dates,
    Hist.generate_date_list now days = Ok dates
    /\ Z.of_nat (List.length dates) = days
    /\ (forall k, k < Z.to_nat days ->
                  nth k dates EmptyString
                  = Spec.date_string (today - (days - 1) + Z.of_nat k))
    /\ ((Spec.year_1000 <= today - (days - 1))%Z ->
        Forall (fun s => Spec.iso_date s = true) dates).
Proof.
  intros Hd Ht Hnow.
  set (g := fun i : nat => Spec.date_string (today - Z.of_nat i)).
  assert (E : Hist.comprehension (Hist.date_back now) (Hist.range days)
              = Ok (map g (Hist.range days))).
  { apply comprehension_ok. intros i Hi. apply in_seq in Hi.
    apply date_back_ok; [apply Hnow; lia | lia]. }
  unfold Hist.generate_date_list. rewrite E. unfold Hist.range.
  eexists. split; [reflexivity |].
  assert (L : List.length (map g (seq 0 (Z.to_nat days))) = Z.to_nat days)
    by (rewrite length_map, length_seq; reflexivity).
  split; [rewrite length_rev, L; lia |]. split.
  - intros k Hk. rewrite rev_nth by lia. rewrite L.
    rewrite (nth_indep _ EmptyString (g 0)) by lia.
    rewrite map_nth, seq_nth by lia. unfold g. f_equal. lia.
  - intros Hy.
    apply Forall_rev, Forall_map, Forall_forall. intros i Hi. apply in_seq in Hi.
    unfold g. apply date_string_iso. lia.
Qed.

Lemma generate_date_list_window_witness :
  (1 <= 3)%Z /\ (3 <= 739924 <= MAXORDINAL)%Z
  /\ (Spec.year_1000 <= 739924 - (3 - 1))%Z
  /\ exists dates,
      Hist.generate_date_list Samples.steady 3 = Ok dates
      /\ Z.of_nat (List.length dates) = 3%Z
      /\ (forall k, k < Z.to_nat 3 ->
                    nth k dates EmptyString
                    = Spec.date_string (739924 - (3 - 1) + Z.of_nat k))
      /\ Forall (fun s => Spec.iso_date s = true) dates.
Proof.
  assert (Y : (Spec.year_1000 <= 739924 - (3 - 1))%Z)
    by (unfold Spec.year_1000; lia).
  unfold MAXORDINAL. split; [lia |]. split; [lia |]. split; [exact Y |].
  destruct (generate_date_list_window Samples.steady 3 739924)
    as (dates & E & L & N & I);
    [lia | unfold MAXORDINAL; lia | intros i _; reflexivity |].
  exists dates. split; [exact E |]. split; [exact L |]. split; [exact N |].
  exact (I Y).
Defined.

(** C7, the claim as stated fails: on 2026-11-04 a window of 800000 days
    reaches before 0001-01-01, and [generate_date_list] raises
    [OverflowError] instead of returning 800000 dates. *)
Lemma generate_date_list_overflow :
  exists msg,
    Hist.generate_date_list Samples.steady 800000 = Raise (Exn OverflowError msg).
Proof.
  unfold Hist.generate_date_list, Hist.range.
  replace (Z.to_nat 800000) with (Z.to_nat 739924 + S (Z.to_nat 60075)) by lia.
  rewrite seq_app, Nat.add_0_l, <- cons_seq.
  destruct (date_back_overflow Samples.steady (Z.to_nat 739924)) as (msg & E).
  { rewrite Z2Nat.id by lia. unfold Samples.steady, Samples.today.
    cbn [toordinal]. lia. }
  exists msg.
  assert (Hall : forall y, In y (seq 0 (Z.to_nat 739924)) ->
                           exists v, Hist.date_back Samples.steady y = Ok v).
  { intros y Hy. apply in_seq in Hy. eexists.
    apply (date_back_ok Samples.steady 739924); [reflexivity | unfold MAXORDINAL; lia]. }
  pose proof (comprehension_raise
                (Hist.date_back Samples.steady) (seq 0 (Z.to_nat 739924))
                (seq (S (Z.to_nat 739924)) (Z.to_nat 60075)) (Z.to_nat 739924)
                _ Hall E) as R.
  rewrite R. reflexivity.
Qed.

(** What the amended statement leaves out: the clock is read once per
    element, so a call that runs over midnight mixes two days.  Here the
    first reading is late on 2026-11-04 and the second early on
    2026-11-05. *)
Example generate_date_list_over_midnight :
  Hist.generate_date_list Samples.midnight 2 = Ok ["2026-11-04"; "2026-11-04"].
Proof. vm_compute. reflexivity. Qed.

Example generate_date_list_sample :
  Hist.generate_date_list Samples.steady 3
  = Ok ["2026-11-02"; "2026-11-03"; "2026-11-04"].
Proof. vm_compute. reflexivity. Qed.

(** ** The historical series assembler *)

Lemma try_except_run {A} (body : M A) (catches : exn -> bool)
      (handler : exn -> M A) (n : nat) :
  try_except body catches handler n =
  match returned body n with
  | Raise e =>
      if catches e then
        (returned (handler e) (counter body n),
         counter (handler e) (counter body n),
         trace body n ++ trace (handler e) (counter body n))
      else (Raise e, counter body n, trace body n)
  | Ok a => (Ok a, counter body n, trace body n)
  end.
Proof.
  unfold try_except, returned, counter, trace.
  destruct (body n) as [[[a | e] k] t]; cbn [fst snd]; [reflexivity |].
  destruct (catches e); [| reflexivity].
  destruct (handler e k) as [[r k'] t']. reflexivity.
Qed.

Lemma bind_parts {A B} (m : M A) (f : A -> M B) (n : nat) :
  returned (bind m f) n
  = match returned m n with
    | Ok a => returned (f a) (counter m n)
    | Raise e => Raise e
    end
  /\ counter (bind m f) n
     = match returned m n with
       | Ok a => counter (f a) (counter m n)
       | Raise e => counter m n
       end
  /\ trace (bind m f) n
     = match returned m n with
       | Ok a => trace m n ++ trace (f a) (counter m n)
       | Raise e => trace m n
       end.
Proof.
  unfold returned, counter, trace, bind.
  destruct (m n) as [[[a | e] k] t]; cbn [fst snd]; [| auto].
  destruct (f a k) as [[r k'] t']. auto.
Qed.

Lemma safe_json_load_run (res : Response) (n : nat) :
  safe_json_load res n =
  match payload res with
  | Json v => (Ok v, n, [])
  | NotJson msg =>
      (Ok (PyDict []), n, [Log ERROR ("Failed to decode JSON response: " ++ msg)])
  | Fails e =>
      if is_JSONDecodeError e
      then (Ok (PyDict []), n,
            [Log ERROR ("Failed to decode JSON response: " ++ exc_str e)])
      else (Raise e, n, [])
  end.
Proof.
  unfold safe_json_load, json, try_except.
  destruct (payload res) as [msg | v | e]; reflexivity.
Qed.

(** A response [requests_get_with_retry] returns is one the network
    gave. *)
Lemma requests_get_with_retry_facts (net : network) (url : string) (retries n : nat) :
  forall r, returned (requests_get_with_retry net url retries) n = Ok r ->
            exists k final, net k final = Answer r.
Proof.
  intros r H.
  destruct (requests_get_with_retry_spec net url retries n) as (_ & _ & _ & Hr).
  cbv zeta in Hr. rewrite H in Hr. destruct Hr as ((final & A) & _). eauto.
Qed.

(** What follows the request in a day's [try] block: it runs to its end
    with the day's items, the pause of 100 ms being the last thing it
    does, or it raises, and then leaves nothing in the trace. *)
Lemma day_body_run (res : Response) (date : string) (all_data : Hist.DataFrame)
      (k : nat) :
  let body :=
    (json_data <- safe_json_load res ;;
     rates <- lift (get json_data "rates" (PyDict [])) ;;
     its <- lift (items rates) ;;
     emit (Sleep 100) ;;;
     ret (all_data ++ Hist.records date its))%py in
  (exists own,
      body k = (Ok (all_data ++ Hist.records date (Spec.rates_list (Ok res))), k, own)
      /\ Spec.completes (Ok res) = true
      /\ (own = [Sleep 100] \/ exists msg, own = [Log ERROR msg; Sleep 100]))
  \/ (exists e, body k = (Raise e, k, [])
                /\ Spec.completes (Ok res) = false
                /\ Spec.rates_of (Ok res) = None).
Proof.
  cbv zeta. rewrite bind_run. unfold returned, counter, trace.
  rewrite safe_json_load_run.
  unfold Spec.rates_list, Spec.rates_of, Spec.rates_of_response, Spec.completes.
  destruct (payload res) as [msg | v | e]; cbn [fst snd].
  - left. eexists. cbn. eauto.
  - destruct v as [| b | z | x | s | l | d];
      try (right; eexists; cbn; eauto; fail).
    cbn [get]. rewrite bind_lift_ok.
    destruct (lookup "rates" d) as [v |].
    + destruct v as [| b | z | x | s | l | rates];
        try (right; eexists; cbn; eauto; fail).
      left. eexists. cbn. eauto.
    + left. eexists. cbn. eauto.
  - destruct (is_JSONDecodeError e); cbn [fst snd].
    + left. eexists. cbn. eauto.
    + right. eexists. cbn. eauto.
Qed.

(** One day of the loop, [try] and [except] together: it never raises; it
    adds the items of the day's rates mapping, or nothing; after the
    events of the request come the assembler's own. *)
Lemma fetch_day_try (net : network) (base date : string)
      (all_data : Hist.DataFrame) (n : nat) :
  let m := requests_get_with_retry net (Hist.day_url base date) 3 in
  exists own,
    try_except
      (Hist.fetch_day net base date all_data)
      is_Exception
      (fun e =>
         emit (StWarning ("Failed to fetch data for " ++ date ++ ": " ++ exc_str e)) ;;;
         log WARNING
             ("Failed to fetch historical data for " ++ date ++ ": " ++ exc_str e) ;;;
         ret all_data)%py n
    = (Ok (all_data ++ Hist.records date (Spec.rates_list (returned m n))),
       counter m n, trace m n ++ own)
    /\ Spec.own_events date (returned m n) own.
Proof.
  cbv zeta. unfold try_except, Hist.fetch_day. rewrite bind_run.
  unfold Spec.own_events.
  destruct (returned (requests_get_with_retry net (Hist.day_url base date) 3) n)
    as [res | e].
  - destruct (day_body_run res date all_data
                (counter (requests_get_with_retry net (Hist.day_url base date) 3) n))
      as [(own & E & C & P) | (e & E & C & R)]; cbv zeta in E;
      destruct (run_parts _ _ _ _ _ E) as (E1 & E2 & E3);
      rewrite E1, E2, E3, C; cbn [fst snd is_Exception].
    + exists own. split; [reflexivity | exact P].
    + unfold Spec.rates_list. rewrite R. cbn. rewrite !app_nil_r.
      eexists. split; [reflexivity |]. exists e. reflexivity.
  - cbn. rewrite app_nil_r. eexists. split; reflexivity.
Qed.

Lemma day_requests_length (net : network) (base : string) (dates : list string) :
  forall n, List.length (Spec.day_requests net base dates n) = List.length dates.
Proof.
  induction dates as [| d dates IH]; intros n; cbn; [| rewrite IH]; reflexivity.
Qed.

(** The events of the assembler itself hold no GET. *)
Lemma own_events_quiet (date : string) (o : result Response) (own : list event) :
  Spec.own_events date o own -> Spec.sent own = 0 /\ Spec2.urls own = [].
Proof.
  unfold Spec.own_events. intros H.
  destruct o as [r | e]; [destruct (Spec.completes (Ok r)) |].
  - destruct H as [-> | (msg & ->)]; auto.
  - destruct H as (e & ->). auto.
  - subst own. auto.
Qed.

(** The GETs of the loop are those of the requests of its days. *)
Lemma days_trace_sent (total : nat) (i : nat) (dates : list string)
      (os : list (result Response)) (reqs : list (list event)) (t : list event) :
  Spec.days_trace total i dates os reqs t ->
  Spec.sent t = list_sum (map Spec.sent reqs)
  /\ Spec2.urls t = List.concat (map Spec2.urls reqs).
Proof.
  induction 1 as [| i date dates o os req reqs own t Ho _ (IH1 & IH2)];
    [split; reflexivity |].
  destruct (own_events_quiet _ _ _ Ho) as (S & U).
  cbn [Spec.sent Spec2.urls map list_sum List.concat].
  rewrite !sent_app, !urls_app, S, U, IH1, IH2. split; reflexivity.
Qed.

(** The loop over the days. *)
Lemma fetch_days_run (net : network) (base : string) (total : nat)
      (dates : list string) :
  forall (i : nat) (all_data : Hist.DataFrame) (n : nat),
  exists t,
    Hist.fetch_days net base total i dates all_data n
    = (Ok (all_data ++ Spec.assembled dates (Spec.day_requests net base dates n)),
       n + Spec.sent t, t)
    /\ Spec.days_trace total i dates (Spec.day_requests net base dates n)
                       (Spec.day_traces net base dates n) t.
Proof.
  induction dates as [| date dates IH]; intros i all_data n.
  - exists []. cbn. rewrite app_nil_r, Nat.add_0_r. split; [reflexivity | constructor].
  - cbn [Hist.fetch_days Spec.day_requests Spec.day_traces Spec.assembled].
    rewrite bind_emit. cbv beta. unfold returned, counter, trace.
    rewrite bind_emit. cbv beta. unfold returned, counter, trace.
    rewrite bind_run. unfold returned, counter, trace.
    destruct (fetch_day_try net base date all_data n) as (own & E & P).
    cbv zeta in E, P. rewrite E. cbn [fst snd].
    destruct (IH (S i)
                 (all_data ++ Hist.records date
                    (Spec.rates_list
                       (returned (requests_get_with_retry net (Hist.day_url base date) 3) n)))
                 (counter (requests_get_with_retry net (Hist.day_url base date) 3) n))
      as (t2 & E2 & D2).
    unfold returned, counter, trace in *. rewrite E2. cbn [fst snd].
    exists (StatusText ("Fetching data for " ++ date ++ "...")
              :: Progress (i + 1) total
              :: snd (requests_get_with_retry net (Hist.day_url base date) 3 n)
              ++ own ++ t2).
    split; [| constructor; assumption].
    destruct (own_events_quiet _ _ _ P) as (So & _).
    destruct (requests_get_with_retry_spec net (Hist.day_url base date) 3 n)
      as (Hc & _).
    cbv zeta in Hc. unfold counter, trace in Hc.
    cbn [Spec.sent]. rewrite !sent_app, So, Hc, <- !app_assoc.
    replace (n + Spec.sent (snd (requests_get_with_retry net (Hist.day_url base date) 3 n))
             + Spec.sent t2)
      with (n + (Spec.sent (snd (requests_get_with_retry net (Hist.day_url base date) 3 n))
                 + (0 + Spec.sent t2))) by lia.
    reflexivity.
Qed.

(** The whole of [fetch_historical_data], once the dates are there. *)
Lemma fetch_historical_data_run (now : clock) (net : network) (base : string)
      (days : Z) (dates : list string) (n : nat) :
  Hist.generate_date_list now days = Ok dates ->
  exists t,
    Hist.fetch_historical_data now net base days n
    = (Ok (Spec.assembled dates (Spec.day_requests net base dates n)),
       n + Spec.sent t,
       Progress 0 1 :: Placeholder
         :: t ++ [Cleared; Cleared;
                  Spec2.closing base
                    (Spec.assembled dates (Spec.day_requests net base dates n))])
    /\ Spec.days_trace (List.length dates) 0 dates
                       (Spec.day_requests net base dates n)
                       (Spec.day_traces net base dates n) t.
Proof.
  intros H. unfold Hist.fetch_historical_data. rewrite H, bind_lift_ok.
  rewrite bind_emit. cbv beta. unfold returned, counter, trace.
  rewrite bind_emit. cbv beta. unfold returned, counter, trace.
  rewrite bind_run. unfold returned, counter, trace.
  destruct (fetch_days_run net base (List.length dates) dates 0 [] n)
    as (t & E & D).
  rewrite E. cbn [fst snd app].
  rewrite bind_emit. cbv beta. unfold returned, counter, trace.
  rewrite bind_emit. cbv beta. unfold returned, counter, trace.
  exists t. split; [| exact D].
  destruct (Spec.assembled dates (Spec.day_requests net base dates n)) as [| r df];
    reflexivity.
Qed.

Lemma assembled_length (dates : list string) :
  forall outcomes,
    List.length outcomes = List.length dates ->
    List.length (Spec.assembled dates outcomes)
    = list_sum (map Spec.contribution outcomes).
Proof.
  induction dates as [| d dates IH]; intros [| o os] H; try discriminate; [reflexivity |].
  cbn [Spec.assembled map list_sum]. rewrite length_app, IH by (cbn in H; lia).
  f_equal. unfold Hist.records, Spec.contribution, Spec.rates_list.
  rewrite length_map. destruct (Spec.rates_of o); reflexivity.
Qed.

(** C1. In every run of [fetch_historical_data] whose dates are
    generated, whatever the network answers, the call returns a frame
    whose length is the sum, over the days, of [len(rates)] for the days
    whose request succeeded with a JSON object carrying a rates mapping and
    of zero for the others; a failed day adds nothing and the next day is
    requested all the same: there is one request outcome per date.  The
    frame is the list of the days' records in day order. *)
Theorem fetch_historical_data_length (now : clock) (net : network) (base : string)
        (days : Z) (dates : list string) (n : nat) :
  Hist.generate_date_list now days = Ok dates ->
  let outcomes := Spec.day_requests net base dates n in
  exists df k t,
    Hist.fetch_historical_data now net base days n = (Ok df, k, t)
    /\ df = Spec.assembled dates outcomes
    /\ List.length df = list_sum (map Spec.contribution outcomes)
    /\ List.length outcomes = List.length dates.
Proof.
  intros H outcomes.
  destruct (fetch_historical_data_run now net base days dates n H) as (t & E & _).
  exists (Spec.assembled dates outcomes). eexists. eexists.
  split; [exact E |]. split; [reflexivity |].
  split; [apply assembled_length |]; apply day_requests_length.
Qed.

Lemma fetch_historical_data_length_witness :
  Hist.generate_date_list Samples.steady 3
  = Ok ["2026-11-02"; "2026-11-03"; "2026-11-04"]
  /\ exists df k t,
      Hist.fetch_historical_data Samples.steady Samples.scenario "USD" 3 0 = (Ok df, k, t)
      /\ List.length df
         = list_sum (map Spec.contribution
                         (Spec.day_requests Samples.scenario "USD"
                            ["2026-11-02"; "2026-11-03"; "2026-11-04"] 0)).
Proof.
  split; [vm_compute; reflexivity |].
  destruct (fetch_historical_data_length
              Samples.steady Samples.scenario "USD" 3
              ["2026-11-02"; "2026-11-03"; "2026-11-04"] 0)
    as (df & k & t & E & _ & L & _).
  - vm_compute. reflexivity.
  - exists df, k, t. split; [exact E | exact L].
Defined.

(** The scenario of the specification: two days answer with one rate
    each, the third fails; exactly two records come back. *)
Example fetch_historical_data_scenario :
  returned (Hist.fetch_historical_data Samples.steady Samples.scenario "USD" 3) 0
  = Ok [ {| Hist.Date := "2026-11-02"; Hist.Currency := "EUR";
            Hist.Rate := PyFloat Samples.f0_9 |};
         {| Hist.Date := "2026-11-03"; Hist.Currency := "EUR";
            Hist.Rate := PyFloat Samples.f0_91 |} ].
Proof. vm_compute. reflexivity. Qed.

Example sample_rates :
  PyFloat.py_float "0.9" = Some Samples.f0_9
  /\ PyFloat.py_float "0.91" = Some Samples.f0_91
  /\ PyFloat.py_float "1.0" = Some Samples.f1_0.
Proof. vm_compute. auto. Qed.

(** C5, as amended.  In every run of [fetch_historical_data] whose dates
    are generated, the trace between the opening and the closing of the
    progress display is made of one stretch per day, in day order: the
    status line, the progress, the events of the day's request (its GETs
    and the pauses of the adapter between attempts), then the assembler's
    own events.  For a day whose [try] block runs to its end (the request
    returned and its payload could be flattened) these end with the pause
    of 100 ms, the last thing of the day, preceded at most by the record
    of a decoding error; for a day that fails they are the warning and
    its log record and no pause. *)
Theorem fetch_historical_data_pauses (now : clock) (net : network) (base : string)
        (days : Z) (dates : list string) (n : nat) :
  Hist.generate_date_list now days = Ok dates ->
  let outcomes := Spec.day_requests net base dates n in
  exists t,
    trace (Hist.fetch_historical_data now net base days) n
    = Progress 0 1 :: Placeholder
        :: t ++ [Cleared; Cleared;
                 Spec2.closing base (Spec.assembled dates outcomes)]
    /\ Spec.days_trace (List.length dates) 0 dates outcomes
                       (Spec.day_traces net base dates n) t.
Proof.
  intros H outcomes.
  destruct (fetch_historical_data_run now net base days dates n H) as (t & E & D).
  exists t. unfold trace. rewrite E. split; [reflexivity | exact D].
Qed.

Lemma fetch_historical_data_pauses_witness :
  Hist.generate_date_list Samples.steady 3
  = Ok ["2026-11-02"; "2026-11-03"; "2026-11-04"]
  /\ exists t,
      trace (Hist.fetch_historical_data Samples.steady Samples.scenario "USD" 3) 0
      = Progress 0 1 :: Placeholder
          :: t ++ [Cleared; Cleared;
                   Spec2.closing "USD"
                     (Spec.assembled
                        ["2026-11-02"; "2026-11-03"; "2026-11-04"]
                        (Spec.day_requests Samples.scenario "USD"
                           ["2026-11-02"; "2026-11-03"; "2026-11-04"] 0))]
      /\ Spec.days_trace 3 0 ["2026-11-02"; "2026-11-03"; "2026-11-04"]
           (Spec.day_requests Samples.scenario "USD"
              ["2026-11-02"; "2026-11-03"; "2026-11-04"] 0)
           (Spec.day_traces Samples.scenario "USD"
              ["2026-11-02"; "2026-11-03"; "2026-11-04"] 0) t.
Proof.
  split; [vm_compute; reflexivity |].
  apply (fetch_historical_data_pauses Samples.steady Samples.scenario "USD" 3).
  vm_compute. reflexivity.
Defined.

(** C5, the claim as stated fails: with a server that answers 404, the
    one day of the window is requested with one GET and fails, and no
    pause follows: the run ends without any pause at all. *)
Lemma fetch_historical_data_no_pause_after_failure :
  Hist.generate_date_list Samples.steady 1 = Ok ["2026-11-04"]
  /\ Spec.sent (trace (Hist.fetch_historical_data Samples.steady Samples2.missing "USD" 1) 0)
     = 1
  /\ Spec.sleeps (trace (Hist.fetch_historical_data Samples.steady Samples2.missing "USD" 1) 0)
     = [].
Proof. vm_compute. auto. Qed.

(** [l.remove(x)] on a list without repetition leaves the other elements. *)
Lemma remove_first_spec (x : string) (l : list string) :
  NoDup l ->
  forall c, In c (Hist.remove_first x l) <-> In c l /\ c <> x.
Proof.
  induction 1 as [| y l Hy Hl IH]; intros c; cbn [Hist.remove_first In].
  - tauto.
  - destruct (String.eqb_spec y x) as [-> | Hne].
    + split.
      * intros Hc. split; [auto |]. intros ->. contradiction.
      * intros [[-> | Hc] Hn]; [contradiction | exact Hc].
    + cbn [In]. rewrite IH. split.
      * intros [-> | [Hc Hn]]; auto.
      * intros [[-> | Hc] Hn]; auto.
Qed.

Lemma all_currencies_nodup : NoDup Hist.all_currencies.
Proof.
  unfold Hist.all_currencies.
  repeat (constructor; [cbn [In]; intuition discriminate |]). constructor.
Qed.

(** The requested symbols: the eight currencies but the base. *)
Lemma target_currencies_spec (base c : string) :
  In c (Hist.target_currencies base) <-> In c Hist.all_currencies /\ c <> base.
Proof.
  unfold Hist.target_currencies.
  destruct (existsb (String.eqb base) Hist.all_currencies) eqn:E.
  - apply remove_first_spec, all_currencies_nodup.
  - split; [| tauto]. intros Hc. split; [exact Hc |]. intros ->.
    assert (existsb (String.eqb base) Hist.all_currencies = true)
      by (apply existsb_exists; exists base; split; [exact Hc | apply String.eqb_refl]).
    congruence.
Qed.

(** A record of the assembled frame carries a code of the rates mapping
    of one of the outcomes. *)
Lemma assembled_provenance (dates : list string) :
  forall outcomes rec,
    In rec (Spec.assembled dates outcomes) ->
    exists o rates,
      In o outcomes /\ Spec.rates_of o = Some rates
      /\ In (Hist.Currency rec) (map fst rates).
Proof.
  induction dates as [| d dates IH]; intros [| o os] rec H; try destruct H.
  cbn [Spec.assembled] in H. apply in_app_or in H. destruct H as [H | H].
  - unfold Hist.records, Spec.rates_list in H.
    destruct (Spec.rates_of o) as [rates |] eqn:E; [| destruct H].
    apply in_map_iff in H. destruct H as ([c v] & <- & Hin).
    exists o, rates. split; [left; reflexivity |]. split; [exact E |].
    apply in_map_iff. exists (c, v). auto.
  - destruct (IH os rec H) as (o' & rates & Hin & E & Hc).
    exists o', rates. split; [right; exact Hin | auto].
Qed.

(** The outcome of a day is that of a request for one of the day URLs. *)
Lemma day_requests_provenance (net : network) (base : string) (dates : list string) :
  forall n o,
    In o (Spec.day_requests net base dates n) ->
    exists date k,
      In date dates
      /\ o = returned (requests_get_with_retry net (Hist.day_url base date) 3) k.
Proof.
  induction dates as [| d dates IH]; intros n o H; [destruct H |].
  cbn [Spec.day_requests] in H. destruct H as [<- | H].
  - exists d, n. split; [left |]; reflexivity.
  - destruct (IH _ _ H) as (date & k & Hin & E).
    exists date, k. split; [right; exact Hin | exact E].
Qed.

(** C4, as amended.  For every base, the symbols requested each day are
    the eight currencies but the base, which is never among them.  Every
    record of the frame [fetch_historical_data] returns carries a code
    that the rates mapping of a response of the network held: the code
    is not checked against the base.  So no record carries the base's
    code provided the responses hold requested symbols only. *)
Theorem fetch_historical_data_codes (base : string) :
  (~ In base (Hist.target_currencies base)
   /\ forall c, In c (Hist.target_currencies base)
                <-> In c Hist.all_currencies /\ c <> base)
  /\ (forall now net days n df rec,
         returned (Hist.fetch_historical_data now net base days) n = Ok df ->
         In rec df ->
         exists k url r rates,
           net k url = Answer r /\ Spec.rates_of_response r = Some rates
           /\ In (Hist.Currency rec) (map fst rates))
  /\ (forall now net days n df,
         returned (Hist.fetch_historical_data now net base days) n = Ok df ->
         (forall k url r rates c,
             net k url = Answer r -> Spec.rates_of_response r = Some rates ->
             In c (map fst rates) -> In c (Hist.target_currencies base)) ->
         forall rec, In rec df -> Hist.Currency rec <> base).
Proof.
  assert (T : ~ In base (Hist.target_currencies base))
    by (intros H; apply target_currencies_spec in H; tauto).
  assert (P : forall now net days n df rec,
             returned (Hist.fetch_historical_data now net base days) n = Ok df ->
             In rec df ->
             exists k url r rates,
               net k url = Answer r /\ Spec.rates_of_response r = Some rates
               /\ In (Hist.Currency rec) (map fst rates)).
  { intros now net days n df rec H Hrec.
    destruct (Hist.generate_date_list now days) as [dates | e] eqn:G.
    - destruct (fetch_historical_data_run now net base days dates n G)
        as (t & E & _).
      unfold returned in H. rewrite E in H. cbn [fst] in H. injection H as <-.
      destruct (assembled_provenance _ _ _ Hrec) as (o & rates & Ho & R & Hc).
      destruct (day_requests_provenance _ _ _ _ _ Ho) as (date & j & _ & ->).
      destruct (returned (requests_get_with_retry net (Hist.day_url base date) 3) j)
        as [r | e] eqn:Er; [| discriminate R].
      destruct (requests_get_with_retry_facts net (Hist.day_url base date) 3 j r Er)
        as (i & final & Hi).
      exists i, final, r, rates. auto.
    - unfold returned, Hist.fetch_historical_data in H.
      rewrite G, bind_lift_raise in H. discriminate H. }
  split; [split; [exact T | apply target_currencies_spec] |].
  split; [exact P |].
  intros now net days n df H Hnet rec Hrec Heq.
  destruct (P now net days n df rec H Hrec) as (k & url & r & rates & A & R & Hc).
  rewrite Heq in Hc. exact (T (Hnet k url r rates base A R Hc)).
Qed.

Lemma fetch_historical_data_codes_witness :
  exists df,
    returned (Hist.fetch_historical_data Samples.steady Samples.scenario "USD" 3) 0 = Ok df
    /\ forall rec, In rec df -> Hist.Currency rec <> "USD".
Proof.
  eexists. split; [vm_compute; reflexivity |].
  apply (proj2 (proj2 (fetch_historical_data_codes "USD"))
           Samples.steady Samples.scenario 3%Z 0).
  - vm_compute. reflexivity.
  - intros k url r rates c A R Hc.
    destruct k as [| [| k]]; cbn in A; injection A as <-;
      cbn in R; try discriminate R; injection R as <-;
      destruct Hc as [<- | []]; vm_compute; auto.
Defined.

(** C4, the claim as stated fails: when the server answers the request
    for base USD with the rate of USD itself, the frame holds a record
    whose code is the base. *)
Lemma fetch_historical_data_keeps_base :
  exists rec,
    returned (Hist.fetch_historical_data Samples.steady Samples.echo_usd "USD" 1) 0
    = Ok [rec]
    /\ Hist.Currency rec = "USD".
Proof. eexists. split; vm_compute; reflexivity. Qed.

(** * Further properties of the code *)

(** ** Decoding, dates *)

(** X6. [safe_json_load] sends nothing.  For a body that is JSON it
    returns the decoded value and logs nothing; for a body the decoder
    rejects with [JSONDecodeError] it returns the empty dict and logs the
    error once, at level ERROR.  It raises exactly when the decoder raises
    another exception ([ValueError] for an integer beyond the digit limit,
    [RecursionError]): that exception leaves the function as it is, with
    nothing logged. *)
Theorem safe_json_load_safe (res : Response) (n : nat) :
  counter (safe_json_load res) n = n
  /\ Spec.sent (trace (safe_json_load res) n) = 0
  /\ (forall e,
         returned (safe_json_load res) n = Raise e
         <-> payload res = Fails e /\ is_JSONDecodeError e = false)
  /\ (forall e,
         returned (safe_json_load res) n = Raise e ->
         trace (safe_json_load res) n = [])
  /\ (forall v,
         payload res = Json v -> safe_json_load res n = (Ok v, n, []))
  /\ (forall msg,
         payload res = NotJson msg
         \/ (exists e, payload res = Fails e /\ is_JSONDecodeError e = true
                       /\ msg = exc_str e) ->
         safe_json_load res n
         = (Ok (PyDict []), n,
            [Log ERROR ("Failed to decode JSON response: " ++ msg)])).
Proof.
  unfold returned, counter, trace. rewrite safe_json_load_run.
  destruct (payload res) as [msg | v | e];
    [| | destruct (is_JSONDecodeError e) eqn:J]; cbn [fst snd];
    (split; [reflexivity |]); (split; [reflexivity |]).
  - split; [| split; [| split]].
    + intros e. split; [discriminate | intros (H & _); discriminate H].
    + discriminate.
    + discriminate.
    + intros msg' [H | (e & H & _)]; [injection H as <-; reflexivity | discriminate H].
  - split; [| split; [| split]].
    + intros e. split; [discriminate | intros (H & _); discriminate H].
    + discriminate.
    + intros v' H. injection H as <-. reflexivity.
    + intros msg' [H | (e & H & _)]; discriminate H.
  - split; [| split; [| split]].
    + intros e'. split; [discriminate | intros (H & J')].
      injection H as <-. congruence.
    + discriminate.
    + discriminate.
    + intros msg' [H | (e' & H & _ & ->)]; [discriminate H |].
      injection H as <-. reflexivity.
  - split; [| split; [| split]].
    + intros e'. split.
      * intros H. injection H as <-. auto.
      * intros (H & _). injection H as <-. reflexivity.
    + reflexivity.
    + discriminate.
    + intros msg' [H | (e' & H & J' & _)]; [discriminate H |].
      injection H as <-. congruence.
Qed.

Lemma safe_json_load_safe_witness :
  returned (safe_json_load
              (plain 200 "OK" (Fails (Exn ValueError "Exceeds the limit (4300 digits)")))) 0
  = Raise (Exn ValueError "Exceeds the limit (4300 digits)")
  /\ safe_json_load (plain 200 "OK" (Json PyNone)) 0 = (Ok PyNone, 0, [])
  /\ safe_json_load (plain 200 "OK" (NotJson "Expecting value")) 0
     = (Ok (PyDict []), 0,
        [Log ERROR "Failed to decode JSON response: Expecting value"]).
Proof.
  pose proof (safe_json_load_safe
                (plain 200 "OK" (Fails (Exn ValueError "Exceeds the limit (4300 digits)")))
                0) as (_ & _ & R & _).
  pose proof (safe_json_load_safe (plain 200 "OK" (Json PyNone)) 0)
    as (_ & _ & _ & _ & J & _).
  pose proof (safe_json_load_safe (plain 200 "OK" (NotJson "Expecting value")) 0)
    as (_ & _ & _ & _ & _ & N).
  split; [apply R; split; reflexivity |].
  split; [apply J; reflexivity |].
  apply N. left. reflexivity.
Defined.

(** X7. [format_date] of a date from 1000-01-01 to 9999-12-31 is a text
    of the shape YYYY-MM-DD, and it depends on the day only, not on the
    time of day. *)
Theorem format_date_iso (d : datetime) :
  (Spec.year_1000 <= toordinal d <= MAXORDINAL)%Z ->
  Spec.iso_date (Hist.format_date d) = true
  /\ forall d', toordinal d' = toordinal d -> Hist.format_date d' = Hist.format_date d.
Proof.
  intros H. split.
  - apply (date_string_iso _ H).
  - intros d' E. unfold Hist.format_date, strftime. rewrite E. reflexivity.
Qed.

Lemma format_date_iso_witness :
  (Spec.year_1000 <= toordinal Samples.today <= MAXORDINAL)%Z
  /\ Spec.iso_date (Hist.format_date Samples.today) = true.
Proof.
  assert (H : (Spec.year_1000 <= toordinal Samples.today <= MAXORDINAL)%Z)
    by (unfold MAXORDINAL, Spec.year_1000; cbn; lia).
  split; [exact H | exact (proj1 (format_date_iso Samples.today H))].
Defined.

(** Before the year 1000 the year is printed with fewer than four
    digits. *)
Example format_date_short_year :
  Hist.format_date {| toordinal := 364877; time_of_day := 0 |} = "999-12-31"
  /\ Hist.format_date {| toordinal := 1; time_of_day := 0 |} = "1-01-01"
  /\ Hist.format_date {| toordinal := 364878; time_of_day := 0 |} = "1000-01-01".
Proof. vm_compute. auto. Qed.

Lemma comprehension_nth {A B} (f : A -> result B) (l : list A) :
  forall xs,
    Hist.comprehension f l = Ok xs ->
    List.length xs = List.length l
    /\ forall i a b, i < List.length l -> f (nth i l a) = Ok (nth i xs b).
Proof.
  induction l as [| x l IH]; intros xs H; cbn [Hist.comprehension] in H.
  - injection H as <-. split; [reflexivity |]. cbn. intros; lia.
  - destruct (f x) as [y | e] eqn:E; [| discriminate].
    destruct (Hist.comprehension f l) as [ys | e]; [| discriminate].
    injection H as <-. destruct (IH ys eq_refl) as (L & N).
    split; [cbn; congruence |].
    intros [| i] a b Hi; cbn [nth]; [exact E | apply N; cbn in Hi; lia].
Qed.

(** A failing element makes the whole comprehension fail, with the
    exception of the first failing element. *)
Lemma comprehension_fails {A B} (f : A -> result B) (l : list A) (x : A) (e : exn) :
  In x l -> f x = Raise e ->
  exists y e', In y l /\ f y = Raise e' /\ Hist.comprehension f l = Raise e'.
Proof.
  induction l as [| z l IH]; intros Hin Hx; [destruct Hin |].
  cbn [Hist.comprehension]. destruct (f z) as [v | e0] eqn:E.
  - destruct Hin as [-> | Hin]; [congruence |].
    destruct (IH Hin Hx) as (y & e' & Hy & Fy & C).
    exists y, e'. rewrite C. cbn. auto.
  - exists z, e0. cbn. auto.
Qed.

Lemma date_back_cases (now : clock) (i : nat) :
  (Hist.date_back now i = Ok (Spec.date_string (toordinal (now i) - Z.of_nat i))
   /\ (0 < toordinal (now i) - Z.of_nat i <= MAXORDINAL)%Z)
  \/ (exists msg, Hist.date_back now i = Raise (Exn OverflowError msg)).
Proof.
  unfold Hist.date_back, timedelta, sub.
  destruct (Z.abs (Z.of_nat i) <=? 999999999)%Z; [| right; eauto].
  destruct (0 <? toordinal (now i) - Z.of_nat i)%Z eqn:E1;
    destruct (toordinal (now i) - Z.of_nat i <=? MAXORDINAL)%Z eqn:E2;
    cbn [andb]; try (right; eauto; fail).
  left. split; [reflexivity |].
  apply Z.ltb_lt in E1. apply Z.leb_le in E2. lia.
Qed.

(** X8. Whenever [generate_date_list] returns, the list has exactly
    [days] elements (none for [days <= 0]), and its element of index [k]
    is the date of the clock reading number [days - 1 - k] moved back by
    [days - 1 - k] days: the clock is read once per element, the last
    element first.  This holds for every clock, steady or not. *)
Theorem generate_date_list_elements (now : clock) (days : Z) (dates : list string) :
  Hist.generate_date_list now days = Ok dates ->
  List.length dates = Z.to_nat days
  /\ forall k, k < Z.to_nat days ->
       let j := Z.to_nat days - 1 - k in
       nth k dates EmptyString
       = Spec.date_string (toordinal (now j) - Z.of_nat j).
Proof.
  unfold Hist.generate_date_list, Hist.range. intros H.
  destruct (Hist.comprehension (Hist.date_back now) (seq 0 (Z.to_nat days)))
    as [l |] eqn:E; [| discriminate].
  injection H as <-.
  destruct (comprehension_nth _ _ _ E) as (L & N). rewrite length_seq in L, N.
  split; [rewrite length_rev; exact L |].
  intros k Hk. cbv zeta. set (j := Z.to_nat days - 1 - k).
  rewrite rev_nth by lia. rewrite L.
  replace (Z.to_nat days - S k) with j by lia.
  specialize (N j 0 EmptyString ltac:(lia)). rewrite seq_nth in N by lia.
  cbn [Nat.add] in N.
  destruct (date_back_cases now j) as [(D & _) | (msg & D)]; congruence.
Qed.

Lemma generate_date_list_elements_witness :
  Hist.generate_date_list Samples.midnight 2 = Ok ["2026-11-04"; "2026-11-04"]
  /\ List.length ["2026-11-04"; "2026-11-04"] = Z.to_nat 2.
Proof.
  assert (H : Hist.generate_date_list Samples.midnight 2
              = Ok ["2026-11-04"; "2026-11-04"]) by (vm_compute; reflexivity).
  split; [exact H |].
  exact (proj1 (generate_date_list_elements Samples.midnight 2 _ H)).
Defined.

(** When does [generate_date_list] return. *)
Lemma generate_date_list_cases (now : clock) (days : Z) :
  (forall i, (toordinal (now i) <= MAXORDINAL)%Z) ->
  ((forall i, i < Z.to_nat days -> (Z.of_nat i < toordinal (now i))%Z)
   -> exists dates, Hist.generate_date_list now days = Ok dates)
  /\ ((exists i, i < Z.to_nat days /\ (toordinal (now i) <= Z.of_nat i)%Z)
      -> exists msg,
        Hist.generate_date_list now days = Raise (Exn OverflowError msg)).
Proof.
  intros V. unfold Hist.generate_date_list, Hist.range. split.
  - intros H.
    rewrite (comprehension_ok _
               (fun i => Spec.date_string (toordinal (now i) - Z.of_nat i))).
    + eauto.
    + intros i Hi. apply in_seq in Hi.
      destruct (date_back_cases now i) as [(D & _) | (msg & D)]; [exact D |].
      destruct (date_back_ok now (toordinal (now i)) i eq_refl) as [];
        [split; [apply H; lia | apply V] |].
      rewrite D. congruence.
  - intros (i & Hi & O).
    destruct (date_back_overflow now i O) as (msg & D).
    destruct (comprehension_fails (Hist.date_back now) (seq 0 (Z.to_nat days)) i _
                ltac:(apply in_seq; lia) D) as (y & e' & _ & Fy & C).
    rewrite C.
    destruct (date_back_cases now y) as [(D' & _) | (msg' & D')]; [congruence |].
    exists msg'. congruence.
Qed.

(** X9. With a clock that gives valid dates, [generate_date_list] returns
    when every element stays after 0001-01-01 (reading number [i] is more
    than [i] days after the first date), and raises [OverflowError] as
    soon as one does not. *)
Theorem generate_date_list_overflows (now : clock) (days : Z) :
  (forall i, (toordinal (now i) <= MAXORDINAL)%Z) ->
  ((forall i, i < Z.to_nat days -> (Z.of_nat i < toordinal (now i))%Z)
   -> exists dates, Hist.generate_date_list now days = Ok dates)
  /\ ((exists i, i < Z.to_nat days /\ (toordinal (now i) <= Z.of_nat i)%Z)
      -> exists msg,
        Hist.generate_date_list now days = Raise (Exn OverflowError msg)).
Proof. exact (generate_date_list_cases now days). Qed.

Lemma generate_date_list_overflows_witness :
  exists dates, Hist.generate_date_list Samples.steady 30 = Ok dates.
Proof.
  apply (proj1 (generate_date_list_overflows Samples.steady 30
                  ltac:(intros i; unfold MAXORDINAL; cbn; lia))).
  intros i Hi. cbn [Samples.steady Samples.today toordinal]. lia.
Defined.


(** ** The historical series assembler: requests, dates, messages *)

Lemma urls_length (t : list event) : List.length (Spec2.urls t) = Spec.sent t.
Proof.
  induction t as [| ev t IH]; [reflexivity |].
  destruct ev; cbn; rewrite ?IH; reflexivity.
Qed.

(** The GETs of the request of each day: the first goes to the URL of
    the day, and there are at most 124. *)
Lemma day_traces_urls (net : network) (base : string) (dates : list string) :
  forall n,
    Forall2 (fun date us =>
               (exists rest, us = Hist.day_url base date :: rest)
               /\ List.length us <= 124)
            dates (map Spec2.urls (Spec.day_traces net base dates n)).
Proof.
  induction dates as [| date dates IH]; intros n; cbn [Spec.day_traces map];
    constructor; [| apply IH].
  destruct (requests_get_with_retry_spec net (Hist.day_url base date) 3 n)
    as (_ & Hs & Hu & _).
  cbv zeta in Hs, Hu. split; [exact Hu |].
  rewrite urls_length. change ((max_redirects + 1) * (3 + 1)) with 124 in Hs. lia.
Qed.

(** The trace of a whole run: the opening of the progress display, the
    loop, the closing. *)
Lemma fetch_historical_data_trace (now : clock) (net : network) (base : string)
      (days : Z) (dates : list string) (n : nat) :
  Hist.generate_date_list now days = Ok dates ->
  let loop := Hist.fetch_days net base (List.length dates) 0 dates [] in
  let df := Spec.assembled dates (Spec.day_requests net base dates n) in
  Hist.fetch_historical_data now net base days n
  = (Ok df, counter loop n,
     Progress 0 1 :: Placeholder
       :: trace loop n ++ [Cleared; Cleared; Spec2.closing base df]).
Proof.
  intros H. cbv zeta. unfold Hist.fetch_historical_data. rewrite H, bind_lift_ok.
  rewrite bind_emit. cbv beta. unfold returned, counter, trace.
  rewrite bind_emit. cbv beta. unfold returned, counter, trace.
  rewrite bind_run. unfold returned, counter, trace.
  destruct (fetch_days_run net base (List.length dates) dates 0 [] n)
    as (t & E & _).
  rewrite E. cbn [fst snd app].
  rewrite bind_emit. cbv beta. unfold returned, counter, trace.
  rewrite bind_emit. cbv beta. unfold returned, counter, trace.
  destruct (Spec.assembled dates (Spec.day_requests net base dates n)) as [| r df];
    reflexivity.
Qed.

(** X10. In a run of the body of [fetch_historical_data] whose dates are
    generated, every day is requested, in the order of the dates: the
    GETs of the run fall into one stretch per date, and the first GET of
    a stretch goes to the URL of its date, with the base and the symbols
    of the run.  A stretch has at most 124 GETs (four attempts for each
    of the 31 requests a session may make); the count of GETs of the run
    advances by the number sent. *)
Theorem fetch_historical_data_requests (now : clock) (net : network) (base : string)
        (days : Z) (dates : list string) (n : nat) :
  Hist.generate_date_list now days = Ok dates ->
  let m := Hist.fetch_historical_data now net base days in
  counter m n = n + Spec.sent (trace m n)
  /\ exists per_day : list (list string),
      Spec2.urls (trace m n) = List.concat per_day
      /\ Forall2 (fun date us =>
                    (exists rest, us = Hist.day_url base date :: rest)
                    /\ List.length us <= 124)
                 dates per_day.
Proof.
  intros H. cbv zeta. unfold counter at 1, trace.
  destruct (fetch_historical_data_run now net base days dates n H) as (t & E & D).
  rewrite E. cbn [fst snd].
  destruct (days_trace_sent _ _ _ _ _ _ D) as (S & U).
  cbn [Spec.sent Spec2.urls]. rewrite sent_app, urls_app.
  replace (Spec.sent [Cleared; Cleared; Spec2.closing base _]) with 0
    by (destruct (Spec.assembled _ _); reflexivity).
  replace (Spec2.urls [Cleared; Cleared; Spec2.closing base _]) with (@nil string)
    by (destruct (Spec.assembled _ _); reflexivity).
  rewrite Nat.add_0_r, app_nil_r. split; [reflexivity |].
  exists (map Spec2.urls (Spec.day_traces net base dates n)).
  split; [exact U | apply day_traces_urls].
Qed.

Lemma fetch_historical_data_requests_witness :
  Hist.generate_date_list Samples.steady 3
  = Ok ["2026-11-02"; "2026-11-03"; "2026-11-04"]
  /\ exists per_day : list (list string),
      Spec2.urls (trace (Hist.fetch_historical_data
                           Samples.steady Samples.scenario "USD" 3) 0)
      = List.concat per_day
      /\ Forall2 (fun date us =>
                    (exists rest, us = Hist.day_url "USD" date :: rest)
                    /\ List.length us <= 124)
                 ["2026-11-02"; "2026-11-03"; "2026-11-04"] per_day.
Proof.
  assert (H : Hist.generate_date_list Samples.steady 3
              = Ok ["2026-11-02"; "2026-11-03"; "2026-11-04"])
    by (vm_compute; reflexivity).
  split; [exact H |].
  exact (proj2 (fetch_historical_data_requests
                  Samples.steady Samples.scenario "USD" 3 _ 0 H)).
Defined.

(** X11. The date list is built outside any [try]: when the window
    reaches before 0001-01-01, [fetch_historical_data] raises the
    [OverflowError] of [generate_date_list]; no GET is sent and nothing is
    shown or logged. *)
Theorem fetch_historical_data_date_error (now : clock) (net : network)
        (base : string) (days : Z) (n : nat) :
  (forall i, (toordinal (now i) <= MAXORDINAL)%Z) ->
  (exists i, i < Z.to_nat days /\ (toordinal (now i) <= Z.of_nat i)%Z) ->
  exists msg,
    Hist.fetch_historical_data now net base days n
    = (Raise (Exn OverflowError msg), n, []).
Proof.
  intros V O.
  destruct (proj2 (generate_date_list_cases now days V) O) as (msg & E).
  exists msg. unfold Hist.fetch_historical_data. rewrite E. reflexivity.
Qed.

Lemma fetch_historical_data_date_error_witness :
  exists msg,
    Hist.fetch_historical_data Samples.steady Samples.scenario "USD" 800000 0
    = (Raise (Exn OverflowError msg), 0, []).
Proof.
  apply (fetch_historical_data_date_error Samples.steady Samples.scenario "USD" 800000 0).
  - intros i. unfold MAXORDINAL. cbn. lia.
  - exists (Z.to_nat 739924). split; [lia |].
    rewrite Z2Nat.id by lia. cbn. lia.
Defined.

(** X12. For a window of no day ([days <= 0]), [fetch_historical_data]
    reads no clock and sends no GET: it returns the empty frame after
    opening and clearing the progress display and showing that no data
    could be retrieved. *)
Theorem fetch_historical_data_empty_window (now : clock) (net : network)
        (base : string) (days : Z) (n : nat) :
  (days <= 0)%Z ->
  Hist.fetch_historical_data now net base days n
  = (Ok [], n,
     [Progress 0 1; Placeholder; Cleared; Cleared;
      StInfo "No historical data could be retrieved."]).
Proof.
  intros H.
  assert (G : Hist.generate_date_list now days = Ok []).
  { unfold Hist.generate_date_list, Hist.range.
    replace (Z.to_nat days) with 0 by lia. reflexivity. }
  rewrite (fetch_historical_data_trace now net base days [] n G). reflexivity.
Qed.

Lemma fetch_historical_data_empty_window_witness :
  (0 <= 0)%Z
  /\ returned (Hist.fetch_historical_data Samples.steady Samples.down "USD" 0) 0 = Ok [].
Proof.
  split; [lia |].
  unfold returned.
  rewrite (fetch_historical_data_empty_window Samples.steady Samples.down "USD" 0 0);
    [reflexivity | lia].
Defined.

Lemma assembled_dates (dates : list string) :
  forall outcomes,
    map Hist.Date (Spec.assembled dates outcomes) = Spec2.dates_column dates outcomes.
Proof.
  induction dates as [| d dates IH]; intros [| o os]; try reflexivity.
  cbn [Spec.assembled Spec2.dates_column]. rewrite map_app, IH. f_equal.
  unfold Hist.records, Spec.contribution, Spec.rates_list.
  destruct (Spec.rates_of o) as [rates |]; [| reflexivity].
  induction rates as [| [c v] rates IHr]; [reflexivity |].
  cbn. f_equal. exact IHr.
Qed.

Lemma dates_column_in (dates : list string) :
  forall outcomes d, In d (Spec2.dates_column dates outcomes) -> In d dates.
Proof.
  induction dates as [| x dates IH]; intros [| o os] d H; try destruct H.
  cbn [Spec2.dates_column] in H. apply in_app_or in H. destruct H as [H | H].
  - apply repeat_spec in H. left. auto.
  - right. exact (IH _ _ H).
Qed.

(** X13. The records of the frame [fetch_historical_data] returns come
    day by day in the order of the dates, the records of one day next to
    each other: the column of their dates is each generated date repeated
    as many times as its day has items.  So every record carries a
    generated date. *)
Theorem fetch_historical_data_dates (now : clock) (net : network) (base : string)
        (days : Z) (dates : list string) (n : nat) (df : Hist.DataFrame) :
  Hist.generate_date_list now days = Ok dates ->
  returned (Hist.fetch_historical_data now net base days) n = Ok df ->
  map Hist.Date df
  = Spec2.dates_column dates (Spec.day_requests net base dates n)
  /\ forall rec, In rec df -> In (Hist.Date rec) dates.
Proof.
  intros G H. unfold returned in H.
  rewrite (fetch_historical_data_trace now net base days dates n G) in H.
  cbn [fst] in H. injection H as <-.
  split; [apply assembled_dates |].
  intros rec Hin. apply (dates_column_in dates (Spec.day_requests net base dates n)).
  rewrite <- assembled_dates. apply in_map. exact Hin.
Qed.

Lemma fetch_historical_data_dates_witness :
  exists df,
    returned (Hist.fetch_historical_data Samples.steady Samples.scenario "USD" 3) 0 = Ok df
    /\ map Hist.Date df = ["2026-11-02"; "2026-11-03"].
Proof.
  eexists. split; [vm_compute; reflexivity |].
  rewrite (proj1 (fetch_historical_data_dates
                    Samples.steady Samples.scenario "USD" 3
                    ["2026-11-02"; "2026-11-03"; "2026-11-04"] 0 _
                    ltac:(vm_compute; reflexivity) ltac:(vm_compute; reflexivity))).
  vm_compute. reflexivity.
Defined.

(** X14. A run of [fetch_historical_data] whose dates are generated ends
    with one closing message after the progress display is cleared: the
    information box "No historical data could be retrieved." exactly when
    the frame is empty, else a log record at level INFO with the number of
    records and the base. *)
Theorem fetch_historical_data_closing (now : clock) (net : network) (base : string)
        (days : Z) (dates : list string) (n : nat) :
  Hist.generate_date_list now days = Ok dates ->
  exists df t,
    returned (Hist.fetch_historical_data now net base days) n = Ok df
    /\ trace (Hist.fetch_historical_data now net base days) n
       = t ++ [Cleared; Cleared; Spec2.closing base df]
    /\ (df = [] <->
        Spec2.closing base df = StInfo "No historical data could be retrieved.").
Proof.
  intros G. unfold returned, trace.
  rewrite (fetch_historical_data_trace now net base days dates n G). cbn [fst snd].
  eexists. exists (Progress 0 1 :: Placeholder
                     :: trace (Hist.fetch_days net base (List.length dates) 0 dates []) n).
  split; [reflexivity |]. split; [reflexivity |].
  destruct (Spec.assembled dates _); cbn; split; intros; try reflexivity; discriminate.
Qed.

Lemma fetch_historical_data_closing_witness :
  exists df t,
    returned (Hist.fetch_historical_data Samples.steady Samples.down "USD" 1) 0 = Ok df
    /\ trace (Hist.fetch_historical_data Samples.steady Samples.down "USD" 1) 0
       = t ++ [Cleared; Cleared; Spec2.closing "USD" df].
Proof.
  destruct (fetch_historical_data_closing Samples.steady Samples.down "USD" 1
              ["2026-11-04"] 0 ltac:(vm_compute; reflexivity))
    as (df & t & R & T & _).
  exists df, t. auto.
Defined.

(** ** The live table parser: bounds, trimmed codes, lost rows *)

Lemma parse_rows_length (rows : list Row) :
  forall (data df : Live.DataFrame) (n : nat),
    returned (Live.parse_rows rows data) n = Ok df ->
    List.length data <= List.length df <= List.length data + List.length rows.
Proof.
  induction rows as [| tr rows IH]; intros data df n H.
  - cbn in H. injection H as <-. cbn. lia.
  - unfold returned in H. cbn [Live.parse_rows] in H. cbn [List.length].
    destruct (find_all_td tr) as [cols | e];
      [rewrite bind_lift_ok in H | rewrite bind_lift_raise in H; discriminate].
    destruct cols as [| c0 [| c1 more]];
      try (specialize (IH data df n H); lia).
    destruct (text c0) as [t0 | e];
      [rewrite bind_lift_ok in H | rewrite bind_lift_raise in H; discriminate].
    rewrite bind_run in H. unfold returned, counter, trace in H.
    destruct (rate_try_cases (PyStr.strip t0) c1 data n)
      as [(t1 & x & _ & _ & E) | [(t & E) | (e & t & E)]];
      cbv zeta in E; rewrite E in H; cbn [fst snd] in H.
    + specialize (IH _ df n H). rewrite length_app in IH. cbn in IH. lia.
    + specialize (IH data df n H). lia.
    + discriminate.
Qed.

(** What [parse_exchange_table] returns, in terms of the loop. *)
Lemma parse_exchange_table_returned (s : Soup) (n : nat) :
  returned (Live.parse_exchange_table s) n =
  Ok match find_rates_table s with
     | Ok (Some tbl) =>
         match find_all_tr tbl with
         | Ok trs =>
             match returned (Live.parse_rows (tl trs) []) n with
             | Ok df => df
             | Raise _ => []
             end
         | Raise _ => []
         end
     | _ => []
     end.
Proof.
  unfold returned, Live.parse_exchange_table, try_except.
  destruct (find_rates_table s) as [[tbl |] | e];
    [| rewrite bind_lift_ok; reflexivity | rewrite bind_lift_raise; reflexivity].
  rewrite bind_lift_ok.
  destruct (find_all_tr tbl) as [trs | e];
    [rewrite bind_lift_ok | rewrite bind_lift_raise; reflexivity].
  destruct (Live.parse_rows (tl trs) [] n) as [[[df | e] k] t]; reflexivity.
Qed.

(** X15. The frame [parse_exchange_table] returns never has more records
    than the table has rows after the header, whatever the document gives
    or raises; it is empty when the table cannot be found or its rows
    cannot be listed. *)
Theorem parse_exchange_table_bounded (s : Soup) (n : nat) (df : Live.DataFrame) :
  returned (Live.parse_exchange_table s) n = Ok df ->
  match find_rates_table s with
  | Ok (Some tbl) =>
      match find_all_tr tbl with
      | Ok trs => List.length df <= List.length (tl trs)
      | Raise _ => df = []
      end
  | _ => df = []
  end.
Proof.
  rewrite parse_exchange_table_returned. intros H. injection H as <-.
  destruct (find_rates_table s) as [[tbl |] | e]; try reflexivity.
  destruct (find_all_tr tbl) as [trs | e]; try reflexivity.
  destruct (returned (Live.parse_rows (tl trs) []) n) as [df' | e] eqn:E.
  - pose proof (parse_rows_length (tl trs) [] df' n E) as L. cbn in L. lia.
  - cbn. lia.
Qed.

Lemma parse_exchange_table_bounded_witness :
  exists df,
    returned (Live.parse_exchange_table
                (soup (Some [["Currency"; "Rate"]; ["Euro"; "0.9"]; ["Yen"; "n/a"]]))) 0
    = Ok df
    /\ List.length df <= 2.
Proof.
  eexists. split; [vm_compute; reflexivity |].
  exact (parse_exchange_table_bounded
           (soup (Some [["Currency"; "Rate"]; ["Euro"; "0.9"]; ["Yen"; "n/a"]])) 0 _
           ltac:(vm_compute; reflexivity)).
Defined.

Lemma rstrip_idempotent (s : string) : PyStr.rstrip (PyStr.rstrip s) = PyStr.rstrip s.
Proof.
  induction s as [| c r IH]; [reflexivity |].
  cbn [PyStr.rstrip]. destruct (PyStr.rstrip r) as [| c' r'] eqn:E.
  - destruct (PyStr.isspace c) eqn:Ec; [reflexivity |].
    cbn [PyStr.rstrip]. rewrite Ec. reflexivity.
  - cbn [PyStr.rstrip] in *. rewrite IH. reflexivity.
Qed.

Lemma lstrip_head (s : string) :
  PyStr.lstrip s = EmptyString
  \/ exists c r, PyStr.lstrip s = String c r /\ PyStr.isspace c = false.
Proof.
  induction s as [| c r IH]; [left; reflexivity |].
  cbn [PyStr.lstrip]. destruct (PyStr.isspace c) eqn:E; [exact IH |].
  right. exists c, r. auto.
Qed.

Lemma rstrip_head (c : ascii) (r : string) :
  PyStr.isspace c = false -> PyStr.rstrip (String c r) = String c (PyStr.rstrip r).
Proof.
  intros E. cbn [PyStr.rstrip]. rewrite E. destruct (PyStr.rstrip r); reflexivity.
Qed.

(** [s.strip().strip() == s.strip()] *)
Lemma strip_idempotent (s : string) : PyStr.strip (PyStr.strip s) = PyStr.strip s.
Proof.
  unfold PyStr.strip. destruct (lstrip_head s) as [-> | (c & r & -> & E)];
    [reflexivity |].
  rewrite (rstrip_head c r E). cbn [PyStr.lstrip]. rewrite E.
  rewrite <- (rstrip_head c r E). apply rstrip_idempotent.
Qed.

(** X16. Every currency of the frame [parse_exchange_table] returns is
    trimmed: it starts and ends with no white space (trimming it again
    changes nothing), whatever the document. *)
Theorem parse_exchange_table_trimmed (s : Soup) (n : nat)
        (df : Live.DataFrame) (r : Live.LiveRate) :
  returned (Live.parse_exchange_table s) n = Ok df ->
  In r df ->
  PyStr.strip (Live.Currency r) = Live.Currency r.
Proof.
  rewrite parse_exchange_table_returned. intros H Hr. injection H as <-.
  destruct (find_rates_table s) as [[tbl |] | e]; try destruct Hr.
  destruct (find_all_tr tbl) as [trs | e]; try destruct Hr.
  destruct (returned (Live.parse_rows (tl trs) []) n) as [df' | e] eqn:E;
    [| destruct Hr].
  destruct (parse_rows_provenance (tl trs) [] df' n E r Hr)
    as [[] | (tr & _ & c0 & c1 & more & t0 & t1 & _ & _ & _ & C & _)].
  rewrite C. apply strip_idempotent.
Qed.

Lemma parse_exchange_table_trimmed_witness :
  PyStr.strip "Euro" = "Euro".
Proof.
  apply (parse_exchange_table_trimmed
           (soup (Some [["Currency"; "Rate"]; ["  Euro  "; "0.9"]])) 0
           [{| Live.Currency := "Euro"; Live.Rate := Samples.f0_9 |}]
           {| Live.Currency := "Euro"; Live.Rate := Samples.f0_9 |}).
  - vm_compute. reflexivity.
  - left. reflexivity.
Defined.

(** The loop over rows of plain data followed by other rows. *)
Lemma parse_rows_plain_app (good : list (list string)) (rest : list Row) :
  forall (data : Live.DataFrame) (n : nat),
  exists t,
    List.length t = List.length (filter Spec.malformed good)
    /\ Live.parse_rows (map row good ++ rest) data n
       = (returned (Live.parse_rows rest (data ++ Spec.records_of good)) n,
          counter (Live.parse_rows rest (data ++ Spec.records_of good)) n,
          t ++ trace (Live.parse_rows rest (data ++ Spec.records_of good)) n).
Proof.
  induction good as [| cells good IH]; intros data n.
  - exists []. cbn [map app Spec.records_of filter]. rewrite app_nil_r.
    split; [reflexivity | apply run_eta].
  - cbn [map app]. rewrite parse_rows_plain_cons.
    cbn [Spec.records_of filter]. unfold Spec.malformed, Spec.record_of.
    destruct cells as [| c0 [| c1 more]]; try apply IH.
    destruct (PyFloat.py_float (Spec.rate_text c1)) as [x |].
    + destruct (IH (data ++ [{| Live.Currency := PyStr.strip c0; Live.Rate := x |}]) n)
        as (t & L & E).
      exists t. rewrite E, <- app_assoc. auto.
    + destruct (IH data n) as (t & L & E).
      unfold returned at 1, counter at 1, trace at 1. rewrite E. cbn [fst snd].
      eexists (_ :: t). split; [| reflexivity]. cbn. rewrite L. reflexivity.
Qed.

(** X17. An exception raised while the cells of a row are listed ends the
    whole parse: [parse_exchange_table] returns the empty frame, and the
    records of the well-formed rows read before that row are lost.  The
    error is logged once, at level ERROR, after the warnings of the rows
    before. *)
Theorem parse_exchange_table_discards (s : Soup) (tbl : Table) (header bad : Row)
        (good : list (list string)) (rest : list Row) (e : exn) (n : nat) :
  find_rates_table s = Ok (Some tbl) ->
  find_all_tr tbl = Ok (header :: map row good ++ bad :: rest) ->
  find_all_td bad = Raise e ->
  exists t,
    Live.parse_exchange_table s n
    = (Ok [], n, t ++ [Log ERROR ("Error parsing exchange table: " ++ exc_str e)])
    /\ List.length t = List.length (filter Spec.malformed good).
Proof.
  intros Hs Ht Hb. unfold Live.parse_exchange_table.
  destruct (parse_rows_plain_app good (bad :: rest) [] n) as (t & L & E).
  assert (B : forall data, Live.parse_rows (bad :: rest) data n = (Raise e, n, [])).
  { intros data. cbn [Live.parse_rows]. rewrite Hb. reflexivity. }
  unfold returned, counter, trace in E. rewrite B in E. cbn [fst snd] in E.
  rewrite app_nil_r in E.
  match goal with
  | |- context [try_except ?b _ _] => assert (Body : b n = (Raise e, n, t))
  end.
  { rewrite Hs, bind_lift_ok, Ht, bind_lift_ok. cbn [tl]. exact E. }
  rewrite try_except_run.
  destruct (run_parts _ _ _ _ _ Body) as (E1 & E2 & E3). rewrite E1, E2, E3.
  exists t. split; [reflexivity | exact L].
Qed.

Lemma parse_exchange_table_discards_witness :
  exists t,
    Live.parse_exchange_table Samples3.half_broken 0
    = (Ok [], 0, t ++ [Log ERROR "Error parsing exchange table: boom"]).
Proof.
  destruct (parse_exchange_table_discards
              Samples3.half_broken
              {| find_all_tr :=
                   Ok (row ["Currency"; "Rate"]
                         :: map row [["Euro"; "0.9"]]
                         ++ Samples3.broken_row :: [row ["Yen"; "150"]]) |}
              (row ["Currency"; "Rate"]) Samples3.broken_row
              [["Euro"; "0.9"]] [row ["Yen"; "150"]]
              (Exn (OtherException "RuntimeError") "boom") 0)
    as (t & E & _); try reflexivity.
  exists t. exact E.
Defined.


(** ** The live scraper *)

Lemma parse_exchange_table_run (s : Soup) (n : nat) :
  exists df t, Live.parse_exchange_table s n = (Ok df, n, t).
Proof.
  unfold Live.parse_exchange_table, try_except.
  destruct (find_rates_table s) as [[tbl |] | e];
    [| rewrite bind_lift_ok; cbn; eauto | rewrite bind_lift_raise; cbn; eauto].
  rewrite bind_lift_ok.
  destruct (find_all_tr tbl) as [trs | e];
    [rewrite bind_lift_ok | rewrite bind_lift_raise; cbn; eauto].
  rewrite (run_eta (Live.parse_rows (tl trs) []) n), parse_rows_counter.
  destruct (returned (Live.parse_rows (tl trs) []) n); cbn; eauto.
Qed.

Lemma errors_app (t1 t2 : list App.app_event) :
  Scraper.errors (t1 ++ t2) = Scraper.errors t1 ++ Scraper.errors t2.
Proof.
  induction t1 as [| [ev | [msg | | msg]] t1 IH]; cbn; rewrite ?IH; reflexivity.
Qed.

Lemma errors_core (t : list event) : Scraper.errors (map inl t) = [].
Proof. induction t as [| ev t IH]; [reflexivity | exact IH]. Qed.

Lemma core_events_app (t1 t2 : list App.app_event) :
  Scraper.core_events (t1 ++ t2) = Scraper.core_events t1 ++ Scraper.core_events t2.
Proof.
  induction t1 as [| [ev | u] t1 IH]; cbn; rewrite ?IH; reflexivity.
Qed.

Lemma core_events_core (t : list event) : Scraper.core_events (map inl t) = t.
Proof. induction t as [| ev t IH]; cbn; [| rewrite IH]; reflexivity. Qed.

(** The run of the scraper when the request returns and the page is
    parsed. *)
Lemma scrape_live_rates_ok (bs : Response -> result Soup) (net : network)
      (base : string) (n : nat) (response : Response) (page : Soup) :
  let req := requests_get_with_retry net (Scraper.table_url base) 3 in
  returned req n = Ok response ->
  bs response = Ok page ->
  exists df t',
    Live.parse_exchange_table page (counter req n) = (Ok df, counter req n, t')
    /\ Scraper.scrape_live_rates bs net base n
       = (Ok df, counter req n,
          inr (App.SpinnerOn ("Fetching live rates for " ++ base ++ "..."))
            :: (map inl (trace req n) ++ map inl t'
                  ++ [inl (Scraper.found base df)])
            ++ [inr App.SpinnerOff]).
Proof.
  cbv zeta. intros H Hp.
  destruct (parse_exchange_table_run page
              (counter (requests_get_with_retry net (Scraper.table_url base) 3) n))
    as (df & t' & E).
  exists df, t'. split; [exact E |].
  unfold Scraper.scrape_live_rates, App.try_except, App.with_spinner, App.bind,
    App.core, App.lift.
  unfold returned, counter, trace in *.
  destruct (requests_get_with_retry net (Scraper.table_url base) 3 n) as [[r k] t].
  cbn [fst snd] in *. subst r. rewrite Hp, E.
  destruct df; reflexivity.
Qed.

(** The run of the scraper when the request raises, or the parser of the
    page does. *)
Lemma scrape_live_rates_err (bs : Response -> result Soup) (net : network)
      (base : string) (n : nat) (e : exn) :
  let req := requests_get_with_retry net (Scraper.table_url base) 3 in
  (returned req n = Raise e
   \/ exists response, returned req n = Ok response /\ bs response = Raise e) ->
  Scraper.scrape_live_rates bs net base n
  = (Ok [], counter req n,
     inr (App.SpinnerOn ("Fetching live rates for " ++ base ++ "..."))
       :: (map inl (trace req n) ++ [inr App.SpinnerOff])
       ++ [inr (App.StError ("Error fetching live exchange data: " ++ exc_str e));
           inl (Log ERROR ("Failed to scrape live rates for " ++ base ++ ": "
                             ++ exc_str e))]).
Proof.
  cbv zeta. intros H.
  unfold Scraper.scrape_live_rates, App.try_except, App.with_spinner, App.bind,
    App.core, App.lift.
  unfold returned, counter, trace in *.
  destruct (requests_get_with_retry net (Scraper.table_url base) 3 n) as [[r k] t].
  cbn [fst snd] in *. destruct H as [-> | (response & -> & Hp)].
  - reflexivity.
  - rewrite Hp. cbn. rewrite ?app_nil_r. reflexivity.
Qed.

(** X18. [scrape_live_rates] never raises: whatever the network answers,
    whether the HTML parser raises or not, and whatever the parsed page
    gives or raises, it returns a frame. *)
Theorem scrape_live_rates_total (bs : Response -> result Soup) (net : network)
        (base : string) (n : nat) :
  exists df k t, Scraper.scrape_live_rates bs net base n = (Ok df, k, t).
Proof.
  destruct (returned (requests_get_with_retry net (Scraper.table_url base) 3) n)
    as [response | e] eqn:R.
  - destruct (bs response) as [page | e] eqn:Hp.
    + destruct (scrape_live_rates_ok bs net base n response page R Hp)
        as (df & t' & _ & E).
      rewrite E. eexists. eexists. eexists. reflexivity.
    + rewrite (scrape_live_rates_err bs net base n e); [| right; eauto].
      eexists. eexists. eexists. reflexivity.
  - rewrite (scrape_live_rates_err bs net base n e (or_introl R)).
    eexists. eexists. eexists. reflexivity.
Qed.

(** X19. When the request fails, or the HTML parser raises,
    [scrape_live_rates] returns the empty frame: the spinner goes, then
    the exception is shown once in an error box and logged once at level
    ERROR; the table is not parsed. *)
Theorem scrape_live_rates_failure (bs : Response -> result Soup) (net : network)
        (base : string) (n : nat) (e : exn) :
  let req := requests_get_with_retry net (Scraper.table_url base) 3 in
  (returned req n = Raise e
   \/ exists response, returned req n = Ok response /\ bs response = Raise e) ->
  exists k t,
    Scraper.scrape_live_rates bs net base n = (Ok [], k, t)
    /\ Scraper.errors t = [("Error fetching live exchange data: " ++ exc_str e)%string]
    /\ Scraper.core_events t
       = trace req n
           ++ [Log ERROR ("Failed to scrape live rates for " ++ base ++ ": "
                            ++ exc_str e)].
Proof.
  cbv zeta. intros R. rewrite (scrape_live_rates_err bs net base n e R).
  eexists. eexists. split; [reflexivity |].
  cbn [Scraper.errors Scraper.core_events].
  rewrite errors_app, errors_app, errors_core. split; [reflexivity |].
  rewrite !core_events_app, core_events_core. cbn [Scraper.core_events].
  rewrite app_nil_r. reflexivity.
Qed.

Lemma scrape_live_rates_failure_witness :
  exists k t,
    Scraper.scrape_live_rates Scraper.sample_page Samples.down "USD" 0 = (Ok [], k, t)
    /\ List.length (Scraper.errors t) = 1.
Proof.
  assert (H : exists e,
             returned (requests_get_with_retry Samples.down (Scraper.table_url "USD") 3) 0
             = Raise e) by (eexists; vm_compute; reflexivity).
  destruct H as (e & H).
  destruct (scrape_live_rates_failure Scraper.sample_page Samples.down "USD" 0 e
              (or_introl H))
    as (k & t & E & Er & _).
  exists k, t. split; [exact E |]. rewrite Er. reflexivity.
Defined.

(** X20. When the request returns and the HTML parser gives a page,
    [scrape_live_rates] returns the frame [parse_exchange_table] gives for
    that page, and shows no error box; after the parse it shows the
    warning "No live exchange rate data found." when the frame is empty
    and logs the number of rates otherwise. *)
Theorem scrape_live_rates_success (bs : Response -> result Soup) (net : network)
        (base : string) (n : nat) (response : Response) (page : Soup) :
  let req := requests_get_with_retry net (Scraper.table_url base) 3 in
  returned req n = Ok response ->
  bs response = Ok page ->
  exists df k t,
    Scraper.scrape_live_rates bs net base n = (Ok df, k, t)
    /\ returned (Live.parse_exchange_table page) (counter req n) = Ok df
    /\ Scraper.errors t = []
    /\ exists t0, Scraper.core_events t = t0 ++ [Scraper.found base df].
Proof.
  cbv zeta. intros R Hp.
  destruct (scrape_live_rates_ok bs net base n response page R Hp)
    as (df & t' & P & E).
  rewrite E. eexists. eexists. eexists. split; [reflexivity |].
  split; [unfold returned; rewrite P; reflexivity |].
  split.
  - cbn [Scraper.errors]. rewrite !errors_app, !errors_core. reflexivity.
  - exists (trace (requests_get_with_retry net (Scraper.table_url base) 3) n ++ t').
    cbn [Scraper.core_events].
    rewrite !core_events_app, !core_events_core. cbn.
    rewrite app_nil_r, app_assoc. reflexivity.
Qed.

Lemma scrape_live_rates_success_witness :
  exists df k t,
    Scraper.scrape_live_rates Scraper.sample_page Samples.flaky "USD" 0 = (Ok df, k, t)
    /\ Scraper.errors t = [].
Proof.
  destruct (scrape_live_rates_success Scraper.sample_page Samples.flaky "USD" 0 _ _
              ltac:(vm_compute; reflexivity) eq_refl)
    as (df & k & t & E & _ & Er & _).
  exists df, k, t. auto.
Defined.

(** ** Different days, different texts *)

Lemma month_days_back (leapyear : bool) :
  Spec.all_from (Calendar.month_day_back_ok leapyear) 0 (Z.to_nat 365) = true.
Proof. destruct leapyear; vm_compute; reflexivity. Qed.

(** From the ordinal to year, month and day, and back. *)
Lemma ymd2ord_ord2ymd (o : Z) :
  (1 <= o)%Z ->
  let '(y, m, d) := ord2ymd o in Calendar.ymd2ord y m d = o.
Proof.
  unfold ord2ymd. intros H.
  set (n0 := (o - 1)%Z).
  set (n400 := (n0 / 146097)%Z). set (r := (n0 mod 146097)%Z).
  set (n100 := (r / 36524)%Z). set (r1 := (r mod 36524)%Z).
  set (n4 := (r1 / 1461)%Z). set (r2 := (r1 mod 1461)%Z).
  set (n1 := (r2 / 365)%Z). set (n := (r2 mod 365)%Z).
  assert (F : (0 <= n400 /\ 0 <= n100 <= 4 /\ 0 <= n4 <= 24 /\ 0 <= n1 <= 4
               /\ 0 <= n < 365
               /\ o - 1 = 146097 * n400 + 36524 * n100 + 1461 * n4 + 365 * n1 + n
               /\ (n1 = 4 -> n4 <= 23 /\ n = 0)
               /\ (n100 = 4 -> n4 = 0 /\ n1 = 0 /\ n = 0))%Z).
  { subst n400 r n100 r1 n4 r2 n1 n n0. Z.to_euclidean_division_equations.
    repeat split; lia. }
  destruct F as (F400 & F100 & F4 & F1 & Fn & Fo & Fq & Fc).
  cbv zeta.
  destruct ((n1 =? 4) || (n100 =? 4))%Z eqn:Sp.
  - assert (L : Calendar.is_leap (n400 * 400 + 1 + n100 * 100 + n4 * 4 + n1 - 1) = true).
    { unfold Calendar.is_leap.
      apply orb_prop in Sp. destruct Sp as [Sp | Sp]; apply Z.eqb_eq in Sp.
      - replace ((n400 * 400 + 1 + n100 * 100 + n4 * 4 + n1 - 1) mod 4 =? 0)%Z with true
          by (symmetry; apply Z.eqb_eq; Z.to_euclidean_division_equations; lia).
        replace ((n400 * 400 + 1 + n100 * 100 + n4 * 4 + n1 - 1) mod 100 =? 0)%Z with false
          by (symmetry; apply Z.eqb_neq; Z.to_euclidean_division_equations; lia).
        reflexivity.
      - replace ((n400 * 400 + 1 + n100 * 100 + n4 * 4 + n1 - 1) mod 4 =? 0)%Z with true
          by (symmetry; apply Z.eqb_eq; Z.to_euclidean_division_equations; lia).
        replace ((n400 * 400 + 1 + n100 * 100 + n4 * 4 + n1 - 1) mod 400 =? 0)%Z with true
          by (symmetry; apply Z.eqb_eq; Z.to_euclidean_division_equations; lia).
        apply orb_true_r. }
    unfold Calendar.ymd2ord. rewrite L. cbn [Z.ltb Z.compare andb days_before_month].
    unfold Calendar.days_before_year. cbv zeta.
    apply orb_prop in Sp. destruct Sp as [Sp | Sp]; apply Z.eqb_eq in Sp;
      change (days_before_month 12 + (if (2 <? 12) && true then 1 else 0))%Z
        with 335%Z;
      Z.to_euclidean_division_equations; lia.
  - apply orb_false_elim in Sp. destruct Sp as [S1 S2].
    apply Z.eqb_neq in S1, S2.
    set (leapyear := ((n1 =? 3) && (negb (n4 =? 24) || (n100 =? 3)))%Z).
    assert (L : Calendar.is_leap (n400 * 400 + 1 + n100 * 100 + n4 * 4 + n1) = leapyear).
    { unfold Calendar.is_leap, leapyear.
      destruct (Z.eqb_spec n1 3) as [E1 | E1].
      - replace ((n400 * 400 + 1 + n100 * 100 + n4 * 4 + n1) mod 4 =? 0)%Z with true
          by (symmetry; apply Z.eqb_eq; Z.to_euclidean_division_equations; lia).
        cbn [andb]. destruct (Z.eqb_spec n4 24) as [E4 | E4]; cbn [negb orb].
        + replace ((n400 * 400 + 1 + n100 * 100 + n4 * 4 + n1) mod 100 =? 0)%Z with true
            by (symmetry; apply Z.eqb_eq; Z.to_euclidean_division_equations; lia).
          cbn [negb orb]. destruct (Z.eqb_spec n100 3) as [E100 | E100].
          * apply Z.eqb_eq. Z.to_euclidean_division_equations. lia.
          * apply Z.eqb_neq. Z.to_euclidean_division_equations. lia.
        + replace ((n400 * 400 + 1 + n100 * 100 + n4 * 4 + n1) mod 100 =? 0)%Z with false
            by (symmetry; apply Z.eqb_neq; Z.to_euclidean_division_equations; lia).
          reflexivity.
      - replace ((n400 * 400 + 1 + n100 * 100 + n4 * 4 + n1) mod 4 =? 0)%Z with false
          by (symmetry; apply Z.eqb_neq; Z.to_euclidean_division_equations; lia).
        reflexivity. }
    pose proof (all_from_spec _ _ _ (month_days_back leapyear) n
                  ltac:(rewrite Z2Nat.id; lia)) as C.
    unfold Calendar.month_day_back_ok, Spec.month_day in C. cbv zeta in C.
    revert C. destruct (_ <? _)%Z; intros C; apply Z.eqb_eq in C;
      unfold Calendar.ymd2ord; rewrite L;
      unfold Calendar.days_before_year; cbv zeta;
      Z.to_euclidean_division_equations; lia.
Qed.

Lemma years_back :
  Spec.all_from (fun y => (Calendar.number_of (digits_of y) =? y)%Z
                          && PyStr.forallb_str PyStr.isdigit (digits_of y))
                1 (Z.to_nat 9999)
  = true.
Proof. vm_cast_no_check (eq_refl true). Qed.

Lemma days_back :
  Spec.all_from (fun d => Calendar.number_of (decimal 2 d) =? d)%Z 1 (Z.to_nat 31)
  = true.
Proof. vm_cast_no_check (eq_refl true). Qed.

Lemma digits_of_injective (y1 y2 : Z) :
  (1 <= y1 <= 9999)%Z -> (1 <= y2 <= 9999)%Z ->
  digits_of y1 = digits_of y2 -> y1 = y2.
Proof.
  intros H1 H2 E.
  pose proof (all_from_spec _ _ _ years_back y1 ltac:(rewrite Z2Nat.id; lia)) as B1.
  pose proof (all_from_spec _ _ _ years_back y2 ltac:(rewrite Z2Nat.id; lia)) as B2.
  cbv beta in B1, B2. apply andb_prop in B1, B2.
  destruct B1 as (B1 & _). destruct B2 as (B2 & _).
  apply Z.eqb_eq in B1, B2. congruence.
Qed.

Lemma decimal_2_injective (d1 d2 : Z) :
  (1 <= d1 <= 31)%Z -> (1 <= d2 <= 31)%Z ->
  decimal 2 d1 = decimal 2 d2 -> d1 = d2.
Proof.
  intros H1 H2 E.
  pose proof (all_from_spec _ _ _ days_back d1 ltac:(rewrite Z2Nat.id; lia)) as B1.
  pose proof (all_from_spec _ _ _ days_back d2 ltac:(rewrite Z2Nat.id; lia)) as B2.
  cbv beta in B1, B2. apply Z.eqb_eq in B1, B2. congruence.
Qed.

(** Two texts of digits, each followed by a hyphen: the first hyphen
    tells where the digits end. *)
Lemma hyphen_split (s1 : string) :
  forall s2 r1 r2,
    PyStr.forallb_str PyStr.isdigit s1 = true ->
    PyStr.forallb_str PyStr.isdigit s2 = true ->
    (s1 ++ String "-" r1 = s2 ++ String "-" r2)%string ->
    s1 = s2 /\ r1 = r2.
Proof.
  induction s1 as [| c s1 IH]; intros [| c2 s2] r1 r2 D1 D2 E;
    cbv [String.append] in E; fold String.append in E.
  - injection E as <-. auto.
  - injection E as <- _. cbn in D2. discriminate D2.
  - injection E as -> _. cbn in D1. discriminate D1.
  - injection E as <- E. cbn [PyStr.forallb_str] in D1, D2.
    apply andb_prop in D1, D2. destruct D1 as (_ & D1). destruct D2 as (_ & D2).
    destruct (IH s2 r1 r2 D1 D2 E) as (-> & ->). auto.
Qed.

(** Different valid days have different texts. *)
Lemma date_string_injective (o1 o2 : Z) :
  (1 <= o1 <= MAXORDINAL)%Z -> (1 <= o2 <= MAXORDINAL)%Z ->
  Spec.date_string o1 = Spec.date_string o2 -> o1 = o2.
Proof.
  intros H1 H2 E. unfold Spec.date_string, strftime in E. cbn [toordinal] in E.
  pose proof (ord2ymd_range o1 H1) as R1. pose proof (ord2ymd_range o2 H2) as R2.
  pose proof (ymd2ord_ord2ymd o1 ltac:(lia)) as Q1.
  pose proof (ymd2ord_ord2ymd o2 ltac:(lia)) as Q2.
  destruct (ord2ymd o1) as [[y1 m1] d1]. destruct (ord2ymd o2) as [[y2 m2] d2].
  destruct R1 as (Hy1 & Hm1 & Hd1). destruct R2 as (Hy2 & Hm2 & Hd2).
  assert (Hm1' : (1 <= m1 <= 31)%Z) by lia. assert (Hm2' : (1 <= m2 <= 31)%Z) by lia.
  pose proof (all_from_spec _ _ _ years_back y1 ltac:(rewrite Z2Nat.id; lia)) as B1.
  pose proof (all_from_spec _ _ _ years_back y2 ltac:(rewrite Z2Nat.id; lia)) as B2.
  cbv beta in B1, B2. apply andb_prop in B1, B2.
  destruct B1 as (_ & B1). destruct B2 as (_ & B2).
  destruct (hyphen_split _ _ _ _ B1 B2 E) as (Ey & E').
  destruct (all_digits_2 _ (all_from_spec _ _ _ days_two_digits m1
                              ltac:(rewrite Z2Nat.id; lia))) as (? & ? & Em1 & _).
  destruct (all_digits_2 _ (all_from_spec _ _ _ days_two_digits m2
                              ltac:(rewrite Z2Nat.id; lia))) as (? & ? & Em2 & _).
  destruct (all_digits_2 _ (all_from_spec _ _ _ days_two_digits d1
                              ltac:(rewrite Z2Nat.id; lia))) as (? & ? & Ed1 & _).
  destruct (all_digits_2 _ (all_from_spec _ _ _ days_two_digits d2
                              ltac:(rewrite Z2Nat.id; lia))) as (? & ? & Ed2 & _).
  assert (Em : decimal 2 m1 = decimal 2 m2 /\ decimal 2 d1 = decimal 2 d2).
  { rewrite Em1, Em2, Ed1, Ed2 in *.
    cbv [String.append] in E'. injection E' as -> -> -> ->. auto. }
  destruct Em as (Em & Ed).
  apply digits_of_injective in Ey; [| lia | lia].
  apply decimal_2_injective in Em; [| lia | lia].
  apply decimal_2_injective in Ed; [| lia | lia].
  congruence.
Qed.

(** The list [generate_date_list] returns under a steady clock. *)
Lemma generate_date_list_steady (now : clock) (days today : Z) :
  (days <= today <= MAXORDINAL)%Z ->
  (forall i, i < Z.to_nat days -> toordinal (now i) = today) ->
  Hist.generate_date_list now days
  = Ok (rev (map (fun i : nat => Spec.date_string (today - Z.of_nat i))
                 (seq 0 (Z.to_nat days)))).
Proof.
  intros Ht Hnow. unfold Hist.generate_date_list, Hist.range.
  rewrite (comprehension_ok _ (fun i : nat => Spec.date_string (today - Z.of_nat i)));
    [reflexivity |].
  intros i Hi. apply in_seq in Hi. apply date_back_ok; [apply Hnow; lia | lia].
Qed.

(** X21. Under the conditions of the date window (a window that stays
    after 0001-01-01, all clock readings on one day), the dates
    [generate_date_list] returns are pairwise different. *)
Theorem generate_date_list_distinct (now : clock) (days today : Z) :
  (days <= today <= MAXORDINAL)%Z ->
  (forall i, i < Z.to_nat days -> toordinal (now i) = today) ->
  exists dates, Hist.generate_date_list now days = Ok dates /\ NoDup dates.
Proof.
  intros Ht Hnow. rewrite (generate_date_list_steady now days today Ht Hnow).
  eexists. split; [reflexivity |].
  apply NoDup_rev, NoDup_map_NoDup_ForallPairs; [| apply seq_NoDup].
  intros i j Hi Hj E. apply in_seq in Hi, Hj.
  apply date_string_injective in E; lia.
Qed.

Lemma generate_date_list_distinct_witness :
  exists dates, Hist.generate_date_list Samples.steady 30 = Ok dates /\ NoDup dates.
Proof.
  apply (generate_date_list_distinct Samples.steady 30 739924).
  - unfold MAXORDINAL. lia.
  - intros i _. reflexivity.
Defined.

Lemma assembled_keys_nodup (dates : list string) :
  forall outcomes,
    NoDup dates ->
    (forall o rates, In o outcomes -> Spec.rates_of o = Some rates ->
                     NoDup (map fst rates)) ->
    NoDup (map Spec3.key (Spec.assembled dates outcomes)).
Proof.
  induction dates as [| d dates IH]; intros [| o os] Hd Hk; try constructor.
  cbn [Spec.assembled]. rewrite map_app. inversion Hd as [| ? ? Hnotin Hd']; subst.
  apply NoDup_app.
  - unfold Spec.rates_list.
    destruct (Spec.rates_of o) as [rates |] eqn:E; [| constructor].
    specialize (Hk o rates (or_introl eq_refl) E).
    clear E. induction rates as [| [c v] rates IHr]; [constructor |].
    cbn in *. inversion Hk as [| ? ? Hc Hk']; subst. constructor; [| auto].
    intros Hin. apply Hc. apply in_map_iff in Hin.
    destruct Hin as (rec & Erec & Hin). apply in_map_iff in Hin.
    destruct Hin as ([c' v'] & <- & Hin). unfold Spec3.key in Erec. cbn in Erec.
    injection Erec as ->.
    apply in_map_iff. exists (c, v'). auto.
  - apply IH; [exact Hd' |]. intros o' rates Hin. apply Hk. right. exact Hin.
  - intros [dd cc] H1 H2. apply Hnotin.
    assert (dd = d).
    { apply in_map_iff in H1. destruct H1 as (rec & Erec & Hin).
      unfold Hist.records in Hin. apply in_map_iff in Hin.
      destruct Hin as ([c v] & <- & _). unfold Spec3.key in Erec. cbn in Erec.
      congruence. }
    subst dd. apply in_map_iff in H2. destruct H2 as (rec & Erec & Hin).
    apply (dates_column_in dates os). rewrite <- assembled_dates.
    apply in_map_iff. exists rec. split; [| exact Hin].
    unfold Spec3.key in Erec. cbn in Erec. congruence.
Qed.

(** X22. The pair of date and currency is unique within the frame
    [fetch_historical_data] returns, provided the generated dates are
    pairwise different and every rates mapping the network answers with
    has pairwise different keys (as the mappings of decoded JSON have). *)
Theorem fetch_historical_data_unique_keys (now : clock) (net : network)
        (base : string) (days : Z) (dates : list string) (n : nat)
        (df : Hist.DataFrame) :
  Hist.generate_date_list now days = Ok dates ->
  NoDup dates ->
  (forall k url r rates,
      net k url = Answer r -> Spec.rates_of_response r = Some rates ->
      NoDup (map fst rates)) ->
  returned (Hist.fetch_historical_data now net base days) n = Ok df ->
  NoDup (map Spec3.key df).
Proof.
  intros G Hd Hnet H. unfold returned in H.
  rewrite (fetch_historical_data_trace now net base days dates n G) in H.
  cbn [fst] in H. injection H as <-.
  apply assembled_keys_nodup; [exact Hd |].
  intros o rates Ho R.
  destruct (day_requests_provenance _ _ _ _ _ Ho) as (date & j & _ & ->).
  destruct (returned (requests_get_with_retry net (Hist.day_url base date) 3) j)
    as [r | e] eqn:Er; [| discriminate R].
  destruct (requests_get_with_retry_facts net (Hist.day_url base date) 3 j r Er)
    as (i & final & Hi).
  exact (Hnet i final r rates Hi R).
Qed.

Lemma fetch_historical_data_unique_keys_witness :
  exists df,
    returned (Hist.fetch_historical_data Samples.steady Samples.scenario "USD" 3) 0 = Ok df
    /\ NoDup (map Spec3.key df).
Proof.
  eexists. split; [vm_compute; reflexivity |].
  apply (fetch_historical_data_unique_keys
           Samples.steady Samples.scenario "USD" 3
           ["2026-11-02"; "2026-11-03"; "2026-11-04"] 0).
  - vm_compute. reflexivity.
  - repeat (constructor; [cbn [In]; intuition discriminate |]). constructor.
  - intros k url r rates A R.
    destruct k as [| [| k]]; cbn in A; injection A as <-;
      cbn in R; try discriminate R; injection R as <-;
      repeat constructor; cbn; tauto.
  - vm_compute. reflexivity.
Defined.

(** ** The requested symbols *)

Lemma filter_out_absent (x : string) (l : list string) :
  ~ In x l -> filter (fun c => negb (String.eqb c x)) l = l.
Proof.
  induction l as [| y l IH]; intros H; [reflexivity |].
  cbn [filter]. destruct (String.eqb_spec y x) as [-> | Hne].
  - exfalso. apply H. left. reflexivity.
  - cbn [negb]. rewrite IH; [reflexivity |]. intros Hin. apply H. right. exact Hin.
Qed.

Lemma remove_first_filter (x : string) (l : list string) :
  NoDup l -> Hist.remove_first x l = filter (fun c => negb (String.eqb c x)) l.
Proof.
  induction 1 as [| y l Hy Hl IH]; [reflexivity |].
  cbn [Hist.remove_first filter]. destruct (String.eqb_spec y x) as [-> | Hne].
  - cbn [negb]. symmetry. apply filter_out_absent. exact Hy.
  - cbn [negb]. rewrite IH. reflexivity.
Qed.

(** X23. The symbols requested for a base are the eight currencies in
    their fixed order with the base left out: seven symbols for a base of
    the list, all eight for any other base. *)
Theorem target_currencies_filter (base : string) :
  Hist.target_currencies base
  = filter (fun c => negb (String.eqb c base)) Hist.all_currencies
  /\ (In base Hist.all_currencies -> List.length (Hist.target_currencies base) = 7)
  /\ (~ In base Hist.all_currencies -> Hist.target_currencies base = Hist.all_currencies).
Proof.
  assert (E : Hist.target_currencies base
              = filter (fun c => negb (String.eqb c base)) Hist.all_currencies).
  { unfold Hist.target_currencies.
    destruct (existsb (String.eqb base) Hist.all_currencies) eqn:X.
    - apply remove_first_filter, all_currencies_nodup.
    - symmetry. apply filter_out_absent. intros Hin.
      assert (existsb (String.eqb base) Hist.all_currencies = true)
        by (apply existsb_exists; exists base; split; [exact Hin | apply String.eqb_refl]).
      congruence. }
  split; [exact E |]. split.
  - intros Hin. rewrite E. unfold Hist.all_currencies in *. cbn [In] in Hin.
    repeat (destruct Hin as [<- | Hin]; [reflexivity |]). destruct Hin.
  - intros Hn. rewrite E. apply filter_out_absent. exact Hn.
Qed.

Lemma target_currencies_filter_witness :
  In "USD" Hist.all_currencies /\ List.length (Hist.target_currencies "USD") = 7.
Proof.
  assert (H : In "USD" Hist.all_currencies) by (right; left; reflexivity).
  split; [exact H |].
  exact (proj1 (proj2 (target_currencies_filter "USD")) H).
Defined.

(** ** The CSV export and its reader *)

Arguments String.append !s1 s2 : simpl nomatch.





Section RoundTrip.

Variable quote : string -> string.
Variable show_rate : pyvalue -> string.
Variable read_rate : string -> option pyvalue.

Hypothesis quote_plain : forall s, Csv.plain s = true -> quote s = s.







End RoundTrip.



